(** * ListingCraft: quota-gated usage accounting and billing reconciliation

    A shallow embedding of [apps/subscriptions/models.py] and
    [apps/subscriptions/services.py]: the three tables (plans,
    subscriptions, usage records), the billing-period computation of
    [Usage.get_or_create_current], the quota gate
    ([check_usage_quota], [increment_usage]) and the Stripe event
    handlers of [SubscriptionService].

    The database is passed explicitly: every operation takes the
    tables and returns them, with the value returned or the exception
    raised.  Each [timezone.now()] the source reads is an argument of
    the operation that reads it.  Writes are committed as they are
    made (the project does not set [ATOMIC_REQUESTS]), so an exception
    raised after a [save()] leaves the saved row in place.  The columns
    [created_at] and [updated_at], which the ORM maintains, are not
    modelled, and requests are taken one at a time.  The percentage
    of the quota warnings is computed in binary64, as Python computes
    [(count / quota) * 100].

    Around this core the development also embeds the callers and the
    siblings of the quota gate: [handle_checkout_session_completed],
    the views [stripe_webhook] and [cancel_subscription], the model
    methods [has_quota_remaining], [is_current_period] and
    [days_until_renewal], the subject line of
    [EmailService.send_quota_warning], and
    [ListingService.regenerate_description].  What lies outside the
    three tables (the Stripe client, the description generator, the
    user table, the e-mail transports) enters as a parameter. *)

From stdpp Require Import base option list gmap fin_maps strings.
From Stdlib Require Import ZArith Lia.
From Stdlib Require PrimFloat Uint63.

Local Open Scope Z_scope.

(** ** Exceptions and results *)

(** The exceptions the modelled code can raise.  [DoesNotExist] and
    [MultipleObjectsReturned] come from [Manager.get]; [TypeError],
    [ValueError], [OverflowError] and [OSError] from the [datetime]
    constructors. *)
Inductive exn : Set :=
  | DoesNotExist
  | MultipleObjectsReturned
  | TypeError
  | ValueError
  | OverflowError
  | OSError.

Inductive result (A : Type) : Type :=
  | Ok (a : A)
  | Raise (e : exn).

Arguments Ok {A} a.
Arguments Raise {A} e.

#[global] Instance exn_eq_dec : EqDecision exn.
Proof. solve_decision. Defined.

#[global] Instance result_eq_dec {A : Type} `{EqDecision A} :
  EqDecision (result A).
Proof. solve_decision. Defined.

Definition bind {A B : Type} (r : result A) (k : A → result B) : result B :=
  match r with
  | Ok a => k a
  | Raise e => Raise e
  end.

(** ** Calendar arithmetic of [datetime] (proleptic Gregorian, UTC) *)

Module Calendar.

Definition MINYEAR : Z := 1.
Definition MAXYEAR : Z := 9999.

Record datetime : Set := mk_datetime {
  year : Z;
  month : Z;
  day : Z;
  hour : Z;
  minute : Z;
  second : Z;
  microsecond : Z
}.

Definition is_leap (y : Z) : bool :=
  (y mod 4 =? 0) && (negb (y mod 100 =? 0) || (y mod 400 =? 0)).

Definition days_in_month (y m : Z) : Z :=
  match m with
  | 2 => if is_leap y then 29 else 28
  | 4 | 6 | 9 | 11 => 30
  | _ => 31
  end.

(** Days in the year before the first day of month [m], for a common
    year ([_DAYS_BEFORE_MONTH]). *)
Definition DAYS_BEFORE_MONTH (m : Z) : Z :=
  match m with
  | 1 => 0 | 2 => 31 | 3 => 59 | 4 => 90 | 5 => 120 | 6 => 151
  | 7 => 181 | 8 => 212 | 9 => 243 | 10 => 273 | 11 => 304 | 12 => 334
  | _ => 365
  end.

Definition days_before_year (y : Z) : Z :=
  let y1 := y - 1 in y1 * 365 + y1 / 4 - y1 / 100 + y1 / 400.

Definition days_before_month (y m : Z) : Z :=
  DAYS_BEFORE_MONTH m + (if (2 <? m) && is_leap y then 1 else 0).

(** Ordinal of a date, 0001-01-01 being day 1. *)
Definition ymd2ord (y m d : Z) : Z :=
  days_before_year y + days_before_month y m + d.

Definition DI400Y : Z := 146097.
Definition DI100Y : Z := 36524.
Definition DI4Y : Z := 1461.
Definition MAXORDINAL : Z := 3652059.

(** The month search that ends [datetime._ord2ymd]: month and day of
    the [n]-th day (from 0) of a year. *)
Definition doy2md (leapyear : bool) (n : Z) : Z * Z :=
  let m := Z.shiftr (n + 50) 5 in
  let preceding :=
    DAYS_BEFORE_MONTH m + (if (2 <? m) && leapyear then 1 else 0) in
  if n <? preceding then
    let m' := m - 1 in
    let dim :=
      (match m' with
       | 2 => 28 | 4 | 6 | 9 | 11 => 30 | _ => 31
       end) + (if (m' =? 2) && leapyear then 1 else 0) in
    (m', n - (preceding - dim) + 1)
  else (m, n - preceding + 1).

(** The inverse of [ymd2ord], following [datetime._ord2ymd]. *)
Definition ord2ymd (n0 : Z) : Z * Z * Z :=
  let n := n0 - 1 in
  let n400 := n / DI400Y in
  let n := n mod DI400Y in
  let n100 := n / DI100Y in
  let n := n mod DI100Y in
  let n4 := n / DI4Y in
  let n := n mod DI4Y in
  let n1 := n / 365 in
  let n := n mod 365 in
  let y := n400 * 400 + 1 + n100 * 100 + n4 * 4 + n1 in
  if (n1 =? 4) || (n100 =? 4) then (y - 1, 12, 31)
  else
    let leapyear := (n1 =? 3) && (negb (n4 =? 24) || (n100 =? 3)) in
    let '(m, d) := doy2md leapyear n in (y, m, d).

Definition valid_datetime (dt : datetime) : Prop :=
  MINYEAR ≤ year dt ≤ MAXYEAR ∧ 1 ≤ month dt ≤ 12 ∧
  1 ≤ day dt ≤ days_in_month (year dt) (month dt) ∧
  0 ≤ hour dt < 24 ∧ 0 ≤ minute dt < 60 ∧ 0 ≤ second dt < 60 ∧
  0 ≤ microsecond dt < 1000000.

Definition valid_datetimeb (dt : datetime) : bool :=
  (MINYEAR <=? year dt) && (year dt <=? MAXYEAR) &&
  (1 <=? month dt) && (month dt <=? 12) &&
  (1 <=? day dt) && (day dt <=? days_in_month (year dt) (month dt)) &&
  (0 <=? hour dt) && (hour dt <? 24) &&
  (0 <=? minute dt) && (minute dt <? 60) &&
  (0 <=? second dt) && (second dt <? 60) &&
  (0 <=? microsecond dt) && (microsecond dt <? 1000000).

(** Position of an instant on the time line, in microseconds since
    the start of ordinal day 0. *)
Definition to_micros (dt : datetime) : Z :=
  ((ymd2ord (year dt) (month dt) (day dt) * 86400
    + hour dt * 3600 + minute dt * 60 + second dt) * 1000000)
  + microsecond dt.

Definition of_micros (us : Z) : datetime :=
  let secs := us / 1000000 in
  let days := secs / 86400 in
  let rem := secs mod 86400 in
  let '(y, m, d) := ord2ymd days in
  {| year := y; month := m; day := d;
     hour := rem / 3600; minute := (rem mod 3600) / 60;
     second := rem mod 60; microsecond := us mod 1000000 |}.

(** [dt + timedelta(seconds=s)]: normalise on the time line and
    raise [OverflowError] outside ordinals [1 .. MAXORDINAL]. *)
Definition add_seconds (dt : datetime) (s : Z) : result datetime :=
  let us := to_micros dt + s * 1000000 in
  let days := us / 1000000 / 86400 in
  if (0 <? days) && (days <=? MAXORDINAL) then Ok (of_micros us)
  else Raise OverflowError.

(** [dt - timedelta(seconds=s)]. *)
Definition sub_seconds (dt : datetime) (s : Z) : result datetime :=
  add_seconds dt (- s).

(** [dt.replace(...)] re-validates the fields and raises
    [ValueError] when they do not form a date. *)
Definition checked (dt : datetime) : result datetime :=
  if valid_datetimeb dt then Ok dt else Raise ValueError.

Definition EPOCH_ORDINAL : Z := 719163.

(** The timestamps [gmtime] accepts where [time_t] has 64 bits and
    the year of [struct tm] is an [int]: from the first second of year
    -2147481748 to the last second of year 2147485547. *)
Definition GMTIME_MIN : Z := -67768040609740800.
Definition GMTIME_MAX : Z := 67768036191676799.

(** [datetime.fromtimestamp(ts, tz=timezone.utc)] on an integer
    timestamp, as CPython evaluates it on a 64-bit Linux: the
    timestamp is converted to [time_t] ([OverflowError] when it does
    not fit), [gmtime] splits it into fields ([OSError] when the year
    does not fit), and the datetime is built ([ValueError] for a year
    outside 1 .. 9999).  [None] stands for a missing payload field, on
    which the call raises [TypeError]. *)
Definition fromtimestamp (ts : option Z) : result datetime :=
  match ts with
  | None => Raise TypeError
  | Some t =>
      if (t <? - 2 ^ 63) || (2 ^ 63 <=? t) then Raise OverflowError
      else if (t <? GMTIME_MIN) || (GMTIME_MAX <? t) then Raise OSError
      else
        let us := (EPOCH_ORDINAL * 86400 + t) * 1000000 in
        let days := us / 1000000 / 86400 in
        if (0 <? days) && (days <=? MAXORDINAL) then Ok (of_micros us)
        else Raise ValueError
  end.

(** Comparison of two aware UTC datetimes. *)
Definition dt_leb (a b : datetime) : bool := to_micros a <=? to_micros b.

#[global] Instance datetime_eq_dec : EqDecision datetime.
Proof. solve_decision. Defined.

End Calendar.

Import Calendar.

(** ** Data model ([models.py]) *)

Inductive Status : Set := ACTIVE | TRIALING | PAST_DUE | CANCELED | UNPAID.

#[global] Instance Status_eq_dec : EqDecision Status.
Proof. solve_decision. Defined.

(** [SubscriptionPlan]; [description_quota = -1] means unlimited. *)
Record SubscriptionPlan : Set := mk_plan {
  plan_name : string;
  description_quota : Z;
  plan_is_active : bool
}.

(** [UserSubscription].  The [user] column is a [OneToOneField], hence
    unique: the table is keyed by the user's id. *)
Record UserSubscription : Set := mk_subscription {
  sub_plan : Z;
  stripe_subscription_id : string;
  stripe_customer_id : string;
  status : Status;
  current_period_start : option datetime;
  current_period_end : option datetime;
  trial_end : option datetime;
  cancel_at_period_end : bool;
  canceled_at : option datetime
}.

(** [Usage], one row per user and period; rows are keyed by their
    primary key. *)
Record Usage : Set := mk_usage {
  usage_user : Z;
  descriptions_generated : Z;
  period_start : datetime;
  period_end : datetime
}.

#[global] Instance SubscriptionPlan_eq_dec : EqDecision SubscriptionPlan.
Proof. solve_decision. Defined.
#[global] Instance UserSubscription_eq_dec : EqDecision UserSubscription.
Proof. solve_decision. Defined.
#[global] Instance Usage_eq_dec : EqDecision Usage.
Proof. solve_decision. Defined.

Record DB : Type := mk_db {
  plans : gmap Z SubscriptionPlan;
  subscriptions : gmap Z UserSubscription;
  usages : gmap Z Usage
}.

Definition set_usages (db : DB) (us : gmap Z Usage) : DB :=
  {| plans := plans db; subscriptions := subscriptions db; usages := us |}.

Definition set_subscriptions (db : DB) (ss : gmap Z UserSubscription) : DB :=
  {| plans := plans db; subscriptions := ss; usages := usages db |}.

(** ** The ORM operations the code relies on *)

Module Manager.

(** [objects.get(...)]: the single row matching [P]. *)
Definition get {V : Type} (P : Z * V → Prop) `{!∀ kv, Decision (P kv)}
    (m : gmap Z V) : result (Z * V) :=
  match map_to_list (filter P m) with
  | [] => Raise DoesNotExist
  | [kv] => Ok kv
  | _ => Raise MultipleObjectsReturned
  end.

(** Primary key given to the next inserted row. *)
Definition next_pk {V : Type} (m : gmap Z V) : Z :=
  1 + map_fold (λ k _ acc, Z.max k acc) 0 m.

End Manager.

(** ** [Usage] model methods *)

(** The lookup [user=user, period_start__lte=now, period_end__gte=now]. *)
Definition covers (now : datetime) (r : Usage) : Prop :=
  dt_leb (period_start r) now = true ∧ dt_leb now (period_end r) = true.

Definition is_current (user : Z) (now : datetime) (kv : Z * Usage) : Prop :=
  usage_user kv.2 = user ∧ covers now kv.2.

#[global] Instance covers_dec now r : Decision (covers now r).
Proof. unfold covers. apply _. Defined.

#[global] Instance is_current_dec user now kv : Decision (is_current user now kv).
Proof. unfold is_current. apply _. Defined.

(** The period boundaries computed at the head of
    [Usage.get_or_create_current]. *)
Definition current_period (now : datetime) : result (datetime * datetime) :=
  bind (checked {| year := year now; month := month now; day := 1;
                   hour := 0; minute := 0; second := 0; microsecond := 0 |})
    (λ period_start,
      bind (if month period_start =? 12
            then checked {| year := year period_start + 1; month := 1;
                            day := day period_start; hour := hour period_start;
                            minute := minute period_start;
                            second := second period_start;
                            microsecond := microsecond period_start |}
            else checked {| year := year period_start;
                            month := month period_start + 1;
                            day := day period_start; hour := hour period_start;
                            minute := minute period_start;
                            second := second period_start;
                            microsecond := microsecond period_start |})
        (λ period_end,
          bind (sub_seconds period_end 1)
            (λ period_end, Ok (period_start, period_end)))).

(** [Usage.get_or_create_current(user)], reading the clock as [now]. *)
Definition get_or_create_current (now : datetime) (user : Z) (db : DB)
    : DB * result (Z * Usage) :=
  match current_period now with
  | Raise e => (db, Raise e)
  | Ok (ps, pe) =>
      match Manager.get (is_current user now) (usages db) with
      | Ok kv => (db, Ok kv)
      | Raise DoesNotExist =>
          let pk := Manager.next_pk (usages db) in
          let usage := {| usage_user := user; descriptions_generated := 0;
                          period_start := ps; period_end := pe |} in
          (set_usages db (<[pk := usage]> (usages db)), Ok (pk, usage))
      | Raise e => (db, Raise e)
      end
  end.

Inductive remaining : Set :=
  | Finite (n : Z)
  | Unlimited.

#[global] Instance remaining_eq_dec : EqDecision remaining.
Proof. solve_decision. Defined.

(** [Usage.get_remaining_quota(self)]. *)
Definition get_remaining_quota (usage : Usage) (db : DB) : result remaining :=
  match subscriptions db !! usage_user usage with
  | None => Ok (Finite 0)
  | Some subscription =>
      match plans db !! sub_plan subscription with
      | None => Raise DoesNotExist
      | Some plan =>
          if description_quota plan =? -1 then Ok Unlimited
          else Ok (Finite (Z.max 0 (description_quota plan
                                     - descriptions_generated usage)))
      end
  end.

(** ** Notifications ([EmailService]) *)

Inductive notification : Type :=
  | SubscriptionCancelled (user : Z) (subscription : UserSubscription)
  | PaymentFailed (user : Z) (subscription : UserSubscription)
  | QuotaWarning (user : Z) (usage : Usage) (subscription : UserSubscription).

(** One call of an [EmailService.send_*] method: what was sent, the
    database as it stood when the call was made, and whether the call
    returned ([true]) or raised ([false]). *)
Record attempt : Type := mk_attempt {
  att_note : notification;
  att_db : DB;
  att_delivered : bool
}.

(** What one service call leaves behind: the database, the value
    returned (or the exception that escaped), the e-mails attempted and
    the lines printed. *)
Record outcome (A : Type) : Type := mk_outcome {
  out_db : DB;
  out_ret : result A;
  out_mail : list attempt;
  out_log : list string
}.

Arguments mk_outcome {A} _ _ _ _.
Arguments out_db {A} _.
Arguments out_ret {A} _.
Arguments out_mail {A} _.
Arguments out_log {A} _.

(** ** Payloads of the billing events *)

(** The fields read from a [customer.subscription.*] object. *)
Record subscription_data : Set := mk_subscription_data {
  sd_id : option string;
  sd_status : option string;
  sd_current_period_start : option Z;
  sd_current_period_end : option Z;
  sd_cancel_at_period_end : option bool;
  sd_canceled_at : option Z
}.

(** The field read from an [invoice.*] object. *)
Record invoice_data : Set := mk_invoice_data {
  inv_subscription : option string
}.

(** ** Python arithmetic on the counters *)

(** The binary64 value of a small integer literal of the source (0,
    80, 90, 100), which is exact. *)
Definition float_of_int (n : Z) : PrimFloat.float :=
  PrimFloat.of_uint63 (Uint63.of_Z n).

(** [a / b] on two Python integers: the exact quotient, rounded once
    to the nearest binary64 value, ties to even.  The quotient of the
    absolute values is first taken to 55 or 56 bits, the last bit made
    odd when the division leaves a remainder; converting that integer
    to binary64 then rounds as the exact quotient would, and the power
    of two is put back.  The source divides by a positive quota only,
    and the counters fit the 64 bits of an integer column. *)
Definition true_divide (a b : Z) : PrimFloat.float :=
  let n := Z.abs a in
  let d := Z.abs b in
  if n =? 0 then PrimFloat.zero
  else
    let s := 55 - (Z.log2 n - Z.log2 d) in
    let num := if 0 <=? s then n * 2 ^ s else n in
    let den := if 0 <=? s then d else d * 2 ^ (- s) in
    let m := Z.lor (num / den) (if num mod den =? 0 then 0 else 1) in
    let f := PrimFloat.ldshiftexp (PrimFloat.of_uint63 (Uint63.of_Z m))
               (Uint63.of_Z (2101 - s)) in
    if xorb (a <? 0) (b <? 0) then PrimFloat.opp f else f.

(** [percentage = (count / quota) * 100]. *)
Definition percentage (count quota : Z) : PrimFloat.float :=
  PrimFloat.mul (true_divide count quota) (float_of_int 100).

(** ** [SubscriptionService] ([services.py]) *)

Module SubscriptionService.
Section Service.

(** [EMAIL_ENABLED]: whether the import of the e-mail service
    succeeded when the module was loaded. *)
Variable EMAIL_ENABLED : bool.

(** The e-mail transport: [true] when the send returns, [false] when
    it raises. *)
Variable transport : DB → notification → bool.

(** [try: EmailService.send_*(...) except Exception as e: print(...)]. *)
Definition try_send (db : DB) (n : notification) (msg : string)
    : list attempt * list string :=
  if transport db n
  then ([mk_attempt n db true], [])
  else ([mk_attempt n db false], [msg]).

Definition _map_stripe_status (stripe_status : option string) : Status :=
  match stripe_status with
  | Some "active" => ACTIVE
  | Some "trialing" => TRIALING
  | Some "past_due" => PAST_DUE
  | Some "canceled" => CANCELED
  | Some "unpaid" => UNPAID
  | _ => CANCELED
  end%string.

(** [UserSubscription.objects.get(stripe_subscription_id=subscription_id)]. *)
Definition has_stripe_id (subscription_id : option string)
    (kv : Z * UserSubscription) : Prop :=
  subscription_id = Some (stripe_subscription_id kv.2).

#[local] Instance has_stripe_id_dec sid kv : Decision (has_stripe_id sid kv).
Proof. unfold has_stripe_id. apply _. Defined.

Definition get_by_stripe_id (subscription_id : option string) (db : DB)
    : result (Z * UserSubscription) :=
  Manager.get (has_stripe_id subscription_id) (subscriptions db).

(** Truth value of an optional string ([if not subscription_id]). *)
Definition truthy_id (s : option string) : bool :=
  match s with
  | None => false
  | Some s => negb (String.eqb s "")
  end.

(** Truth value of an optional integer. *)
Definition truthy_int (n : option Z) : bool :=
  match n with
  | None => false
  | Some n => negb (n =? 0)
  end.

Definition handle_subscription_updated (data : subscription_data) (db : DB)
    : outcome (option (Z * UserSubscription)) :=
  match get_by_stripe_id (sd_id data) db with
  | Raise DoesNotExist => mk_outcome db (Ok None) [] []
  | Raise e => mk_outcome db (Raise e) [] []
  | Ok (user, subscription) =>
      let r :=
        bind (fromtimestamp (sd_current_period_start data)) (λ ps,
        bind (fromtimestamp (sd_current_period_end data)) (λ pe,
        bind (if truthy_int (sd_canceled_at data)
              then bind (fromtimestamp (sd_canceled_at data))
                        (λ c, Ok (Some c))
              else Ok (canceled_at subscription)) (λ ca,
        Ok {| sub_plan := sub_plan subscription;
              stripe_subscription_id := stripe_subscription_id subscription;
              stripe_customer_id := stripe_customer_id subscription;
              status := _map_stripe_status (sd_status data);
              current_period_start := Some ps;
              current_period_end := Some pe;
              trial_end := trial_end subscription;
              cancel_at_period_end :=
                default false (sd_cancel_at_period_end data);
              canceled_at := ca |}))) in
      match r with
      | Raise e => mk_outcome db (Raise e) [] []
      | Ok subscription' =>
          mk_outcome
            (set_subscriptions db (<[user := subscription']> (subscriptions db)))
            (Ok (Some (user, subscription'))) [] []
      end
  end.

Definition handle_subscription_deleted (now : datetime)
    (data : subscription_data) (db : DB)
    : outcome (option (Z * UserSubscription)) :=
  match get_by_stripe_id (sd_id data) db with
  | Raise DoesNotExist => mk_outcome db (Ok None) [] []
  | Raise e => mk_outcome db (Raise e) [] []
  | Ok (user, subscription) =>
      let subscription' :=
        {| sub_plan := sub_plan subscription;
           stripe_subscription_id := stripe_subscription_id subscription;
           stripe_customer_id := stripe_customer_id subscription;
           status := CANCELED;
           current_period_start := current_period_start subscription;
           current_period_end := current_period_end subscription;
           trial_end := trial_end subscription;
           cancel_at_period_end := cancel_at_period_end subscription;
           canceled_at := Some now |} in
      let db' :=
        set_subscriptions db (<[user := subscription']> (subscriptions db)) in
      let '(mail, log) :=
        if EMAIL_ENABLED
        then try_send db' (SubscriptionCancelled user subscription')
               "Failed to send cancellation email"
        else ([], []) in
      mk_outcome db' (Ok (Some (user, subscription'))) mail log
  end.

Definition handle_payment_failed (data : invoice_data) (db : DB)
    : outcome (option (Z * UserSubscription)) :=
  if negb (truthy_id (inv_subscription data))
  then mk_outcome db (Ok None) [] []
  else
    match get_by_stripe_id (inv_subscription data) db with
    | Raise DoesNotExist => mk_outcome db (Ok None) [] []
    | Raise e => mk_outcome db (Raise e) [] []
    | Ok (user, subscription) =>
        let subscription' :=
          {| sub_plan := sub_plan subscription;
             stripe_subscription_id := stripe_subscription_id subscription;
             stripe_customer_id := stripe_customer_id subscription;
             status := PAST_DUE;
             current_period_start := current_period_start subscription;
             current_period_end := current_period_end subscription;
             trial_end := trial_end subscription;
             cancel_at_period_end := cancel_at_period_end subscription;
             canceled_at := canceled_at subscription |} in
        let db' :=
          set_subscriptions db (<[user := subscription']> (subscriptions db)) in
        let '(mail, log) :=
          if EMAIL_ENABLED
          then try_send db' (PaymentFailed user subscription')
                 "Failed to send payment failure email"
          else ([], []) in
        mk_outcome db' (Ok (Some (user, subscription'))) mail log
    end.

Definition handle_payment_succeeded (now : datetime) (data : invoice_data)
    (db : DB) : outcome (option (Z * UserSubscription)) :=
  if negb (truthy_id (inv_subscription data))
  then mk_outcome db (Ok None) [] []
  else
    match get_by_stripe_id (inv_subscription data) db with
    | Raise DoesNotExist => mk_outcome db (Ok None) [] []
    | Raise e => mk_outcome db (Raise e) [] []
    | Ok (user, subscription) =>
        let '(subscription', db1) :=
          if bool_decide (status subscription = PAST_DUE
                          ∨ status subscription = UNPAID)
          then
            let s :=
              {| sub_plan := sub_plan subscription;
                 stripe_subscription_id := stripe_subscription_id subscription;
                 stripe_customer_id := stripe_customer_id subscription;
                 status := ACTIVE;
                 current_period_start := current_period_start subscription;
                 current_period_end := current_period_end subscription;
                 trial_end := trial_end subscription;
                 cancel_at_period_end := cancel_at_period_end subscription;
                 canceled_at := canceled_at subscription |} in
            (s, set_subscriptions db (<[user := s]> (subscriptions db)))
          else (subscription, db) in
        let '(db2, r) := get_or_create_current now user db1 in
        match r with
        | Raise e => mk_outcome db2 (Raise e) [] []
        | Ok _ => mk_outcome db2 (Ok (Some (user, subscription'))) [] []
        end
    end.

(** [check_usage_quota(user)], reading the clock as [now]. *)
Definition check_usage_quota (now : datetime) (user : Z) (db : DB)
    : DB * result (bool * remaining) :=
  match subscriptions db !! user with
  | None => (db, Ok (false, Finite 0))
  | Some subscription =>
      if negb (bool_decide (status subscription = ACTIVE
                            ∨ status subscription = TRIALING))
      then (db, Ok (false, Finite 0))
      else
        let '(db1, r) := get_or_create_current now user db in
        match r with
        | Raise e => (db1, Raise e)
        | Ok (_, usage) =>
            match plans db1 !! sub_plan subscription with
            | None => (db1, Raise DoesNotExist)
            | Some plan =>
                if description_quota plan =? -1
                then (db1, Ok (true, Unlimited))
                else
                  let remaining :=
                    description_quota plan - descriptions_generated usage in
                  (db1, Ok (0 <? remaining, Finite remaining))
            end
        end
  end.

(** [percentage >= k], on the binary64 value of the percentage. *)
Definition percentage_ge (count quota k : Z) : bool :=
  PrimFloat.leb (float_of_int k) (percentage count quota).

(** The condition under which [increment_usage] sends a warning. *)
Definition warning_due (count quota : Z) : bool :=
  percentage_ge count quota 100 || percentage_ge count quota 90
  || (percentage_ge count quota 80 && (count mod 10 =? 0)).

(** The tail of [increment_usage]: the quota warning sent, when one
    is due, after the incremented row [usage] has been saved.  The
    subscription and its plan are the objects the quota check has
    already loaded. *)
Definition quota_warning (user : Z) (usage : Usage) (db : DB)
    : list attempt * list string :=
  if EMAIL_ENABLED then
    match subscriptions db !! user with
    | None => ([], [])
    | Some subscription =>
        match plans db !! sub_plan subscription with
        | None => ([], [])
        | Some plan =>
            let quota := description_quota plan in
            if (0 <? quota)
               && warning_due (descriptions_generated usage) quota
            then try_send db (QuotaWarning user usage subscription)
                   "Failed to send quota warning email"
            else ([], [])
        end
    end
  else ([], []).

(** [increment_usage(user)]; the clock is read once by the quota
    check ([now1]) and once more when the record is fetched for the
    increment ([now2]). *)
Definition increment_usage (now1 now2 : datetime) (user : Z) (db : DB)
    : outcome bool :=
  let '(db1, r) := check_usage_quota now1 user db in
  match r with
  | Raise e => mk_outcome db1 (Raise e) [] []
  | Ok (has_quota, _) =>
      if negb has_quota then mk_outcome db1 (Ok false) [] []
      else
        let '(db2, r2) := get_or_create_current now2 user db1 in
        match r2 with
        | Raise e => mk_outcome db2 (Raise e) [] []
        | Ok (pk, usage) =>
            let usage' :=
              {| usage_user := usage_user usage;
                 descriptions_generated := descriptions_generated usage + 1;
                 period_start := period_start usage;
                 period_end := period_end usage |} in
            let db3 := set_usages db2 (<[pk := usage']> (usages db2)) in
            let '(mail, log) := quota_warning user usage' db3 in
            mk_outcome db3 (Ok true) mail log
        end
  end.

End Service.
End SubscriptionService.

Import SubscriptionService.

(** * Vocabulary of the statements *)

(** All (month, day, leap) combinations, checked by evaluation. *)
Definition doy2md_table_ok : bool :=
  forallb (λ leap : bool,
    forallb (λ m,
      forallb (λ d,
        let dim := if (m =? 2) && leap then 29 else days_in_month 1 m in
        if d <=? dim
        then bool_decide
               (doy2md leap (DAYS_BEFORE_MONTH m
                             + (if (2 <? m) && leap then 1 else 0) + d - 1)
                = (m, d))
        else true)
        (seqZ 1 31))
      (seqZ 1 12))
    [true; false].

(** First instant of month [m] of year [y]. *)
Definition first_instant (y m : Z) : datetime := mk_datetime y m 1 0 0 0 0.

(** Last whole second of month [m] of year [y]. *)
Definition last_second (y m : Z) : datetime :=
  mk_datetime y m (days_in_month y m) 23 59 59 0.

(** First instant of the month that follows month [m] of year [y]. *)
Definition next_month_start (y m : Z) : datetime :=
  if m =? 12 then first_instant (y + 1) 1 else first_instant y (m + 1).

(** The instant [now] lies within the billing period computed from it. *)
Definition in_billing_period (now : datetime) : Prop :=
  ∃ ps pe, current_period now = Ok (ps, pe)
    ∧ dt_leb ps now = true ∧ dt_leb now pe = true.

(** The row inserted when no current record is found. *)
Definition fresh_usage (user : Z) (ps pe : datetime) : Usage :=
  {| usage_user := user; descriptions_generated := 0;
     period_start := ps; period_end := pe |}.

(** At most one usage row of [user] covers [now]. *)
Definition at_most_one_current (user : Z) (now : datetime) (db : DB) : Prop :=
  ∀ k1 r1 k2 r2,
    usages db !! k1 = Some r1 → usages db !! k2 = Some r2 →
    is_current user now (k1, r1) → is_current user now (k2, r2) → k1 = k2.

(** All instants of [T] lie in one billing period [(ps, pe)]. *)
Definition same_billing_period (T : list datetime) (ps pe : datetime) : Prop :=
  ∀ t, t ∈ T →
    current_period t = Ok (ps, pe) ∧ dt_leb ps t = true ∧ dt_leb t pe = true.

(** Row [k], holding [r], is the one usage row of [user] that covers
    the instants of [T]. *)
Definition usage_of_period (user : Z) (T : list datetime) (db : DB)
    (k : Z) (r : Usage) : Prop :=
  ∀ t, t ∈ T → filter (is_current user t) (usages db) = {[k := r]}.

(** No usage row of [user] covers an instant of [T]. *)
Definition no_usage_in_period (user : Z) (T : list datetime) (db : DB) : Prop :=
  ∀ t, t ∈ T → filter (is_current user t) (usages db) = ∅.

(** The user's usage count for the period of [T] is [c]: either the
    period's row holds [c], or there is no row yet and [c = 0]. *)
Definition period_count (user : Z) (T : list datetime) (db : DB) (c : Z) : Prop :=
  (c = 0 ∧ no_usage_in_period user T db)
  ∨ ∃ k r, usage_of_period user T db k r ∧ descriptions_generated r = c.

(** [descriptions_generated += 1]. *)
Definition incremented (r : Usage) : Usage :=
  {| usage_user := usage_user r;
     descriptions_generated := descriptions_generated r + 1;
     period_start := period_start r; period_end := period_end r |}.

(** [status in ['ACTIVE', 'TRIALING']]. *)
Definition is_active (subscription : UserSubscription) : Prop :=
  status subscription = ACTIVE ∨ status subscription = TRIALING.

(** The subscription and plan of the user, as the gate reads them. *)
Definition subscribed (user : Z) (sub : UserSubscription)
    (plan : SubscriptionPlan) (db : DB) : Prop :=
  subscriptions db !! user = Some sub
  ∧ plans db !! sub_plan sub = Some plan.

(** A run of [increment_usage] calls by one user, each with its two
    clock readings; returns the final database and what each call
    returned. *)
Fixpoint consume_all (E : bool) (tr : DB → notification → bool) (user : Z)
    (calls : list (datetime * datetime)) (db : DB) : DB * list (result bool) :=
  match calls with
  | [] => (db, [])
  | (now1, now2) :: calls' =>
      let o := increment_usage E tr now1 now2 user db in
      let '(db', rs) := consume_all E tr user calls' (out_db o) in
      (db', out_ret o :: rs)
  end.

(** Number of calls that returned [True]. *)
Definition successes (rs : list (result bool)) : Z :=
  Z.of_nat (length (filter (λ r, r = Ok true) rs)).

(** What the [n] calls return when the count starts at [c] and the
    quota is [q]: the [i]-th succeeds as long as [c + i ≤ q]. *)
Fixpoint expected_returns (c q : Z) (n : nat) : list (result bool) :=
  match n with
  | O => []
  | S n' =>
      Ok (bool_decide (c < q))
      :: expected_returns (if bool_decide (c < q) then c + 1 else c) q n'
  end.


(** The row [handle_subscription_deleted] saves. *)
Definition canceled (now : datetime) (sub : UserSubscription) : UserSubscription :=
  {| sub_plan := sub_plan sub;
     stripe_subscription_id := stripe_subscription_id sub;
     stripe_customer_id := stripe_customer_id sub;
     status := CANCELED;
     current_period_start := current_period_start sub;
     current_period_end := current_period_end sub;
     trial_end := trial_end sub;
     cancel_at_period_end := cancel_at_period_end sub;
     canceled_at := Some now |}.

(** The row [handle_payment_succeeded] saves for a subscription that
    was PAST_DUE or UNPAID. *)
Definition reactivated (sub : UserSubscription) : UserSubscription :=
  {| sub_plan := sub_plan sub;
     stripe_subscription_id := stripe_subscription_id sub;
     stripe_customer_id := stripe_customer_id sub;
     status := ACTIVE;
     current_period_start := current_period_start sub;
     current_period_end := current_period_end sub;
     trial_end := trial_end sub;
     cancel_at_period_end := cancel_at_period_end sub;
     canceled_at := canceled_at sub |}.


(** ** Sample data *)

Definition sample_plans : gmap Z SubscriptionPlan :=
  {[ 1 := mk_plan "Free" 5 true ]}.

Definition sample_subscription (st : Status) : UserSubscription :=
  mk_subscription 1 "sub_test123" "cus_test123" st None None None false None.

Definition mid_march : datetime := mk_datetime 2024 3 15 10 30 0 0.

Definition march_usage (n : Z) : Usage :=
  mk_usage 7 n (mk_datetime 2024 3 1 0 0 0 0) (mk_datetime 2024 3 31 23 59 59 0).

(** User 7 on the five-description plan, with [n] descriptions used in
    March 2024. *)
Definition sample_db (st : Status) (n : Z) : DB :=
  {| plans := sample_plans;
     subscriptions := {[ 7 := sample_subscription st ]};
     usages := {[ 1 := march_usage n ]} |}.

Definition empty_db : DB := {| plans := ∅; subscriptions := ∅; usages := ∅ |}.

(** An instant in the last second of a month, past that second's
    first microsecond. *)
Definition end_of_january : datetime := mk_datetime 2024 1 31 23 59 59 500000.

Definition march : list datetime := [mid_march].

Definition deletion_event : subscription_data :=
  mk_subscription_data (Some "sub_test123") (Some "canceled") None None None None.

Definition early_march : datetime := mk_datetime 2024 3 1 0 0 0 0.

(** User 7 with a subscription whose [canceled_at] is already set, to
    1 March. *)
Definition already_canceled_db : DB :=
  {| plans := sample_plans;
     subscriptions :=
       {[ 7 := mk_subscription 1 "sub_test123" "cus_test123" CANCELED
                 None None None true (Some early_march) ]};
     usages := ∅ |}.

(** User 7, ACTIVE on the five-description plan, with no usage row. *)
Definition new_subscriber_db : DB :=
  {| plans := sample_plans;
     subscriptions := {[ 7 := sample_subscription ACTIVE ]};
     usages := ∅ |}.

Definition january_usage (n : Z) : Usage :=
  mk_usage 7 n (mk_datetime 2024 1 1 0 0 0 0) (mk_datetime 2024 1 31 23 59 59 0).

Definition payment_event : invoice_data := mk_invoice_data (Some "sub_test123").

(** A plan whose quota is beyond the integers binary64 tells apart,
    and user 7 on it, two descriptions short of 90%. *)
Definition bulk_plan : SubscriptionPlan := mk_plan "Bulk" (10 ^ 17) true.

Definition bulk_db : DB :=
  {| plans := {[ 1 := bulk_plan ]};
     subscriptions := {[ 7 := sample_subscription ACTIVE ]};
     usages := {[ 1 := march_usage 89999999999999998 ]} |}.

(** * The rest of the subscription code *)

(** ** Model methods the service does not call ([models.py]) *)

Module Models.

(** [UserSubscription.days_until_renewal], reading the clock as [now];
    [delta.days] is the floor of the difference in days. *)
Definition days_until_renewal (now : datetime)
    (subscription : UserSubscription) : Z :=
  match current_period_end subscription with
  | Some period_end =>
      Z.max 0 ((to_micros period_end - to_micros now) / 86400000000)
  | None => 0
  end.

(** [Usage.is_current_period], reading the clock as [now]. *)
Definition is_current_period (now : datetime) (usage : Usage) : bool :=
  dt_leb (period_start usage) now && dt_leb now (period_end usage).

(** [Usage.has_quota_remaining(self)]. *)
Definition has_quota_remaining (usage : Usage) (db : DB) : result bool :=
  bind (get_remaining_quota usage db)
    (λ remaining,
      Ok match remaining with
         | Finite n => 0 <? n
         | Unlimited => true
         end).

End Models.

(** ** [EmailService.send_quota_warning]: the subject line *)

(** The subject chosen from
    [percentage = (count / quota) * 100 if quota > 0 else 0]. *)
Definition quota_warning_subject (count quota : Z) : string :=
  let percentage :=
    if 0 <? quota then percentage count quota else float_of_int 0 in
  if PrimFloat.leb (float_of_int 100) percentage
  then "Quota Limit Reached - Upgrade Your Plan"
  else if PrimFloat.leb (float_of_int 90) percentage
  then "Quota Almost Exhausted - 90% Used"
  else "Quota Warning - 80% Used".

(** The [remaining] figure put in the e-mail. *)
Definition quota_warning_remaining (count quota : Z) : Z := quota - count.

(** ** [SubscriptionService.handle_checkout_session_completed] *)

(** The fields read from a [checkout.session] object; the ids in its
    metadata are strings. *)
Record session_data : Set := mk_session_data {
  ses_user_id : option string;
  ses_plan_id : option string;
  ses_customer : option string;
  ses_subscription : option string
}.

(** The fields read from the subscription that
    [stripe.Subscription.retrieve] returns. *)
Record stripe_subscription : Set := mk_stripe_subscription {
  ss_status : option string;
  ss_current_period_start : option Z;
  ss_current_period_end : option Z;
  ss_trial_end : option Z
}.

(** What can escape the handler: an exception of the exceptions above,
    or an error of the Stripe client. *)
Inductive raised : Set :=
  | Python (e : exn)
  | StripeError.

(** One call of [EmailService.send_subscription_confirmation]. *)
Record confirmation : Type := mk_confirmation {
  conf_user : Z;
  conf_subscription : UserSubscription;
  conf_db : DB;
  conf_delivered : bool
}.

(** What the handler leaves behind; [co_ret] is the (user,
    subscription) returned, or what was raised. *)
Record checkout_outcome : Type := mk_checkout_outcome {
  co_db : DB;
  co_ret : raised + Z * UserSubscription;
  co_mail : list confirmation;
  co_log : list string
}.

Module Checkout.
Section Handler.

Variable EMAIL_ENABLED : bool.

(** The transport of the confirmation e-mail: [true] when the send
    returns, [false] when it raises. *)
Variable confirm : DB → Z → UserSubscription → bool.

(** Conversion of a metadata string to a primary key, as the ORM does
    it for [objects.get(id=...)]. *)
Variable to_id : string → result Z.

(** [User.objects.get(id=...)] finds the user. *)
Variable user_exists : Z → bool.

(** [stripe.Subscription.retrieve]; [None] when the call raises. *)
Variable retrieve : string → option stripe_subscription.

(** The [defaults] of the [update_or_create] call. *)
Definition defaults (plan : Z) (subscription_id customer_id : string)
    (s : stripe_subscription) : result UserSubscription :=
  bind (fromtimestamp (ss_current_period_start s)) (λ ps,
  bind (fromtimestamp (ss_current_period_end s)) (λ pe,
  bind (if truthy_int (ss_trial_end s)
        then bind (fromtimestamp (ss_trial_end s)) (λ t, Ok (Some t))
        else Ok None) (λ te,
  Ok {| sub_plan := plan;
        stripe_subscription_id := subscription_id;
        stripe_customer_id := customer_id;
        status := _map_stripe_status (ss_status s);
        current_period_start := Some ps;
        current_period_end := Some pe;
        trial_end := te;
        cancel_at_period_end := false;
        canceled_at := None |}))).

Definition fails (db : DB) (r : raised) : checkout_outcome :=
  mk_checkout_outcome db (inl r) [] [].

Definition handle_checkout_session_completed (now : datetime)
    (session : session_data) (db : DB) : checkout_outcome :=
  match ses_user_id session, ses_plan_id session,
        ses_customer session, ses_subscription session with
  | Some user_id, Some plan_id, Some customer_id, Some subscription_id =>
      if negb (truthy_id (Some user_id) && truthy_id (Some plan_id)
               && truthy_id (Some customer_id)
               && truthy_id (Some subscription_id))
      then fails db (Python ValueError)
      else
        match to_id user_id with
        | Raise e => fails db (Python e)
        | Ok user =>
            if negb (user_exists user) then fails db (Python DoesNotExist)
            else
              match to_id plan_id with
              | Raise e => fails db (Python e)
              | Ok plan =>
                  match plans db !! plan with
                  | None => fails db (Python DoesNotExist)
                  | Some _ =>
                      match retrieve subscription_id with
                      | None => fails db StripeError
                      | Some s =>
                          match defaults plan subscription_id customer_id s with
                          | Raise e => fails db (Python e)
                          | Ok subscription =>
                              let created :=
                                bool_decide (subscriptions db !! user = None) in
                              let db1 :=
                                set_subscriptions db
                                  (<[user := subscription]> (subscriptions db)) in
                              if created then
                                let '(db2, r) :=
                                  get_or_create_current now user db1 in
                                match r with
                                | Raise e => fails db2 (Python e)
                                | Ok _ =>
                                    if EMAIL_ENABLED then
                                      let sent := confirm db2 user subscription in
                                      mk_checkout_outcome db2
                                        (inr (user, subscription))
                                        [mk_confirmation user subscription db2 sent]
                                        (if sent then []
                                         else ["Failed to send subscription confirmation email"%string])
                                    else
                                      mk_checkout_outcome db2
                                        (inr (user, subscription)) [] []
                                end
                              else
                                mk_checkout_outcome db1
                                  (inr (user, subscription)) [] []
                          end
                      end
                  end
              end
        end
  | _, _, _, _ => fails db (Python ValueError)
  end.

End Handler.
End Checkout.

(** ** The views that call the service ([subscriptions/views.py]) *)

(** The object of a webhook event, with every key a handler reads. *)
Record event_object : Set := mk_event_object {
  eo_id : option string;
  eo_status : option string;
  eo_current_period_start : option Z;
  eo_current_period_end : option Z;
  eo_cancel_at_period_end : option bool;
  eo_canceled_at : option Z;
  eo_subscription : option string;
  eo_customer : option string;
  eo_metadata_user_id : option string;
  eo_metadata_plan_id : option string
}.

Definition as_session (o : event_object) : session_data :=
  mk_session_data (eo_metadata_user_id o) (eo_metadata_plan_id o)
    (eo_customer o) (eo_subscription o).

Definition as_subscription (o : event_object) : subscription_data :=
  mk_subscription_data (eo_id o) (eo_status o) (eo_current_period_start o)
    (eo_current_period_end o) (eo_cancel_at_period_end o) (eo_canceled_at o).

Definition as_invoice (o : event_object) : invoice_data :=
  mk_invoice_data (eo_subscription o).

(** What one webhook request leaves behind. *)
Record webhook_outcome : Type := mk_webhook_outcome {
  wh_db : DB;
  wh_status : Z;
  wh_mail : list attempt;
  wh_confirmations : list confirmation;
  wh_log : list string
}.

(** A flash message and the page redirected to. *)
Inductive level : Set := Success | Error.

Record redirect : Set := mk_redirect {
  rd_to : string;
  rd_level : level;
  rd_message : string
}.

Module Views.
Section Views.

Variable EMAIL_ENABLED : bool.
Variable transport : DB → notification → bool.
Variable confirm : DB → Z → UserSubscription → bool.
Variable to_id : string → result Z.
Variable user_exists : Z → bool.
Variable retrieve : string → option stripe_subscription.

(** Answer of a handler that returned, or that raised. *)
Definition answer {A : Type} (o : outcome A) : webhook_outcome :=
  match out_ret o with
  | Ok _ => mk_webhook_outcome (out_db o) 200 (out_mail o) [] (out_log o)
  | Raise _ =>
      mk_webhook_outcome (out_db o) 500 (out_mail o) []
        (out_log o ++ ["Webhook error"%string])
  end.

(** [stripe_webhook(request)]; [event] is what
    [stripe.Webhook.construct_event] returns, [None] when it raises for
    an invalid payload or signature. *)
Definition stripe_webhook (now : datetime)
    (event : option (string * event_object)) (db : DB) : webhook_outcome :=
  match event with
  | None => mk_webhook_outcome db 400 [] [] []
  | Some (event_type, data) =>
      if String.eqb event_type "checkout.session.completed" then
        let o :=
          Checkout.handle_checkout_session_completed EMAIL_ENABLED confirm
            to_id user_exists retrieve now (as_session data) db in
        match co_ret o with
        | inr _ => mk_webhook_outcome (co_db o) 200 [] (co_mail o) (co_log o)
        | inl _ =>
            mk_webhook_outcome (co_db o) 500 [] (co_mail o)
              (co_log o ++ ["Webhook error"%string])
        end
      else if String.eqb event_type "customer.subscription.updated" then
        answer (handle_subscription_updated (as_subscription data) db)
      else if String.eqb event_type "customer.subscription.deleted" then
        answer (handle_subscription_deleted EMAIL_ENABLED transport now
                  (as_subscription data) db)
      else if String.eqb event_type "invoice.payment_failed" then
        answer (handle_payment_failed EMAIL_ENABLED transport
                  (as_invoice data) db)
      else if String.eqb event_type "invoice.payment_succeeded" then
        answer (handle_payment_succeeded now (as_invoice data) db)
      else mk_webhook_outcome db 200 [] [] []
  end.

(** [cancel_subscription(request)] for the logged-in [user];
    [modify] is [stripe.Subscription.modify(id,
    cancel_at_period_end=True)], returning [None] or the text of the
    exception it raised. *)
Definition cancel_subscription (modify : string → option string) (user : Z)
    (db : DB) : DB * redirect :=
  match subscriptions db !! user with
  | None =>
      (db, mk_redirect "subscriptions:plans" Error "No subscription found.")
  | Some subscription =>
      if String.eqb (stripe_subscription_id subscription) ""
      then (db, mk_redirect "subscriptions:manage" Error
                  "Invalid subscription.")
      else
        match modify (stripe_subscription_id subscription) with
        | Some e =>
            (db, mk_redirect "subscriptions:manage" Error
                   (String.append "Error cancelling subscription: " e))
        | None =>
            let subscription' :=
              {| sub_plan := sub_plan subscription;
                 stripe_subscription_id := stripe_subscription_id subscription;
                 stripe_customer_id := stripe_customer_id subscription;
                 status := status subscription;
                 current_period_start := current_period_start subscription;
                 current_period_end := current_period_end subscription;
                 trial_end := trial_end subscription;
                 cancel_at_period_end := true;
                 canceled_at := canceled_at subscription |} in
            (set_subscriptions db (<[user := subscription']> (subscriptions db)),
             mk_redirect "subscriptions:manage" Success
               "Your subscription will be cancelled at the end of the current billing period.")
        end
  end.

End Views.
End Views.

(** ** [ListingService.regenerate_description] ([listings/services.py]) *)

(** What [DeepSeekService.generate_description] did: returned a text
    (the description, or its own error message), or raised. *)
Inductive generation : Set :=
  | Returned (description : string)
  | GenerationRaised (text : string).

Module ListingService.
Section Listing.

Variable EMAIL_ENABLED : bool.
Variable transport : DB → notification → bool.

(** [str(e)] for the exceptions caught. *)
Variable str : exn → string.

Definition QUOTA_EXCEEDED : string :=
  "You have exceeded your monthly description quota. Please upgrade your plan or wait for your quota to reset.".

(** [regenerate_description(listing)] for a listing of [user]; the
    clock is read by the quota check ([now0]) and twice more by
    [increment_usage]. *)
Definition regenerate_description (generate : generation)
    (now0 now1 now2 : datetime) (user : Z) (db : DB)
    : outcome (bool * string) :=
  let '(db1, r) := check_usage_quota now0 user db in
  match r with
  | Raise e => mk_outcome db1 (Raise e) [] []
  | Ok (has_quota, _) =>
      if negb has_quota then mk_outcome db1 (Ok (false, QUOTA_EXCEEDED)) [] []
      else
        match generate with
        | GenerationRaised text =>
            mk_outcome db1
              (Ok (false, String.append "Error regenerating description: " (text))) [] []
        | Returned description =>
            if String.prefix "API Error" description
               || String.prefix "Error" description
            then mk_outcome db1
                   (Ok (false, String.append "Description generation failed: " description))
                   [] []
            else
              let o := increment_usage EMAIL_ENABLED transport now1 now2
                         user db1 in
              match out_ret o with
              | Raise e =>
                  mk_outcome (out_db o)
                    (Ok (false, String.append "Error regenerating description: " (str e)))
                    (out_mail o) (out_log o)
              | Ok _ =>
                  mk_outcome (out_db o)
                    (Ok (true, "Description regenerated successfully!"))
                    (out_mail o) (out_log o)
              end
        end
  end.

End Listing.
End ListingService.

(** ** Vocabulary of the further statements *)

(** The confirmation e-mail [handle_checkout_session_completed] sends to
    a new subscriber, with what is printed when the send fails. *)
Definition confirmation_of (E : bool)
    (confirm : DB → Z → UserSubscription → bool) (user : Z)
    (sub : UserSubscription) (db : DB) : list confirmation * list string :=
  if E then
    ([mk_confirmation user sub db (confirm db user sub)],
     if confirm db user sub then []
     else ["Failed to send subscription confirmation email"%string])
  else ([], []).

(** The generator raised, or returned one of its error messages (any
    text beginning with "API Error" or "Error"). *)
Definition generation_failed (g : generation) : Prop :=
  match g with
  | GenerationRaised _ => True
  | Returned description =>
      String.prefix "API Error" description
      || String.prefix "Error" description = true
  end.

(** From [db] to [db'] nothing was counted: plans and subscriptions are
    the same, every usage row is kept as it was, and a row that was
    added holds zero. *)
Definition nothing_counted (db db' : DB) : Prop :=
  plans db' = plans db ∧ subscriptions db' = subscriptions db
  ∧ (∀ k r, usages db !! k = Some r → usages db' !! k = Some r)
  ∧ (∀ k r, usages db' !! k = Some r →
       usages db !! k = Some r ∨ descriptions_generated r = 0).

(** ** Sample data for the events and views *)

(** An update whose Stripe status the mapping does not know. *)
Definition paused_event : subscription_data :=
  mk_subscription_data (Some "sub_test123") (Some "paused")
    (Some 1709251200) (Some 1711929600) None None.

(** The checkout session of user 7 for plan 1, with the conversion of
    its metadata strings and what Stripe returns for the subscription. *)
Definition sample_session : session_data :=
  mk_session_data (Some "7") (Some "1") (Some "cus_test123")
    (Some "sub_test123").

Definition sample_to_id (s : string) : result Z :=
  if String.eqb s "7" then Ok 7
  else if String.eqb s "1" then Ok 1
  else Raise ValueError.

Definition sample_retrieve (subscription_id : string)
    : option stripe_subscription :=
  Some (mk_stripe_subscription (Some "active") (Some 1709251200)
          (Some 1711929600) None).

Definition march_subscription : UserSubscription :=
  mk_subscription 1 "sub_test123" "cus_test123" ACTIVE
    (Some (mk_datetime 2024 3 1 0 0 0 0))
    (Some (mk_datetime 2024 4 1 0 0 0 0)) None false None.

(** The five-description plan and no subscriber yet. *)
Definition no_subscriber_db : DB :=
  {| plans := sample_plans; subscriptions := ∅; usages := ∅ |}.

(** [stripe.Subscription.modify] rejecting every request. *)
Definition stripe_down (subscription_id : string) : option string :=
  Some "Connection error."%string.

(** A description the generator returned as a success. *)
Definition sample_description : string := "Bright two-bedroom flat.".

(** User 7, ACTIVE on the five-description plan, with the quota of
    January 2024 used up. *)
Definition after_january_db : DB :=
  {| plans := sample_plans;
     subscriptions := {[ 7 := sample_subscription ACTIVE ]};
     usages := {[ 1 := january_usage 5 ]} |}.

(** * Properties *)

(** ** The calendar *)

Example ymd2ord_epoch : ymd2ord 1970 1 1 = EPOCH_ORDINAL.
Proof. reflexivity. Qed.

Example ord2ymd_max : ord2ymd MAXORDINAL = (9999, 12, 31).
Proof. reflexivity. Qed.

Example fromtimestamp_sample :
  fromtimestamp (Some 1700000000) = Ok (mk_datetime 2023 11 14 22 13 20 0).
Proof. reflexivity. Qed.

Example sub_seconds_leap :
  sub_seconds (mk_datetime 2024 3 1 0 0 0 0) 1
  = Ok (mk_datetime 2024 2 29 23 59 59 0).
Proof. reflexivity. Qed.

Ltac div_lia := Z.div_mod_to_equations; lia.

Lemma month_cases (m : Z) :
  1 ≤ m ≤ 12 →
  m = 1 ∨ m = 2 ∨ m = 3 ∨ m = 4 ∨ m = 5 ∨ m = 6 ∨
  m = 7 ∨ m = 8 ∨ m = 9 ∨ m = 10 ∨ m = 11 ∨ m = 12.
Proof. lia. Qed.

Ltac each_month m H :=
  destruct (month_cases m H) as
    [->|[->|[->|[->|[->|[->|[->|[->|[->|[->|[->| ->]]]]]]]]]]].

Lemma doy2md_table : doy2md_table_ok = true.
Proof. vm_compute. reflexivity. Qed.

Lemma days_in_month_leap (y m : Z) :
  days_in_month y m = if (m =? 2) && is_leap y then 29 else days_in_month 1 m.
Proof.
  unfold days_in_month.
  destruct (m =? 2) eqn:E.
  - apply Z.eqb_eq in E as ->. simpl. by destruct (is_leap y).
  - simpl. destruct m as [|p|p]; try done.
    do 4 (destruct p; try done).
Qed.

Lemma days_in_month_bounds (y m : Z) : 28 ≤ days_in_month y m ≤ 31.
Proof.
  rewrite days_in_month_leap.
  destruct ((m =? 2) && is_leap y); [lia|].
  unfold days_in_month. destruct m as [|p|p]; simpl; try lia.
  do 4 (destruct p; simpl; try lia).
Qed.

Lemma doy2md_days_before_month (y m d : Z) :
  1 ≤ m ≤ 12 → 1 ≤ d ≤ days_in_month y m →
  doy2md (is_leap y) (days_before_month y m + d - 1) = (m, d).
Proof.
  intros Hm Hd. pose proof (days_in_month_bounds y m) as Hb.
  pose proof doy2md_table as T. unfold doy2md_table_ok in T.
  rewrite forallb_forall in T.
  assert (In (is_leap y) [true; false]) as Hl
    by (destruct (is_leap y); simpl; auto).
  specialize (T _ Hl). rewrite forallb_forall in T.
  assert (In m (seqZ 1 12)) as Hm'
    by (apply list_elem_of_In, elem_of_seqZ; lia).
  specialize (T _ Hm'). rewrite forallb_forall in T.
  assert (In d (seqZ 1 31)) as Hd'
    by (apply list_elem_of_In, elem_of_seqZ; lia).
  specialize (T _ Hd'). cbv zeta in T.
  rewrite <- days_in_month_leap in T.
  destruct (Z.leb_spec d (days_in_month y m)); [|lia].
  apply bool_decide_eq_true in T. exact T.
Qed.

(** Day of the year, from 0. *)
Lemma day_of_year_bounds (y m d : Z) :
  1 ≤ m ≤ 12 → 1 ≤ d ≤ days_in_month y m →
  0 ≤ days_before_month y m + d - 1 ≤ 364 + (if is_leap y then 1 else 0).
Proof.
  intros Hm Hd. unfold days_before_month. revert Hd. unfold days_in_month.
  each_month m Hm; simpl; destruct (is_leap y); simpl; lia.
Qed.

Lemma last_day_of_leap_year (y m d : Z) :
  1 ≤ m ≤ 12 → 1 ≤ d ≤ days_in_month y m →
  days_before_month y m + d - 1 = 365 → m = 12 ∧ d = 31.
Proof.
  intros Hm Hd. unfold days_before_month. revert Hd. unfold days_in_month.
  each_month m Hm; simpl; destruct (is_leap y); simpl; lia.
Qed.

Lemma is_leap_split (a b c e : Z) :
  0 ≤ b ≤ 3 → 0 ≤ c ≤ 24 → 0 ≤ e ≤ 3 →
  is_leap (400 * a + 100 * b + 4 * c + e + 1)
  = (e =? 3) && (negb (c =? 24) || (b =? 3)).
Proof.
  intros Hb Hc He. unfold is_leap.
  destruct (Z.eqb_spec e 3), (Z.eqb_spec c 24), (Z.eqb_spec b 3); simpl;
    repeat match goal with
    | |- context [?x mod ?k =? 0] =>
        let E := fresh in destruct (Z.eqb_spec (x mod k) 0) as [E|E]; simpl
    end; try reflexivity; exfalso; div_lia.
Qed.

Lemma days_before_year_split (a b c e : Z) :
  0 ≤ b ≤ 3 → 0 ≤ c ≤ 24 → 0 ≤ e ≤ 3 →
  days_before_year (400 * a + 100 * b + 4 * c + e + 1)
  = 146097 * a + 36524 * b + 1461 * c + 365 * e.
Proof. intros. unfold days_before_year. cbv zeta. div_lia. Qed.

Lemma year_split (y : Z) :
  ∃ a b c e, y = 400 * a + 100 * b + 4 * c + e + 1 ∧
    0 ≤ b ≤ 3 ∧ 0 ≤ c ≤ 24 ∧ 0 ≤ e ≤ 3.
Proof.
  exists ((y - 1) / 400), ((y - 1) mod 400 / 100),
    ((y - 1) mod 400 mod 100 / 4), ((y - 1) mod 400 mod 100 mod 4).
  div_lia.
Qed.

(** [ord2ymd] inverts [ymd2ord] on every date of the calendar. *)
Lemma ord2ymd_ymd2ord (y m d : Z) :
  1 ≤ m ≤ 12 → 1 ≤ d ≤ days_in_month y m →
  ord2ymd (ymd2ord y m d) = (y, m, d).
Proof.
  intros Hm Hd.
  pose proof (day_of_year_bounds y m d Hm Hd) as Hdoy.
  pose proof (last_day_of_leap_year y m d Hm Hd) as Hlast.
  pose proof (doy2md_days_before_month y m d Hm Hd) as Hmd.
  destruct (year_split y) as (a & b & c & e & -> & Hb & Hc & He).
  unfold ymd2ord. rewrite days_before_year_split by done.
  rewrite is_leap_split in * by done.
  set (yy := 400 * a + 100 * b + 4 * c + e + 1) in *.
  set (doy := days_before_month yy m + d - 1) in *.
  replace (146097 * a + 36524 * b + 1461 * c + 365 * e
           + days_before_month yy m + d)
    with (146097 * a + 36524 * b + 1461 * c + 365 * e + doy + 1)
    by (unfold doy; lia).
  clearbody doy.
  unfold ord2ymd, DI400Y, DI100Y, DI4Y. cbv zeta.
  replace (146097 * a + 36524 * b + 1461 * c + 365 * e + doy + 1 - 1)
    with (146097 * a + 36524 * b + 1461 * c + 365 * e + doy) by lia.
  destruct (Z.eq_dec doy 365) as [->|Hd365].
  - destruct (Hlast eq_refl) as [-> ->].
    assert (e = 3 ∧ (c ≠ 24 ∨ b = 3)) as [-> Hcb].
    { destruct (Z.eqb_spec e 3), (Z.eqb_spec c 24), (Z.eqb_spec b 3);
        simpl in Hdoy; lia. }
    destruct (Z.eq_dec c 24) as [->|Hc24].
    + assert (b = 3) as -> by lia.
      replace (146097 * a + 36524 * 3 + 1461 * 24 + 365 * 3 + 365)
        with (146097 * a + 146096) by lia.
      assert ((146097 * a + 146096) / 146097 = a) as -> by div_lia.
      assert ((146097 * a + 146096) mod 146097 = 146096) as -> by div_lia.
      simpl. f_equal. f_equal. unfold yy. div_lia.
    + assert ((146097 * a + 36524 * b + 1461 * c + 365 * 3 + 365) / 146097 = a)
        as -> by div_lia.
      assert ((146097 * a + 36524 * b + 1461 * c + 365 * 3 + 365) mod 146097
              = 36524 * b + 1461 * c + 1460) as -> by div_lia.
      assert ((36524 * b + 1461 * c + 1460) / 36524 = b) as -> by div_lia.
      assert ((36524 * b + 1461 * c + 1460) mod 36524 = 1461 * c + 1460)
        as -> by div_lia.
      assert ((1461 * c + 1460) / 1461 = c) as -> by div_lia.
      assert ((1461 * c + 1460) mod 1461 = 1460) as -> by div_lia.
      simpl. f_equal. f_equal. unfold yy. div_lia.
  - assert (0 ≤ doy ≤ 364) as Hdoy'
      by (destruct ((e =? 3) && (negb (c =? 24) || (b =? 3))); lia).
    assert ((365 * e + doy) / 365 = e) as E7 by div_lia.
    assert ((365 * e + doy) mod 365 = doy) as E8 by div_lia.
    assert ((146097 * a + 36524 * b + 1461 * c + 365 * e + doy) / 146097 = a)
      as -> by div_lia.
    assert ((146097 * a + 36524 * b + 1461 * c + 365 * e + doy) mod 146097
            = 36524 * b + 1461 * c + 365 * e + doy) as -> by div_lia.
    assert ((36524 * b + 1461 * c + 365 * e + doy) / 36524 = b) as -> by div_lia.
    assert ((36524 * b + 1461 * c + 365 * e + doy) mod 36524
            = 1461 * c + 365 * e + doy) as -> by div_lia.
    assert ((1461 * c + 365 * e + doy) / 1461 = c) as -> by div_lia.
    assert ((1461 * c + 365 * e + doy) mod 1461 = 365 * e + doy)
      as -> by div_lia.
    rewrite E7, E8.
    destruct (Z.eqb_spec e 4); [lia|]. destruct (Z.eqb_spec b 4); [lia|].
    simpl. rewrite Hmd. f_equal. f_equal. unfold yy. lia.
Qed.

Lemma valid_datetimeb_spec (dt : datetime) :
  valid_datetimeb dt = true ↔ valid_datetime dt.
Proof.
  unfold valid_datetimeb, valid_datetime.
  rewrite !andb_true_iff, !Z.leb_le, !Z.ltb_lt. tauto.
Qed.

Lemma checked_valid (dt : datetime) : valid_datetime dt → checked dt = Ok dt.
Proof.
  intros H. unfold checked. by apply valid_datetimeb_spec in H as ->.
Qed.

(** A valid datetime is recovered from its position on the time line. *)
Lemma of_micros_to_micros (dt : datetime) :
  valid_datetime dt → of_micros (to_micros dt) = dt.
Proof.
  intros (_ & Hm & Hd & Hh & Hmi & Hs & Hus). destruct dt as [y m d h mi s us].
  cbn [year month day hour minute second microsecond] in *.
  unfold of_micros, to_micros.
  cbn [year month day hour minute second microsecond]. cbv zeta.
  set (o := ymd2ord y m d).
  assert (((o * 86400 + h * 3600 + mi * 60 + s) * 1000000 + us) / 1000000
          = o * 86400 + h * 3600 + mi * 60 + s) as -> by div_lia.
  assert ((o * 86400 + h * 3600 + mi * 60 + s) / 86400 = o) as -> by div_lia.
  assert ((o * 86400 + h * 3600 + mi * 60 + s) mod 86400
          = h * 3600 + mi * 60 + s) as -> by div_lia.
  unfold o. rewrite ord2ymd_ymd2ord by done.
  f_equal; div_lia.
Qed.

Lemma to_micros_days (dt : datetime) :
  valid_datetime dt →
  to_micros dt / 1000000 / 86400 = ymd2ord (year dt) (month dt) (day dt).
Proof.
  intros (_ & _ & _ & Hh & Hmi & Hs & Hus). unfold to_micros. div_lia.
Qed.

Lemma days_before_year_succ (y : Z) :
  days_before_year (y + 1)
  = days_before_year y + (if is_leap y then 366 else 365).
Proof.
  destruct (year_split y) as (a & b & c & e & -> & Hb & Hc & He).
  rewrite is_leap_split by done. unfold days_before_year. cbv zeta.
  destruct (Z.eqb_spec e 3), (Z.eqb_spec c 24), (Z.eqb_spec b 3); simpl;
    div_lia.
Qed.

Lemma ymd2ord_bounds (y m d : Z) :
  MINYEAR ≤ y ≤ MAXYEAR → 1 ≤ m ≤ 12 → 1 ≤ d ≤ days_in_month y m →
  0 < ymd2ord y m d ≤ MAXORDINAL.
Proof.
  intros Hy Hm Hd. pose proof (day_of_year_bounds y m d Hm Hd) as Hdoy.
  unfold ymd2ord, MINYEAR, MAXYEAR, MAXORDINAL in *.
  assert (0 ≤ days_before_year y ≤ 3651694).
  { unfold days_before_year. cbv zeta. div_lia. }
  destruct (Z.eq_dec y 9999) as [->|].
  - change (days_before_year 9999) with 3651694. simpl in Hdoy. lia.
  - assert (days_before_year y ≤ 3651694 - 365); [|destruct (is_leap y); lia].
    unfold days_before_year. cbv zeta. div_lia.
Qed.

(** ** The billing period *)

Lemma valid_first_instant (y m : Z) :
  MINYEAR ≤ y ≤ MAXYEAR → 1 ≤ m ≤ 12 → valid_datetime (first_instant y m).
Proof.
  intros Hy Hm. pose proof (days_in_month_bounds y m).
  unfold valid_datetime. simpl. lia.
Qed.

Lemma valid_last_second (y m : Z) :
  MINYEAR ≤ y ≤ MAXYEAR → 1 ≤ m ≤ 12 → valid_datetime (last_second y m).
Proof.
  intros Hy Hm. pose proof (days_in_month_bounds y m).
  unfold valid_datetime. simpl. lia.
Qed.

(** The last day of a month is the eve of the next month's first day. *)
Lemma ymd2ord_next_month (y m : Z) :
  1 ≤ m ≤ 12 →
  ymd2ord (year (next_month_start y m)) (month (next_month_start y m)) 1
  = ymd2ord y m (days_in_month y m) + 1.
Proof.
  intros Hm. unfold next_month_start, ymd2ord.
  destruct (Z.eqb_spec m 12) as [->|Hne]; simpl.
  - rewrite days_before_year_succ. unfold days_before_month. simpl.
    destruct (is_leap y), (is_leap (y + 1)); simpl; lia.
  - unfold days_before_month, days_in_month.
    each_month m Hm; simpl; destruct (is_leap y); simpl; lia.
Qed.

Lemma to_micros_last_second (y m : Z) :
  1 ≤ m ≤ 12 →
  to_micros (last_second y m) = to_micros (next_month_start y m) - 1000000.
Proof.
  intros Hm. pose proof (ymd2ord_next_month y m Hm) as E.
  unfold to_micros.
  replace (day (next_month_start y m)) with 1
    by (unfold next_month_start; by destruct (m =? 12)).
  rewrite E. unfold next_month_start. destruct (m =? 12); simpl; lia.
Qed.

(** What [Usage.get_or_create_current] computes for the period. *)
Lemma current_period_eq (now : datetime) :
  valid_datetime now → year now < MAXYEAR ∨ month now < 12 →
  current_period now
  = Ok (first_instant (year now) (month now),
        last_second (year now) (month now)).
Proof.
  intros Hv Hy. destruct Hv as (Hyr & Hm & _).
  set (y := year now) in *. set (m := month now) in *.
  unfold current_period. fold y m. fold (first_instant y m).
  rewrite checked_valid by (by apply valid_first_instant). simpl.
  set (nxt := next_month_start y m).
  assert (valid_datetime nxt) as Hnxt.
  { unfold nxt, next_month_start.
    destruct (Z.eqb_spec m 12); apply valid_first_instant;
      unfold MINYEAR, MAXYEAR in *; lia. }
  assert ((if m =? 12
           then checked {| year := y + 1; month := 1; day := 1; hour := 0;
                           minute := 0; second := 0; microsecond := 0 |}
           else checked {| year := y; month := m + 1; day := 1; hour := 0;
                           minute := 0; second := 0; microsecond := 0 |})
          = Ok nxt) as ->.
  { unfold nxt, next_month_start in *.
    destruct (m =? 12); by rewrite checked_valid. }
  cbn [bind]. unfold sub_seconds, add_seconds. cbv zeta.
  replace (to_micros nxt + - (1) * 1000000)
    with (to_micros (last_second y m))
    by (rewrite to_micros_last_second by done; fold nxt; lia).
  pose proof (valid_last_second y m Hyr Hm) as Hl.
  rewrite to_micros_days by done. simpl.
  pose proof (days_in_month_bounds y m).
  pose proof (ymd2ord_bounds y m (days_in_month y m) Hyr Hm ltac:(lia)) as Hb.
  destruct (Z.ltb_spec 0 (ymd2ord y m (days_in_month y m))); [|lia].
  destruct (Z.leb_spec (ymd2ord y m (days_in_month y m)) MAXORDINAL); [|lia].
  simpl. by rewrite of_micros_to_micros.
Qed.

Lemma now_in_month (now : datetime) :
  valid_datetime now →
  to_micros (first_instant (year now) (month now)) ≤ to_micros now
  ∧ to_micros now < to_micros (next_month_start (year now) (month now)).
Proof.
  intros (_ & Hm & Hd & Hh & Hmi & Hs & Hus).
  pose proof (to_micros_last_second (year now) (month now) Hm) as E.
  unfold to_micros in *. simpl in *. unfold ymd2ord in *. lia.
Qed.

(** ** The ORM operations *)

Section ManagerFacts.
Context {V : Type} (P : Z * V → Prop) `{!∀ kv, Decision (P kv)}.

Lemma get_Ok (m : gmap Z V) (k : Z) (v : V) :
  Manager.get P m = Ok (k, v) ↔ filter P m = {[k := v]}.
Proof.
  unfold Manager.get. split.
  - destruct (map_to_list (filter P m)) as [|kv [|]] eqn:E; try done.
    intros [= ->]. rewrite <- (list_to_map_to_list (filter P m)), E.
    simpl. by rewrite insert_empty.
  - intros ->. by rewrite map_to_list_singleton.
Qed.

Lemma get_DoesNotExist (m : gmap Z V) :
  Manager.get P m = Raise DoesNotExist ↔ filter P m = ∅.
Proof.
  unfold Manager.get. split.
  - destruct (map_to_list (filter P m)) as [|kv [|]] eqn:E; try done.
    intros _. by apply map_to_list_empty_iff.
  - intros ->. by rewrite map_to_list_empty.
Qed.


Lemma get_Ok_lookup (m : gmap Z V) (k : Z) (v : V) :
  Manager.get P m = Ok (k, v) → m !! k = Some v ∧ P (k, v).
Proof.
  intros Hget%get_Ok.
  assert (filter P m !! k = Some v) as L
    by (rewrite Hget; apply lookup_singleton_eq).
  by apply map_lookup_filter_Some in L.
Qed.

Lemma next_pk_above (m : gmap Z V) (k : Z) :
  is_Some (m !! k) → k < Manager.next_pk m.
Proof.
  unfold Manager.next_pk.
  apply (map_fold_weak_ind
           (λ r (m : gmap Z V), is_Some (m !! k) → k < 1 + r)).
  - rewrite lookup_empty. by intros [? ?].
  - intros i x m' r Hi IH. rewrite lookup_insert.
    case_decide; [lia|]. intros Hk. specialize (IH Hk). lia.
Qed.

Lemma next_pk_fresh (m : gmap Z V) : m !! Manager.next_pk m = None.
Proof.
  destruct (m !! Manager.next_pk m) eqn:E; [|done].
  assert (Manager.next_pk m < Manager.next_pk m); [|lia].
  apply next_pk_above. by rewrite E.
Qed.

End ManagerFacts.

Lemma filter_at_most_one {V : Type} (P : Z * V → Prop)
    `{!∀ kv, Decision (P kv)} (m : gmap Z V) :
  (∀ k1 v1 k2 v2, m !! k1 = Some v1 → m !! k2 = Some v2 →
     P (k1, v1) → P (k2, v2) → k1 = k2) →
  filter P m = ∅ ∨ ∃ k v, filter P m = {[k := v]}.
Proof.
  intros Huniq.
  destruct (decide (filter P m = ∅)) as [|Hne]; [by left|right].
  apply map_choose in Hne as (k & v & Hkv). exists k, v.
  apply map_eq. intros j. destruct (decide (j = k)) as [->|Hjk].
  - by rewrite lookup_singleton_eq.
  - rewrite lookup_singleton_ne by done.
    destruct (filter P m !! j) as [w|] eqn:E; [|done].
    apply map_lookup_filter_Some in E as [? ?].
    apply map_lookup_filter_Some in Hkv as [? ?].
    exfalso. apply Hjk. eauto.
Qed.

(** ** [Usage.get_or_create_current] *)

Lemma in_billing_period_intro (now : datetime) :
  valid_datetime now → year now < MAXYEAR ∨ month now < 12 →
  to_micros now ≤ to_micros (last_second (year now) (month now)) →
  in_billing_period now.
Proof.
  intros Hv Hy Hle. eexists _, _. split; [by apply current_period_eq|].
  unfold dt_leb. rewrite !Z.leb_le. split; [|done].
  by apply now_in_month.
Qed.

Lemma get_or_create_current_found now user db ps pe k r :
  current_period now = Ok (ps, pe) →
  filter (is_current user now) (usages db) = {[k := r]} →
  get_or_create_current now user db = (db, Ok (k, r)).
Proof.
  intros Hp Hf. unfold get_or_create_current. rewrite Hp.
  apply get_Ok in Hf. by rewrite Hf.
Qed.

Lemma get_or_create_current_created now user db ps pe :
  current_period now = Ok (ps, pe) →
  filter (is_current user now) (usages db) = ∅ →
  get_or_create_current now user db
  = (set_usages db (<[Manager.next_pk (usages db) := fresh_usage user ps pe]>
                      (usages db)),
     Ok (Manager.next_pk (usages db), fresh_usage user ps pe)).
Proof.
  intros Hp Hf. unfold get_or_create_current. rewrite Hp.
  apply get_DoesNotExist in Hf. by rewrite Hf.
Qed.

Lemma fresh_usage_is_current now user ps pe k :
  dt_leb ps now = true → dt_leb now pe = true →
  is_current user now (k, fresh_usage user ps pe).
Proof. intros. by repeat split. Qed.

(** Inserting the fresh row turns an empty lookup into a singleton. *)
Lemma filter_after_create now user db ps pe :
  dt_leb ps now = true → dt_leb now pe = true →
  filter (is_current user now) (usages db) = ∅ →
  filter (is_current user now)
    (<[Manager.next_pk (usages db) := fresh_usage user ps pe]> (usages db))
  = {[Manager.next_pk (usages db) := fresh_usage user ps pe]}.
Proof.
  intros H1 H2 Hf.
  rewrite map_filter_insert_True by (by apply fresh_usage_is_current).
  by rewrite Hf, insert_empty.
Qed.

(** C7.  For every instant [now] the period computed by
    [Usage.get_or_create_current] starts at the first instant of the
    calendar month containing [now] (day 1, 00:00:00.000000) and ends
    one second before the first instant of the following month, which
    in December is January of the next year; the result depends on
    [now] only, and only through its year and month. *)
Theorem billing_period_of_now (now : datetime) :
  valid_datetime now → year now < MAXYEAR ∨ month now < 12 →
  ∃ ps pe,
    current_period now = Ok (ps, pe)
    ∧ ps = mk_datetime (year now) (month now) 1 0 0 0 0
    ∧ to_micros ps ≤ to_micros now
        < to_micros (next_month_start (year now) (month now))
    ∧ to_micros pe
      = to_micros (next_month_start (year now) (month now)) - 1000000
    ∧ pe = mk_datetime (year now) (month now)
             (days_in_month (year now) (month now)) 23 59 59 0
    ∧ (month now = 12 →
       next_month_start (year now) (month now)
       = mk_datetime (year now + 1) 1 1 0 0 0 0)
    ∧ (∀ now', valid_datetime now' → year now' = year now →
         month now' = month now → current_period now' = Ok (ps, pe)).
Proof.
  intros Hv Hy. pose proof Hv as (_ & Hm & _).
  exists (first_instant (year now) (month now)),
    (last_second (year now) (month now)).
  split; [by apply current_period_eq|]. split; [done|].
  split; [by apply now_in_month|].
  split; [by apply to_micros_last_second|]. split; [done|].
  split.
  - intros ->. reflexivity.
  - intros now' Hv' Ey Em. rewrite <- Ey, <- Em.
    apply current_period_eq; [done|]. by rewrite Ey, Em.
Qed.

Lemma billing_period_of_now_witness :
  ∃ ps pe,
    current_period (mk_datetime 2024 12 15 10 30 0 500000) = Ok (ps, pe)
    ∧ ps = mk_datetime 2024 12 1 0 0 0 0
    ∧ pe = mk_datetime 2024 12 31 23 59 59 0.
Proof.
  destruct (billing_period_of_now (mk_datetime 2024 12 15 10 30 0 500000))
    as (ps & pe & Hp & Hs & _ & _ & He & _).
  - unfold valid_datetime, MINYEAR, MAXYEAR; simpl; lia.
  - left. unfold MAXYEAR; simpl; lia.
  - exists ps, pe. split; [exact Hp|]. split; [exact Hs|exact He].
Defined.

(** Beyond the range of [datetime]: in December 9999 the computation
    raises instead of returning a period. *)
Example current_period_last_december :
  current_period (mk_datetime 9999 12 15 10 30 0 0) = Raise ValueError.
Proof. reflexivity. Qed.

(** Idempotence within the stored period.  At an instant that its own
    computed period covers, and on a table that does not already hold
    two current rows for the user,
    [get_or_create_current] returns a row; a second call returns the
    same row (same key, same content) and leaves the database as the
    first call left it, where exactly one row of the user covers the
    instant.  A row that had to be created starts at zero. *)
Theorem get_or_create_current_idempotent (now : datetime) (user : Z) (db : DB) :
  in_billing_period now → at_most_one_current user now db →
  ∃ db1 k r,
    get_or_create_current now user db = (db1, Ok (k, r))
    ∧ get_or_create_current now user db1 = (db1, Ok (k, r))
    ∧ filter (is_current user now) (usages db1) = {[k := r]}
    ∧ (filter (is_current user now) (usages db) = ∅ →
       usages db !! k = None ∧ usages db1 = <[k := r]> (usages db)
       ∧ descriptions_generated r = 0)
    ∧ (filter (is_current user now) (usages db) ≠ ∅ → db1 = db)
    ∧ plans db1 = plans db ∧ subscriptions db1 = subscriptions db.
Proof.
  intros (ps & pe & Hp & Hps & Hpe) Huniq.
  destruct (filter_at_most_one (is_current user now) (usages db) Huniq)
    as [Hnone|(k & r & Hone)].
  - eexists _, _, _. split; [by eapply get_or_create_current_created|].
    pose proof (filter_after_create now user db ps pe Hps Hpe Hnone) as Hf.
    split; [by eapply get_or_create_current_found|].
    split; [done|]. split.
    + intros _. split; [apply next_pk_fresh|done].
    + split; [by intros []|done].
  - exists db, k, r.
    split; [by eapply get_or_create_current_found|].
    split; [by eapply get_or_create_current_found|].
    split; [done|]. split.
    + rewrite Hone. intros He. exfalso.
      by apply (insert_non_empty (M := gmap Z) ∅ k r).
    + done.
Qed.

Lemma mid_march_in_billing_period : in_billing_period mid_march.
Proof.
  apply in_billing_period_intro.
  - unfold valid_datetime, MINYEAR, MAXYEAR; simpl; lia.
  - left. unfold MAXYEAR; simpl; lia.
  - vm_compute. discriminate.
Defined.

Lemma at_most_one_current_empty user now : at_most_one_current user now empty_db.
Proof. intros k1 r1 k2 r2 H. simpl in H. by rewrite lookup_empty in H. Defined.

Lemma get_or_create_current_idempotent_witness :
  ∃ db1 k r,
    get_or_create_current mid_march 7 empty_db = (db1, Ok (k, r))
    ∧ get_or_create_current mid_march 7 db1 = (db1, Ok (k, r))
    ∧ descriptions_generated r = 0.
Proof.
  destruct (get_or_create_current_idempotent mid_march 7 empty_db
              mid_march_in_billing_period (at_most_one_current_empty 7 mid_march))
    as (db1 & k & r & H1 & H2 & _ & H0 & _).
  exists db1, k, r. split; [done|]. split; [done|].
  apply H0. simpl. apply map_filter_empty.
Defined.

(** Outside every computed period: in the last second of a month, past
    its first instant, the row that is created does not cover the
    instant, and each call inserts another one. *)
Example end_of_january_outside : ¬ in_billing_period end_of_january.
Proof.
  intros (ps & pe & Hp & _ & Hpe).
  assert (current_period end_of_january
          = Ok (first_instant 2024 1, last_second 2024 1)) as E
    by (by vm_compute).
  rewrite E in Hp. injection Hp as <- <-.
  assert (dt_leb end_of_january (last_second 2024 1) = false) as F
    by (by vm_compute).
  congruence.
Qed.

(** C6.  On 31 January 2024 at 23:59:59.500000 two successive calls of
    [get_or_create_current] for the same user do not return the same
    row: the first inserts a January row under key 1, which ends at
    23:59:59 and so does not cover the instant; the second finds no
    covering row either and inserts a second January row under key 2.
    Two rows of the user for the one period exist afterwards. *)
Theorem get_or_create_current_in_last_second :
  let row := fresh_usage 7 (first_instant 2024 1) (last_second 2024 1) in
  let db1 := set_usages empty_db {[ 1 := row ]} in
  let db2 := set_usages empty_db {[ 1 := row; 2 := row ]} in
  get_or_create_current end_of_january 7 empty_db = (db1, Ok (1, row))
  ∧ get_or_create_current end_of_january 7 db1 = (db2, Ok (2, row))
  ∧ size (usages db2) = 2%nat
  ∧ row = mk_usage 7 0 (mk_datetime 2024 1 1 0 0 0 0)
            (mk_datetime 2024 1 31 23 59 59 0).
Proof. by vm_compute. Qed.

(** ** The quota gate *)

Lemma is_current_incremented user t k r :
  is_current user t (k, r) ↔ is_current user t (k, incremented r).
Proof. done. Qed.

Lemma usage_of_period_lookup user T db k r t :
  t ∈ T → usage_of_period user T db k r →
  usages db !! k = Some r ∧ is_current user t (k, r).
Proof.
  intros Ht Hu. specialize (Hu t Ht).
  assert (filter (is_current user t) (usages db) !! k = Some r) as L
    by (rewrite Hu; apply lookup_singleton_eq).
  by apply map_lookup_filter_Some in L.
Qed.

(** Saving the incremented row keeps it the row of the period. *)
Lemma usage_of_period_save user T db k r :
  usage_of_period user T db k r →
  usage_of_period user T (set_usages db (<[k := incremented r]> (usages db)))
    k (incremented r).
Proof.
  intros Hu t Ht. destruct (usage_of_period_lookup _ _ _ _ _ _ Ht Hu) as [_ Hc].
  simpl. rewrite map_filter_insert_True by (by apply is_current_incremented).
  rewrite (Hu t Ht). apply insert_singleton_eq.
Qed.

(** Under [period_count], the lookup at any instant of the period
    returns the period's row, creating it at zero when it is missing. *)
Lemma get_or_create_current_in_period user T ps pe db c t :
  same_billing_period T ps pe → period_count user T db c → t ∈ T →
  ∃ db1 k r,
    get_or_create_current t user db = (db1, Ok (k, r))
    ∧ descriptions_generated r = c
    ∧ usage_of_period user T db1 k r
    ∧ plans db1 = plans db ∧ subscriptions db1 = subscriptions db
    ∧ (∀ j x, usages db !! j = Some x → usages db1 !! j = Some x)
    ∧ (∀ j, j ≠ k → usages db1 !! j = usages db !! j).
Proof.
  intros HT Hc Ht. destruct (HT t Ht) as (Hp & Hps & Hpe).
  destruct Hc as [[-> Hnone]|(k & r & Hu & Hr)].
  - eexists _, _, _.
    split; [eapply get_or_create_current_created; eauto|].
    split; [done|]. split.
    + intros t' Ht'. destruct (HT t' Ht') as (_ & Hps' & Hpe').
      simpl. by apply filter_after_create; [| |apply Hnone].
    + simpl. split; [done|]. split; [done|]. split.
      * intros j x Hj. rewrite lookup_insert_ne; [done|].
        intros <-. by rewrite next_pk_fresh in Hj.
      * intros j Hj. by rewrite lookup_insert_ne.
  - exists db, k, r.
    split; [eapply get_or_create_current_found; eauto|]. done.
Qed.

(** What [get_or_create_current] may do to the database, whatever the
    instant: nothing, or the insertion of one fresh zero row of the
    user under an unused key. *)
Lemma get_or_create_current_frame now user db db1 res :
  get_or_create_current now user db = (db1, res) →
  plans db1 = plans db ∧ subscriptions db1 = subscriptions db
  ∧ (db1 = db
     ∨ ∃ ps pe, current_period now = Ok (ps, pe)
         ∧ usages db !! Manager.next_pk (usages db) = None
         ∧ usages db1 = <[Manager.next_pk (usages db) := fresh_usage user ps pe]>
                          (usages db)
         ∧ res = Ok (Manager.next_pk (usages db), fresh_usage user ps pe))
  ∧ (∀ k r, res = Ok (k, r) → usages db1 !! k = Some r ∧ usage_user r = user).
Proof.
  unfold get_or_create_current.
  destruct (current_period now) as [[ps pe]|e] eqn:Hp.
  - destruct (Manager.get (is_current user now) (usages db))
      as [[k r]|[]] eqn:Hg; intros [= <- <-];
      (split; [done|]); (split; [done|]).
    + split; [by left|]. intros k' r' [= <- <-].
      apply get_Ok_lookup in Hg as [? [? _]]. done.
    + split.
      * right. exists ps, pe. split; [done|].
        split; [apply next_pk_fresh|done].
      * intros k r [= <- <-]. simpl. by rewrite lookup_insert_eq.
    + split; [by left|]. by intros.
    + split; [by left|]. by intros.
    + split; [by left|]. by intros.
    + split; [by left|]. by intros.
    + split; [by left|]. by intros.
  - intros [= <- <-]. split; [done|]. split; [done|].
    split; [by left|]. by intros.
Qed.

Lemma get_or_create_current_keeps_rows now user db db1 res :
  get_or_create_current now user db = (db1, res) →
  ∀ j x, usages db !! j = Some x → usages db1 !! j = Some x.
Proof.
  intros Hg j x Hj.
  destruct (get_or_create_current_frame _ _ _ _ _ Hg)
    as (_ & _ & [->|(ps & pe & _ & Hfresh & -> & _)] & _); [done|].
  rewrite lookup_insert_ne; [done|]. intros <-. by rewrite Hfresh in Hj.
Qed.

(** Every way [check_usage_quota] can return. *)
Lemma check_usage_quota_inv now user db db1 b rem :
  check_usage_quota now user db = (db1, Ok (b, rem)) →
  (db1 = db ∧ b = false ∧ rem = Finite 0
   ∧ (subscriptions db !! user = None
      ∨ ∃ sub, subscriptions db !! user = Some sub ∧ ¬ is_active sub))
  ∨ ∃ sub plan k r,
      subscriptions db !! user = Some sub ∧ is_active sub
      ∧ get_or_create_current now user db = (db1, Ok (k, r))
      ∧ plans db1 !! sub_plan sub = Some plan
      ∧ ((description_quota plan = -1 ∧ b = true ∧ rem = Unlimited)
         ∨ (description_quota plan ≠ -1
            ∧ b = (0 <? description_quota plan - descriptions_generated r)
            ∧ rem = Finite (description_quota plan
                            - descriptions_generated r))).
Proof.
  unfold check_usage_quota, is_active.
  destruct (subscriptions db !! user) as [sub|];
    [|intros [= <- <- <-]; left; repeat (split; [done|]); by left].
  case_bool_decide as Hact; simpl.
  - destruct (get_or_create_current now user db) as [db' [[k r]|e]] eqn:Hg;
      [|done].
    destruct (plans db' !! sub_plan sub) as [plan|] eqn:Hpl; [|done].
    destruct (Z.eqb_spec (description_quota plan) (-1)) as [Hq|Hq];
      intros [= <- <- <-]; right; exists sub, plan, k, r;
      (repeat (split; [done|])); [by left|by right].
  - intros [= <- <- <-]. left. repeat (split; [done|]). right. by exists sub.
Qed.

(** Every way [increment_usage] can return [True]. *)
Lemma increment_usage_true_inv E tr now1 now2 user db :
  out_ret (increment_usage E tr now1 now2 user db) = Ok true →
  ∃ sub plan db1 k1 r1 db2 k r,
    subscriptions db !! user = Some sub ∧ is_active sub
    ∧ get_or_create_current now1 user db = (db1, Ok (k1, r1))
    ∧ plans db1 !! sub_plan sub = Some plan
    ∧ (description_quota plan = -1
       ∨ 0 < description_quota plan - descriptions_generated r1)
    ∧ get_or_create_current now2 user db1 = (db2, Ok (k, r))
    ∧ increment_usage E tr now1 now2 user db
      = (let db3 := set_usages db2 (<[k := incremented r]> (usages db2)) in
         mk_outcome db3 (Ok true)
           (quota_warning E tr user (incremented r) db3).1
           (quota_warning E tr user (incremented r) db3).2).
Proof.
  unfold increment_usage.
  destruct (check_usage_quota now1 user db) as [db1 [[b rem]|e]] eqn:Hc;
    [|done].
  destruct b; simpl; [|done].
  destruct (get_or_create_current now2 user db1) as [db2 [[k r]|e]] eqn:Hg;
    [|done].
  fold (incremented r).
  destruct (quota_warning E tr user (incremented r) _) as [mail log] eqn:Hw.
  intros _.
  apply check_usage_quota_inv in Hc
    as [(_ & ? & _)|(sub & plan & k1 & r1 & Hs & Ha & Hg1 & Hpl & Hq)];
    [done|].
  exists sub, plan, db1, k1, r1, db2, k, r.
  repeat (split; [done|]).
  split; [|by rewrite Hw].
  destruct Hq as [(? & _)|(_ & Hb & _)]; [by left|right].
  symmetry in Hb. by apply Z.ltb_lt in Hb.
Qed.

Section QuotaInPeriod.
Variable EMAIL_ENABLED : bool.
Variable transport : DB → notification → bool.
Variables (user : Z) (T : list datetime) (ps pe : datetime).
Variables (sub : UserSubscription) (plan : SubscriptionPlan).
Hypothesis HT : same_billing_period T ps pe.
Hypothesis Hactive : is_active sub.
Hypothesis Hfinite : description_quota plan ≠ -1.

Lemma check_usage_quota_in_period db c t :
  subscribed user sub plan db → period_count user T db c → t ∈ T →
  ∃ db1 k r,
    check_usage_quota t user db
    = (db1, Ok (bool_decide (c < description_quota plan),
                Finite (description_quota plan - c)))
    ∧ get_or_create_current t user db = (db1, Ok (k, r))
    ∧ descriptions_generated r = c
    ∧ usage_of_period user T db1 k r ∧ subscribed user sub plan db1.
Proof using HT Hactive Hfinite.
  intros [Hs Hp] Hc Ht.
  destruct (get_or_create_current_in_period user T ps pe db c t HT Hc Ht)
    as (db1 & k & r & Hg & Hr & Hu & Hpl & Hsu & _).
  exists db1, k, r. unfold check_usage_quota. rewrite Hs.
  rewrite bool_decide_eq_true_2 by exact Hactive. simpl.
  rewrite Hg, Hpl, Hp.
  destruct (Z.eqb_spec (description_quota plan) (-1)) as [|_]; [done|].
  rewrite Hr. split.
  - do 3 f_equal. case_bool_decide; [apply Z.ltb_lt|apply Z.ltb_ge]; lia.
  - repeat (split; [done|]). split; congruence.
Qed.

(** One call of [increment_usage] within the period. *)
Lemma increment_usage_in_period db c t1 t2 :
  subscribed user sub plan db → period_count user T db c →
  t1 ∈ T → t2 ∈ T →
  let o := increment_usage EMAIL_ENABLED transport t1 t2 user db in
  out_ret o = Ok (bool_decide (c < description_quota plan))
  ∧ period_count user T (out_db o)
      (if bool_decide (c < description_quota plan) then c + 1 else c)
  ∧ subscribed user sub plan (out_db o).
Proof using HT Hactive Hfinite.
  intros Hs Hc Ht1 Ht2.
  destruct (check_usage_quota_in_period db c t1 Hs Hc Ht1)
    as (db1 & k & r & Hchk & _ & Hr & Hu & Hs1).
  cbv zeta. unfold increment_usage. rewrite Hchk.
  case_bool_decide as Hlt; simpl.
  - destruct (HT t2 Ht2) as (Hp2 & _).
    rewrite (get_or_create_current_found t2 user db1 ps pe k r Hp2 (Hu t2 Ht2)).
    fold (incremented r).
    destruct (quota_warning _ _ _ _ _) as [mail log]. simpl.
    split; [done|]. split; [|done].
    right. exists k, (incremented r). split.
    + by apply usage_of_period_save.
    + simpl. by rewrite Hr.
  - split; [done|]. split; [|done]. right. by exists k, r.
Qed.

End QuotaInPeriod.

Lemma successes_expected_returns c q n :
  c ≤ q → successes (expected_returns c q n) = Z.min (Z.of_nat n) (q - c).
Proof.
  unfold successes. revert c. induction n as [|n IH]; intros c Hc.
  - simpl. lia.
  - cbn [expected_returns]. rewrite filter_cons.
    case_bool_decide as Hlt.
    + rewrite decide_True by done. cbn [length].
      rewrite Nat2Z.inj_succ, IH by lia. lia.
    + rewrite decide_False by done. rewrite IH by lia. lia.
Qed.

Lemma expected_returns_lookup c q n (i : nat) :
  c ≤ q → (i < n)%nat →
  expected_returns c q n !! i = Some (Ok (bool_decide (c + Z.of_nat i < q))).
Proof.
  revert c i. induction n as [|n IH]; intros c i Hc Hi; [lia|].
  destruct i as [|i]; cbn [expected_returns].
  - simpl. do 2 f_equal. apply bool_decide_ext. lia.
  - simpl. rewrite IH by (try case_bool_decide; lia).
    do 2 f_equal. apply bool_decide_ext. case_bool_decide; lia.
Qed.

Lemma successes_cons b rs :
  successes (Ok b :: rs) = (if b then 1 else 0) + successes rs.
Proof.
  unfold successes. rewrite filter_cons. destruct b.
  - rewrite decide_True by done. cbn [length]. lia.
  - rewrite decide_False by done. lia.
Qed.

(** A run of calls within one period. *)
Lemma consume_all_in_period E tr user T ps pe sub plan calls :
  same_billing_period T ps pe → is_active sub →
  description_quota plan ≠ -1 →
  ∀ db c db' rs,
    (∀ t1 t2, (t1, t2) ∈ calls → t1 ∈ T ∧ t2 ∈ T) →
    subscribed user sub plan db → period_count user T db c →
    consume_all E tr user calls db = (db', rs) →
    rs = expected_returns c (description_quota plan) (length calls)
    ∧ period_count user T db' (c + successes rs)
    ∧ subscribed user sub plan db'.
Proof.
  intros HT Ha Hq. induction calls as [|[t1 t2] calls IH];
    intros db c db' rs Hin Hs Hc Hrun.
  - injection Hrun as <- <-. simpl. unfold successes. simpl.
    by rewrite Z.add_0_r.
  - cbn [consume_all] in Hrun.
    destruct (Hin t1 t2 ltac:(left)) as [Ht1 Ht2].
    destruct (increment_usage_in_period E tr user T ps pe sub plan HT Ha Hq
                db c t1 t2 Hs Hc Ht1 Ht2) as (Hret & Hc1 & Hs1).
    cbv zeta in Hrun.
    destruct (consume_all E tr user calls
                (out_db (increment_usage E tr t1 t2 user db)))
      as [db1 rs1] eqn:Hrest.
    injection Hrun as <- <-.
    destruct (IH _ _ _ _ ltac:(intros; apply Hin; by right) Hs1 Hc1 Hrest)
      as (Hrs & Hc' & Hs').
    rewrite Hret. cbn [length expected_returns]. rewrite <- Hrs.
    split; [done|]. split; [|done].
    rewrite successes_cons.
    destruct (bool_decide (c < description_quota plan));
      [by rewrite Z.add_assoc|done].
Qed.

(** Quota accounting within the stored period.  A user whose
    subscription is ACTIVE or TRIALING, on a plan with finite quota
    [Q], whose count for the current period is [c0]
    (with [0 ≤ c0 ≤ Q]; [c0 = 0] for a fresh period), calls
    [increment_usage] any number of times within that period.  The
    [i]-th call returns [True] exactly as long as the count is below
    [Q]; after [N] successful calls the count is [c0 + N], the quota
    check reports [(c0 + N < Q, max 0 (Q - (c0 + N)))], the model
    method [get_remaining_quota] gives the same remainder, and once
    the count has reached [Q] a further call returns [False] and
    leaves the count where it is. *)
Theorem consume_within_quota E tr user T ps pe sub plan db c0 calls :
  same_billing_period T ps pe →
  (∀ t1 t2, (t1, t2) ∈ calls → t1 ∈ T ∧ t2 ∈ T) →
  subscriptions db !! user = Some sub → is_active sub →
  plans db !! sub_plan sub = Some plan →
  0 ≤ c0 ≤ description_quota plan →
  period_count user T db c0 →
  let Q := description_quota plan in
  let '(db', rs) := consume_all E tr user calls db in
  let N := successes rs in
  rs = expected_returns c0 Q (length calls)
  ∧ (∀ i : nat, (i < length calls)%nat →
       rs !! i = Some (Ok (bool_decide (c0 + Z.of_nat i < Q))))
  ∧ N = Z.min (Z.of_nat (length calls)) (Q - c0)
  ∧ period_count user T db' (c0 + N)
  ∧ (∀ t, t ∈ T →
       ∃ db'' k r,
         check_usage_quota t user db'
         = (db'', Ok (bool_decide (c0 + N < Q),
                      Finite (Z.max 0 (Q - (c0 + N)))))
         ∧ get_or_create_current t user db' = (db'', Ok (k, r))
         ∧ descriptions_generated r = c0 + N
         ∧ get_remaining_quota r db'' = Ok (Finite (Z.max 0 (Q - (c0 + N)))))
  ∧ (c0 + N = Q →
     ∀ t1 t2, t1 ∈ T → t2 ∈ T →
       out_ret (increment_usage E tr t1 t2 user db') = Ok false
       ∧ period_count user T
           (out_db (increment_usage E tr t1 t2 user db')) Q).
Proof.
  intros HT Hin Hs Ha Hp Hc0 Hc. cbv zeta.
  assert (description_quota plan ≠ -1) as Hq by lia.
  destruct (consume_all E tr user calls db) as [db' rs] eqn:Hrun.
  destruct (consume_all_in_period E tr user T ps pe sub plan calls HT Ha Hq
              db c0 db' rs Hin (conj Hs Hp) Hc Hrun) as (Hrs & Hc' & Hs').
  assert (successes rs
          = Z.min (Z.of_nat (length calls)) (description_quota plan - c0))
    as HN by (rewrite Hrs; apply successes_expected_returns; lia).
  split; [done|]. split.
  { intros i Hi. rewrite Hrs. apply expected_returns_lookup; lia. }
  split; [done|]. split; [done|]. split.
  - intros t Ht.
    destruct (check_usage_quota_in_period user T ps pe sub plan HT Ha Hq
                db' _ t Hs' Hc' Ht)
      as (db'' & k & r & Hchk & Hg & Hr & _ & Hs'' & Hp'').
    exists db'', k, r.
    replace (Z.max 0 (description_quota plan - (c0 + successes rs)))
      with (description_quota plan - (c0 + successes rs)) by lia.
    split; [done|]. split; [done|]. split; [done|].
    destruct (get_or_create_current_frame _ _ _ _ _ Hg) as (_ & _ & _ & Hk).
    destruct (Hk k r eq_refl) as [_ Hu].
    unfold get_remaining_quota. rewrite Hu, Hs'', Hp''.
    destruct (Z.eqb_spec (description_quota plan) (-1)); [done|].
    rewrite Hr. do 2 f_equal. lia.
  - intros HQ t1 t2 Ht1 Ht2. rewrite HQ in Hc'.
    destruct (increment_usage_in_period E tr user T ps pe sub plan HT Ha Hq
                db' _ t1 t2 Hs' Hc' Ht1 Ht2) as (Hret & Hcnt & _).
    rewrite bool_decide_eq_false_2 in Hret, Hcnt by lia. done.
Qed.

Lemma march_same_billing_period :
  same_billing_period march (first_instant 2024 3) (last_second 2024 3).
Proof.
  intros t Ht. apply list_elem_of_singleton in Ht as ->. by vm_compute.
Defined.

Lemma sample_db_period_count st n :
  period_count 7 march (sample_db st n) n.
Proof.
  right. exists 1, (march_usage n). split; [|done].
  intros t Ht. apply list_elem_of_singleton in Ht as ->.
  unfold sample_db, usages.
  rewrite map_filter_singleton_True; [done|]. by vm_compute.
Defined.

(** The scenario of the specification: quota 5, count at 4; the first
    call succeeds, the second is refused, and the check then reports
    [(False, 0)]. *)
Lemma consume_within_quota_witness :
  ∃ db' rs,
    consume_all true (λ _ _, true) 7
      [(mid_march, mid_march); (mid_march, mid_march)] (sample_db ACTIVE 4)
    = (db', rs)
    ∧ rs = [Ok true; Ok false]
    ∧ period_count 7 march db' 5
    ∧ (check_usage_quota mid_march 7 db').2 = Ok (false, Finite 0).
Proof.
  pose proof (consume_within_quota true (λ _ _, true) 7 march
                (first_instant 2024 3) (last_second 2024 3)
                (sample_subscription ACTIVE) (mk_plan "Free" 5 true)
                (sample_db ACTIVE 4) 4
                [(mid_march, mid_march); (mid_march, mid_march)]
                march_same_billing_period) as H.
  cbv zeta in H.
  destruct (consume_all _ _ _ _ _) as [db' rs].
  destruct H as (Hrs & _ & HN & Hc & Hchk & _).
  - intros t1 t2 Hin. unfold march.
    rewrite !list_elem_of_singleton.
    apply elem_of_cons in Hin as [[= -> ->]|Hin]; [done|].
    apply list_elem_of_singleton in Hin as [= -> ->]. done.
  - reflexivity.
  - by left.
  - reflexivity.
  - simpl. lia.
  - apply sample_db_period_count.
  - exists db', rs. split; [done|].
    rewrite HN in Hc, Hchk. simpl in Hc, Hchk.
    split; [exact Hrs|]. split; [exact Hc|].
    destruct (Hchk mid_march ltac:(by left)) as (db'' & k & r & -> & _).
    reflexivity.
Defined.

(** The scenario, evaluated. *)
Example consume_scenario :
  consume_all true (λ _ _, true) 7
    [(mid_march, mid_march); (mid_march, mid_march)] (sample_db ACTIVE 4)
  = (sample_db ACTIVE 5, [Ok true; Ok false])
  ∧ check_usage_quota mid_march 7 (sample_db ACTIVE 5)
    = (sample_db ACTIVE 5, Ok (false, Finite 0)).
Proof. by vm_compute. Qed.

(** C1.  With quota 5 and six calls of [increment_usage] on 31 January
    2024 at 23:59:59.500000, all six return [True]: no call finds a row
    covering the instant, so each quota check starts a new January row
    at zero, and each increment starts another and raises it to one.
    Twelve rows are left, none above one, and the check still reports
    five remaining. *)
Theorem consume_in_last_second :
  let calls := replicate 6 (end_of_january, end_of_january) in
  let '(db', rs) := consume_all true (λ _ _, true) 7 calls new_subscriber_db in
  rs = replicate 6 (Ok true)
  ∧ size (usages db') = 12%nat
  ∧ forallb (λ kr, descriptions_generated kr.2 <=? 1)
      (map_to_list (usages db')) = true
  ∧ (check_usage_quota end_of_january 7 db').2 = Ok (true, Finite 5).
Proof. by vm_compute. Qed.

(** The branches of the quota policy that [check_usage_quota] follows. *)
Lemma check_usage_quota_no_subscription now user db :
  subscriptions db !! user = None →
  check_usage_quota now user db = (db, Ok (false, Finite 0)).
Proof. intros H. unfold check_usage_quota. by rewrite H. Qed.

Lemma check_usage_quota_inactive now user db sub :
  subscriptions db !! user = Some sub → ¬ is_active sub →
  check_usage_quota now user db = (db, Ok (false, Finite 0)).
Proof.
  intros H Hn. unfold check_usage_quota. rewrite H.
  by rewrite bool_decide_eq_false_2.
Qed.

Lemma check_usage_quota_unlimited now user db sub plan db1 k r :
  subscriptions db !! user = Some sub → is_active sub →
  get_or_create_current now user db = (db1, Ok (k, r)) →
  plans db !! sub_plan sub = Some plan → description_quota plan = -1 →
  check_usage_quota now user db = (db1, Ok (true, Unlimited)).
Proof.
  intros H Ha Hg Hp Hq. unfold check_usage_quota. rewrite H.
  rewrite bool_decide_eq_true_2 by done. simpl. rewrite Hg.
  destruct (get_or_create_current_frame _ _ _ _ _ Hg) as (-> & _).
  by rewrite Hp, Hq.
Qed.

Lemma check_usage_quota_finite now user db sub plan db1 k r :
  subscriptions db !! user = Some sub → is_active sub →
  get_or_create_current now user db = (db1, Ok (k, r)) →
  plans db !! sub_plan sub = Some plan → description_quota plan ≠ -1 →
  check_usage_quota now user db
  = (db1, Ok (0 <? description_quota plan - descriptions_generated r,
              Finite (description_quota plan - descriptions_generated r))).
Proof.
  intros H Ha Hg Hp Hq. unfold check_usage_quota. rewrite H.
  rewrite bool_decide_eq_true_2 by done. simpl. rewrite Hg.
  destruct (get_or_create_current_frame _ _ _ _ _ Hg) as (-> & _).
  rewrite Hp. by destruct (Z.eqb_spec (description_quota plan) (-1)).
Qed.

(** C2.  With quota 5 and seven descriptions already counted for the
    period, [check_usage_quota] returns the remainder [-2], where the
    model method [get_remaining_quota] on the same row gives 0. *)
Theorem check_usage_quota_negative_remaining :
  check_usage_quota mid_march 7 (sample_db ACTIVE 7)
  = (sample_db ACTIVE 7, Ok (false, Finite (-2)))
  ∧ get_remaining_quota (march_usage 7) (sample_db ACTIVE 7) = Ok (Finite 0).
Proof. by vm_compute. Qed.

(** ** Frame of a successful [increment_usage] *)

(** What a call of [increment_usage] that returns [True] can change,
    at any instant.  The plans and the subscriptions are as they were.
    In the usage table one row of the user -- the row its lookup
    returned: an existing row covering the instant, or a row just
    created at zero -- has its count raised by exactly one and keeps
    its period; every other row that existed is unchanged (in
    particular the rows of other users and the rows of periods that do
    not cover the instant), and any other row that appears is a zero
    row of the user. *)
Theorem increment_usage_frame E tr now1 now2 user db :
  out_ret (increment_usage E tr now1 now2 user db) = Ok true →
  let db' := out_db (increment_usage E tr now1 now2 user db) in
  plans db' = plans db ∧ subscriptions db' = subscriptions db
  ∧ ∃ k r,
      usages db' !! k = Some (incremented r) ∧ usage_user r = user
      ∧ (usages db !! k = Some r ∧ covers now2 r
         ∨ usages db !! k = None ∧ descriptions_generated r = 0)
      ∧ (∀ j x, usages db !! j = Some x → j ≠ k → usages db' !! j = Some x)
      ∧ (∀ j x, usages db !! j = Some x → usage_user x ≠ user →
           usages db' !! j = Some x)
      ∧ (∀ j x, usages db !! j = Some x → ¬ covers now2 x →
           usages db' !! j = Some x)
      ∧ (∀ j x, usages db' !! j = Some x → j ≠ k →
           usages db !! j = Some x
           ∨ usages db !! j = None ∧ usage_user x = user
             ∧ descriptions_generated x = 0).
Proof.
  intros Hret.
  destruct (increment_usage_true_inv _ _ _ _ _ _ Hret)
    as (sub & plan & db1 & k1 & r1 & db2 & k & r
        & _ & _ & Hg1 & _ & _ & Hg2 & ->).
  cbv zeta. cbn [out_db].
  pose proof (get_or_create_current_keeps_rows _ _ _ _ _ Hg1) as K1.
  pose proof (get_or_create_current_keeps_rows _ _ _ _ _ Hg2) as K2.
  destruct (get_or_create_current_frame _ _ _ _ _ Hg1)
    as (Hp1 & Hs1 & F1 & _).
  destruct (get_or_create_current_frame _ _ _ _ _ Hg2)
    as (Hp2 & Hs2 & F2 & Hk2).
  destruct (Hk2 k r eq_refl) as [Hkr Hu].
  split; [simpl; congruence|]. split; [simpl; congruence|].
  exists k, r. cbn [usages set_usages].
  split; [apply lookup_insert_eq|]. split; [done|].
  assert (usages db !! k = Some r ∧ covers now2 r
          ∨ usages db !! k = None ∧ descriptions_generated r = 0) as Hcase.
  { destruct F2 as [->|(ps2 & pe2 & _ & Hf2 & _ & [= -> ->])].
    - (* the row was found by the second lookup *)
      assert (Manager.get (is_current user now2) (usages db1) = Ok (k, r))
        as Hget.
      { unfold get_or_create_current in Hg2.
        destruct (current_period now2) as [[??]|]; [|done].
        destruct (Manager.get _ _) as [[??]|[]] eqn:G; try done.
        - by injection Hg2 as <- <-.
        - injection Hg2 as Hdb _. exfalso.
          apply (f_equal usages) in Hdb. simpl in Hdb.
          match type of Hdb with
          | <[?i := ?x]> ?m = _ =>
              pose proof (lookup_insert_eq m i x) as Hfr
          end.
          rewrite Hdb, next_pk_fresh in Hfr. done. }
      apply get_Ok_lookup in Hget as [_ [_ Hcov]].
      destruct F1 as [->|(ps1 & pe1 & _ & Hf1 & Hd1 & [= -> ->])];
        [by left|].
      rewrite Hd1 in Hkr.
      destruct (decide (k = Manager.next_pk (usages db))) as [->|Hne].
      + rewrite lookup_insert_eq in Hkr. injection Hkr as <-. by right.
      + rewrite lookup_insert_ne in Hkr by done. by left.
    - (* the row was created by the second lookup *)
      right. split; [|done].
      destruct (usages db !! Manager.next_pk (usages db1)) eqn:Hx; [|done].
      apply K1 in Hx. by rewrite Hf2 in Hx. }
  split; [exact Hcase|].
  assert (∀ j x, usages db !! j = Some x → j ≠ k →
            <[k:=incremented r]> (usages db2) !! j = Some x) as Hother.
  { intros j x Hj Hne. rewrite lookup_insert_ne by done. auto. }
  split; [exact Hother|]. split; [|split].
  - intros j x Hj Hux. apply Hother; [done|]. intros ->.
    destruct Hcase as [[Hk _]|[Hk _]]; congruence.
  - intros j x Hj Hcov. apply Hother; [done|]. intros ->.
    destruct Hcase as [[Hk ?]|[Hk _]]; congruence.
  - intros j x Hj Hne. rewrite lookup_insert_ne in Hj by done.
    assert (usages db1 !! j = Some x
            ∨ usages db1 !! j = None ∧ usage_user x = user
              ∧ descriptions_generated x = 0) as [H1|H1].
    { destruct F2 as [->|(ps2 & pe2 & _ & Hf2 & Hd2 & _)]; [by left|].
      rewrite Hd2 in Hj.
      destruct (decide (j = Manager.next_pk (usages db1))) as [->|Hn].
      - rewrite lookup_insert_eq in Hj. injection Hj as <-. by right.
      - rewrite lookup_insert_ne in Hj by done. by left. }
    + destruct F1 as [->|(ps1 & pe1 & _ & Hf1 & Hd1 & _)]; [by left|].
      rewrite Hd1 in H1.
      destruct (decide (j = Manager.next_pk (usages db))) as [->|Hn].
      * rewrite lookup_insert_eq in H1. injection H1 as <-. by right.
      * rewrite lookup_insert_ne in H1 by done. by left.
    + right. destruct H1 as (H1 & ? & ?). split; [|done].
      destruct (usages db !! j) eqn:Hx; [|done].
      apply K1 in Hx. congruence.
Qed.

Lemma increment_usage_frame_witness :
  let db' :=
    out_db (increment_usage true (λ _ _, true) mid_march mid_march 7
              (sample_db ACTIVE 4)) in
  plans db' = sample_plans
  ∧ subscriptions db' = {[ 7 := sample_subscription ACTIVE ]}.
Proof.
  pose proof (increment_usage_frame true (λ _ _, true) mid_march mid_march 7
                (sample_db ACTIVE 4) ltac:(by vm_compute)) as (Hp & Hs & _).
  exact (conj Hp Hs).
Defined.

(** At the instants of a period that the period's stored row covers,
    the frame is exact: the row of the period is the one raised, and
    the database changes at that key only. *)
Lemma increment_usage_frame_in_period E tr user T ps pe db k r t1 t2 :
  same_billing_period T ps pe → usage_of_period user T db k r →
  t1 ∈ T → t2 ∈ T →
  out_ret (increment_usage E tr t1 t2 user db) = Ok true →
  out_db (increment_usage E tr t1 t2 user db)
  = set_usages db (<[k := incremented r]> (usages db)).
Proof.
  intros HT Hu H1 H2 Hret.
  destruct (increment_usage_true_inv _ _ _ _ _ _ Hret)
    as (sub & plan & db1 & k1 & r1 & db2 & k' & r'
        & _ & _ & Hg1 & _ & _ & Hg2 & ->).
  destruct (HT t1 H1) as (Hp1 & _). destruct (HT t2 H2) as (Hp2 & _).
  rewrite (get_or_create_current_found t1 user db ps pe k r Hp1 (Hu t1 H1))
    in Hg1.
  injection Hg1 as <- _ _.
  rewrite (get_or_create_current_found t2 user db ps pe k r Hp2 (Hu t2 H2))
    in Hg2.
  by injection Hg2 as <- <- <-.
Qed.

(** C10.  In the last second of a month, after that second's first
    microsecond, a successful [increment_usage] does not raise the
    user's record of the period and does not leave the rest of the
    database alone: the January row already present keeps its count,
    the quota check inserts a second January row at zero, and the
    increment inserts a third one, which is the row it raises. *)
Theorem increment_usage_in_last_second :
  let db := set_usages new_subscriber_db {[ 1 := january_usage 3 ]} in
  let o := increment_usage true (λ _ _, true) end_of_january end_of_january
             7 db in
  out_ret o = Ok true
  ∧ usages (out_db o)
    = {[ 1 := january_usage 3; 2 := january_usage 0; 3 := january_usage 1 ]}.
Proof. by vm_compute. Qed.

(** ** Notifications *)

Lemma forallb_seqZ (f : Z → bool) (a n x : Z) :
  forallb f (seqZ a n) = true → a ≤ x < a + n → f x = true.
Proof.
  intros H Hx. rewrite forallb_forall in H. apply H.
  apply list_elem_of_In, elem_of_seqZ. lia.
Qed.

(** On every quota from 1 to 500 and every count from 0 to one past
    the quota, the binary64 percentage is at least 80, 90 or 100
    exactly when the exact ratio is; checked by evaluation. *)
Lemma percentage_models_agree_500 :
  forallb (λ q,
    forallb (λ c,
      let p := percentage c q in
      forallb (λ k,
        Bool.eqb (PrimFloat.leb (float_of_int k) p) (k * q <=? 100 * c))
        [80; 90; 100])
      (seqZ 0 (q + 2)))
    (seqZ 1 500) = true.
Proof. vm_compute. reflexivity. Qed.

(** For these quotas the comparison of the source decides as the
    exact one. *)
Lemma percentage_ge_binary64 (count quota k : Z) :
  1 ≤ quota ≤ 500 → 0 ≤ count ≤ quota + 1 → k ∈ [80; 90; 100] →
  percentage_ge count quota k = (k * quota <=? 100 * count).
Proof.
  intros Hq Hc Hk.
  pose proof (forallb_seqZ _ 1 500 quota percentage_models_agree_500
                ltac:(lia)) as T1.
  pose proof (forallb_seqZ _ 0 (quota + 2) count T1 ltac:(lia)) as T2.
  cbv zeta in T2. rewrite forallb_forall in T2.
  specialize (T2 k ltac:(by apply list_elem_of_In)).
  by apply Bool.eqb_prop in T2.
Qed.

(** The warning condition on these quotas, in exact terms. *)
Lemma warning_due_exact (count quota : Z) :
  1 ≤ quota ≤ 500 → 0 ≤ count ≤ quota + 1 →
  warning_due count quota
  = (quota <=? count) || (90 * quota <=? 100 * count)
    || ((80 * quota <=? 100 * count) && (count mod 10 =? 0)).
Proof.
  intros Hq Hc. unfold warning_due.
  rewrite !percentage_ge_binary64 by (try done; repeat constructor).
  do 2 f_equal. destruct (Z.leb_spec quota count);
    [apply Z.leb_le|apply Z.leb_gt]; lia.
Qed.

(** The e-mails attempted and the lines printed by one guarded send. *)
Lemma try_send_spec tr db n msg :
  (try_send tr db n msg).1 = [mk_attempt n db (tr db n)]
  ∧ (try_send tr db n msg).2 = (if tr db n then [] else [msg]).
Proof. unfold try_send. by destruct (tr db n). Qed.

Lemma quota_warning_spec E tr user usage db sub plan :
  subscriptions db !! user = Some sub →
  plans db !! sub_plan sub = Some plan →
  (quota_warning E tr user usage db).1
  = (if E && (0 <? description_quota plan)
          && warning_due (descriptions_generated usage) (description_quota plan)
     then [mk_attempt (QuotaWarning user usage sub) db
             (tr db (QuotaWarning user usage sub))]
     else []).
Proof.
  intros Hs Hp. unfold quota_warning. destruct E; [|done].
  rewrite Hs, Hp. simpl.
  destruct ((0 <? description_quota plan) && warning_due _ _); [|done].
  apply try_send_spec.
Qed.

(** C9, as the code has it.  After a successful [increment_usage]
    that raised the row its lookup returned to the count [c], on a plan
    of quota [Q]: on an unlimited plan no quota warning is ever
    attempted; on a finite plan, with the e-mail service enabled, one
    warning is attempted exactly when the binary64 percentage
    [(c / Q) * 100] is at least 90, or at least 80 with [c] a multiple
    of ten.  For quotas up to 500 the binary64 comparisons are the
    exact ones: a warning is attempted at 90% of [Q] or more (hence
    also at 100%), between 80% and 90% only when [c] is a multiple of
    ten, and never below 80%. *)
Theorem quota_warning_tiers E tr now1 now2 user db :
  out_ret (increment_usage E tr now1 now2 user db) = Ok true →
  let o := increment_usage E tr now1 now2 user db in
  ∃ sub plan db1 k1 r1 db2 k r,
    subscriptions db !! user = Some sub
    ∧ plans db !! sub_plan sub = Some plan
    ∧ get_or_create_current now1 user db = (db1, Ok (k1, r1))
    ∧ get_or_create_current now2 user db1 = (db2, Ok (k, r))
    ∧ out_db o = set_usages db2 (<[k := incremented r]> (usages db2))
    ∧ let Q := description_quota plan in
      let c := descriptions_generated r + 1 in
      let warning :=
        [mk_attempt (QuotaWarning user (incremented r) sub) (out_db o)
           (tr (out_db o) (QuotaWarning user (incremented r) sub))] in
      (Q = -1 → out_mail o = [])
      ∧ (E = true → 0 < Q →
         out_mail o = if warning_due c Q then warning else [])
      ∧ (E = true → 1 ≤ Q ≤ 500 → 0 ≤ c ≤ Q + 1 →
         (Q ≤ c → out_mail o = warning)
         ∧ (90 * Q ≤ 100 * c → out_mail o = warning)
         ∧ (80 * Q ≤ 100 * c < 90 * Q → c mod 10 = 0 →
            out_mail o = warning)
         ∧ (80 * Q ≤ 100 * c < 90 * Q → c mod 10 ≠ 0 → out_mail o = [])
         ∧ (100 * c < 80 * Q → out_mail o = [])).
Proof.
  intros Hret.
  destruct (increment_usage_true_inv _ _ _ _ _ _ Hret)
    as (sub & plan & db1 & k1 & r1 & db2 & k & r
        & Hs & _ & Hg1 & Hp1 & _ & Hg2 & ->).
  destruct (get_or_create_current_frame _ _ _ _ _ Hg1) as (Hpl1 & Hsu1 & _).
  destruct (get_or_create_current_frame _ _ _ _ _ Hg2) as (Hpl2 & Hsu2 & _).
  rewrite Hpl1 in Hp1.
  exists sub, plan, db1, k1, r1, db2, k, r. cbv zeta. cbn [out_db out_mail].
  do 5 (split; [done|]).
  rewrite (quota_warning_spec E tr user (incremented r) _ sub plan)
    by (simpl; congruence).
  cbn [descriptions_generated incremented].
  set (Q := description_quota plan).
  set (c := descriptions_generated r + 1).
  split; [|split].
  - intros ->. simpl. by rewrite andb_false_r.
  - intros -> HQ. by rewrite (proj2 (Z.ltb_lt 0 Q) HQ).
  - intros -> HQ Hc. rewrite (proj2 (Z.ltb_lt 0 Q)) by lia.
    rewrite warning_due_exact by done. cbn [andb].
    destruct (Z.leb_spec Q c);
      destruct (Z.leb_spec (90 * Q) (100 * c));
      destruct (Z.leb_spec (80 * Q) (100 * c));
      destruct (Z.eqb_spec (c mod 10) 0); simpl;
      repeat split; intros; try done; lia.
Qed.

Lemma quota_warning_tiers_witness :
  out_mail (increment_usage true (λ _ _, true) mid_march mid_march 7
              (sample_db ACTIVE 4))
  = [mk_attempt (QuotaWarning 7 (incremented (march_usage 4))
                   (sample_subscription ACTIVE))
       (sample_db ACTIVE 5) true].
Proof.
  destruct (quota_warning_tiers true (λ _ _, true) mid_march mid_march 7
              (sample_db ACTIVE 4) ltac:(by vm_compute))
    as (sub & plan & db1 & k1 & r1 & db2 & k & r & _).
  by vm_compute.
Defined.

(** C9, as stated for every finite quota, fails where binary64 rounds
    the percentage up to a threshold.  With quota 10^17 and the count
    raised to 89999999999999999, the exact ratio is below 90% and the
    count is no multiple of ten, yet [(c / Q) * 100] evaluates to 90.0
    and the warning is sent. *)
Lemma quota_warning_tiers_rounded_up :
  ¬ (∀ E tr now1 now2 user db sub plan db1 k1 r1 db2 k r,
       out_ret (increment_usage E tr now1 now2 user db) = Ok true →
       subscriptions db !! user = Some sub →
       plans db !! sub_plan sub = Some plan →
       get_or_create_current now1 user db = (db1, Ok (k1, r1)) →
       get_or_create_current now2 user db1 = (db2, Ok (k, r)) →
       let Q := description_quota plan in
       let c := descriptions_generated r + 1 in
       E = true → 0 < Q →
       80 * Q ≤ 100 * c < 90 * Q → c mod 10 ≠ 0 →
       out_mail (increment_usage E tr now1 now2 user db) = []).
Proof.
  intros H.
  assert (out_mail (increment_usage true (λ _ _, true) mid_march mid_march 7
                      bulk_db) ≠ []) as Hmail by (by vm_compute).
  apply Hmail.
  apply (H true (λ _ _, true) mid_march mid_march 7 bulk_db
           (sample_subscription ACTIVE) bulk_plan bulk_db 1
           (march_usage 89999999999999998) bulk_db 1
           (march_usage 89999999999999998)).
  - by vm_compute.
  - by vm_compute.
  - by vm_compute.
  - by vm_compute.
  - by vm_compute.
  - reflexivity.
  - by vm_compute.
  - split; by vm_compute.
  - by vm_compute.
Qed.







(** ** The billing event handlers *)

(** Saving a row under the same Stripe id keeps it the row found. *)
Lemma get_by_stripe_id_save sid db user sub sub' :
  get_by_stripe_id sid db = Ok (user, sub) →
  stripe_subscription_id sub' = stripe_subscription_id sub →
  get_by_stripe_id sid
    (set_subscriptions db (<[user := sub']> (subscriptions db)))
  = Ok (user, sub').
Proof.
  unfold get_by_stripe_id. intros Hg Hid.
  pose proof (get_Ok_lookup _ _ _ _ Hg) as [_ Hsid].
  apply get_Ok in Hg. apply get_Ok. simpl.
  rewrite map_filter_insert_True.
  - rewrite Hg. apply insert_singleton_eq.
  - unfold has_stripe_id in *. simpl in *. by rewrite Hid.
Qed.

(** C5.  Handling the same [customer.subscription.updated] payload a
    second time, on the database the first handling left, changes
    nothing: the database (status, period bounds, cancel_at_period_end
    and canceled_at of the subscription included) and the value
    returned are those of the first handling. *)
Theorem handle_subscription_updated_idempotent data db :
  let o := handle_subscription_updated data db in
  handle_subscription_updated data (out_db o) = o.
Proof.
  cbv zeta. unfold handle_subscription_updated at 2 3.
  destruct (get_by_stripe_id (sd_id data) db) as [[user sub]|e] eqn:Hg.
  - destruct (fromtimestamp (sd_current_period_start data)) as [ps|e1] eqn:H1;
      cbn [bind].
    2:{ cbn [out_db]. unfold handle_subscription_updated.
        by rewrite Hg, H1. }
    destruct (fromtimestamp (sd_current_period_end data)) as [pe|e2] eqn:H2;
      cbn [bind].
    2:{ cbn [out_db]. unfold handle_subscription_updated.
        by rewrite Hg, H1, H2. }
    destruct (truthy_int (sd_canceled_at data)) eqn:Ht.
    + destruct (fromtimestamp (sd_canceled_at data)) as [ca|e3] eqn:H3;
        cbn [bind].
      2:{ cbn [out_db]. unfold handle_subscription_updated.
          by rewrite Hg, H1, H2, Ht, H3. }
      cbn [out_db]. unfold handle_subscription_updated.
      erewrite get_by_stripe_id_save by (try exact Hg; done).
      rewrite H1, H2, Ht, H3. cbn [bind]. simpl.
      by rewrite insert_insert_eq.
    + cbn [bind out_db]. unfold handle_subscription_updated.
      erewrite get_by_stripe_id_save by (try exact Hg; done).
      rewrite H1, H2, Ht. cbn [bind]. simpl.
      by rewrite insert_insert_eq.
  - destruct e; cbn [out_db]; unfold handle_subscription_updated;
      by rewrite Hg.
Qed.

(** What one handling of the payload writes. *)
Lemma handle_subscription_updated_fields data db user sub ps pe :
  get_by_stripe_id (sd_id data) db = Ok (user, sub) →
  fromtimestamp (sd_current_period_start data) = Ok ps →
  fromtimestamp (sd_current_period_end data) = Ok pe →
  truthy_int (sd_canceled_at data) = false →
  ∃ sub',
    subscriptions (out_db (handle_subscription_updated data db)) !! user
    = Some sub'
    ∧ status sub' = _map_stripe_status (sd_status data)
    ∧ current_period_start sub' = Some ps
    ∧ current_period_end sub' = Some pe
    ∧ cancel_at_period_end sub' = default false (sd_cancel_at_period_end data)
    ∧ canceled_at sub' = canceled_at sub.
Proof.
  intros Hg H1 H2 Ht. unfold handle_subscription_updated.
  rewrite Hg, H1, H2, Ht. cbn [bind out_db]. simpl.
  eexists. split; [apply lookup_insert_eq|]. done.
Qed.

Example handle_subscription_updated_sample :
  let data :=
    mk_subscription_data (Some "sub_test123") (Some "past_due")
      (Some 1709251200) (Some 1711929600) (Some true) None in
  subscriptions (out_db (handle_subscription_updated data (sample_db ACTIVE 4)))
  = {[ 7 := mk_subscription 1 "sub_test123" "cus_test123" PAST_DUE
              (Some (mk_datetime 2024 3 1 0 0 0 0))
              (Some (mk_datetime 2024 4 1 0 0 0 0)) None true None ]}.
Proof. by vm_compute. Qed.

(** C4, as the code has it.  A [customer.subscription.deleted] event
    that matches a subscription sets its status to CANCELED and its
    [canceled_at] to the processing time, whatever [canceled_at] held
    before; no other field and no other subscription changes.  With the
    e-mail service enabled one cancellation e-mail is attempted.
    Afterwards [canceled_at] is set, and handling the same event again
    finds the same subscription and leaves it CANCELED. *)
Theorem handle_subscription_deleted_cancels E tr now data db user sub :
  get_by_stripe_id (sd_id data) db = Ok (user, sub) →
  let o := handle_subscription_deleted E tr now data db in
  out_ret o = Ok (Some (user, canceled now sub))
  ∧ out_db o
    = set_subscriptions db (<[user := canceled now sub]> (subscriptions db))
  ∧ subscriptions (out_db o) !! user = Some (canceled now sub)
  ∧ status (canceled now sub) = CANCELED
  ∧ canceled_at (canceled now sub) = Some now
  ∧ (E = true →
     out_mail o
     = [mk_attempt (SubscriptionCancelled user (canceled now sub)) (out_db o)
          (tr (out_db o) (SubscriptionCancelled user (canceled now sub)))])
  ∧ ∀ E' tr' now',
      let o' := handle_subscription_deleted E' tr' now' data (out_db o) in
      out_ret o' = Ok (Some (user, canceled now' (canceled now sub)))
      ∧ ∃ sub', subscriptions (out_db o') !! user = Some sub'
          ∧ status sub' = CANCELED ∧ is_Some (canceled_at sub').
Proof.
  intros Hg. cbv zeta.
  assert (∀ E tr now db sub,
            get_by_stripe_id (sd_id data) db = Ok (user, sub) →
            handle_subscription_deleted E tr now data db
            = let db' :=
                set_subscriptions db
                  (<[user := canceled now sub]> (subscriptions db)) in
              mk_outcome db' (Ok (Some (user, canceled now sub)))
                (if E then [mk_attempt
                              (SubscriptionCancelled user (canceled now sub))
                              db'
                              (tr db' (SubscriptionCancelled user
                                         (canceled now sub)))]
                 else [])
                (if E && negb (tr db' (SubscriptionCancelled user
                                         (canceled now sub)))
                 then ["Failed to send cancellation email"%string]
                 else [])) as Hrun.
  { clear. intros E tr now db sub Hg. unfold handle_subscription_deleted.
    rewrite Hg. fold (canceled now sub). destruct E; [|done].
    unfold try_send. by destruct (tr _ _). }
  rewrite (Hrun E tr now db sub Hg). cbv zeta. cbn [out_ret out_db out_mail].
  split; [done|]. split; [done|].
  split; [simpl; apply lookup_insert_eq|].
  split; [done|]. split; [done|]. split; [by intros ->|].
  intros E' tr' now'.
  rewrite (Hrun E' tr' now' _ (canceled now sub))
    by (by apply (get_by_stripe_id_save _ _ _ sub)).
  cbn [out_ret out_db]. split; [done|].
  eexists. split; [simpl; apply lookup_insert_eq|]. by split.
Qed.

Lemma sample_db_get_by_stripe_id st n :
  get_by_stripe_id (Some "sub_test123") (sample_db st n)
  = Ok (7, sample_subscription st).
Proof.
  unfold get_by_stripe_id. apply get_Ok. unfold sample_db, subscriptions.
  by rewrite map_filter_singleton_True.
Defined.

Lemma handle_subscription_deleted_cancels_witness :
  let o :=
    handle_subscription_deleted true (λ _ _, false) mid_march deletion_event
      (sample_db ACTIVE 4) in
  subscriptions (out_db o) !! 7
  = Some (canceled mid_march (sample_subscription ACTIVE))
  ∧ canceled_at (canceled mid_march (sample_subscription ACTIVE))
    = Some mid_march.
Proof.
  pose proof (handle_subscription_deleted_cancels true (λ _ _, false)
                mid_march deletion_event (sample_db ACTIVE 4) 7
                (sample_subscription ACTIVE)
                (sample_db_get_by_stripe_id ACTIVE 4))
    as (_ & _ & Hs & _ & Hc & _).
  exact (conj Hs Hc).
Defined.

(** C4, as stated, fails: a deletion event handled on 15 March for a
    subscription whose [canceled_at] is already set to 1 March
    overwrites it. *)
Lemma handle_subscription_deleted_overwrites_canceled_at :
  ¬ (∀ E tr now data db user sub,
       get_by_stripe_id (sd_id data) db = Ok (user, sub) →
       is_Some (canceled_at sub) →
       ∃ sub',
         subscriptions (out_db (handle_subscription_deleted E tr now data db))
           !! user = Some sub'
         ∧ canceled_at sub' = canceled_at sub).
Proof.
  intros H.
  destruct (H true (λ _ _, true) mid_march deletion_event already_canceled_db
              7 (mk_subscription 1 "sub_test123" "cus_test123" CANCELED
                   None None None true (Some early_march)))
    as (sub' & Hs & Hc).
  - unfold get_by_stripe_id. apply get_Ok.
    unfold already_canceled_db, subscriptions.
    by rewrite map_filter_singleton_True.
  - by eexists.
  - vm_compute in Hs. injection Hs as <-. discriminate Hc.
Qed.




(** A CANCELED subscription stays CANCELED, and still gets its usage
    row for the period. *)
Example handle_payment_succeeded_canceled :
  let db := {| plans := sample_plans;
               subscriptions := {[ 7 := sample_subscription CANCELED ]};
               usages := ∅ |} in
  out_db (handle_payment_succeeded mid_march payment_event db)
  = {| plans := sample_plans;
       subscriptions := {[ 7 := sample_subscription CANCELED ]};
       usages := {[ 1 := march_usage 0 ]} |}.
Proof. by vm_compute. Qed.

(** * Beyond the quota and billing statements *)

(** ** Events and the quota gate *)

Lemma map_stripe_status_active s :
  _map_stripe_status s = ACTIVE → s = Some "active"%string.
Proof.
  unfold _map_stripe_status.
  repeat (match goal with
          | |- context [match ?x with _ => _ end] => destruct x
          end; try done).
Qed.

Lemma map_stripe_status_trialing s :
  _map_stripe_status s = TRIALING → s = Some "trialing"%string.
Proof.
  unfold _map_stripe_status.
  repeat (match goal with
          | |- context [match ?x with _ => _ end] => destruct x
          end; try done).
Qed.

(** A denied quota check makes [increment_usage] return [False]
    without writing or sending anything. *)
Lemma increment_usage_denied E tr now1 now2 user db rem :
  check_usage_quota now1 user db = (db, Ok (false, rem)) →
  increment_usage E tr now1 now2 user db = mk_outcome db (Ok false) [] [].
Proof. intros H. unfold increment_usage. by rewrite H. Qed.

Lemma inactive_is_denied E tr now1 now2 user db sub :
  subscriptions db !! user = Some sub → ¬ is_active sub →
  check_usage_quota now1 user db = (db, Ok (false, Finite 0))
  ∧ increment_usage E tr now1 now2 user db = mk_outcome db (Ok false) [] [].
Proof.
  intros Hs Hn.
  pose proof (check_usage_quota_inactive now1 user db sub Hs Hn) as Hc.
  split; [done|]. by eapply increment_usage_denied.
Qed.

(** No subscription carries the Stripe id [sid]. *)
Lemma get_by_stripe_id_unknown sid db :
  (∀ user sub, subscriptions db !! user = Some sub →
     Some (stripe_subscription_id sub) ≠ sid) →
  get_by_stripe_id sid db = Raise DoesNotExist.
Proof.
  intros Hno. unfold get_by_stripe_id. apply get_DoesNotExist.
  apply map_empty_filter_2. intros user sub Hs Hid.
  unfold has_stripe_id in Hid. simpl in Hid. by eapply Hno.
Qed.

(** What [handle_subscription_updated] returns on a match. *)
Lemma handle_subscription_updated_inv data db user sub' :
  out_ret (handle_subscription_updated data db) = Ok (Some (user, sub')) →
  ∃ sub,
    get_by_stripe_id (sd_id data) db = Ok (user, sub)
    ∧ out_db (handle_subscription_updated data db)
      = set_subscriptions db (<[user := sub']> (subscriptions db))
    ∧ out_mail (handle_subscription_updated data db) = []
    ∧ sub_plan sub' = sub_plan sub
    ∧ stripe_subscription_id sub' = stripe_subscription_id sub
    ∧ stripe_customer_id sub' = stripe_customer_id sub
    ∧ trial_end sub' = trial_end sub
    ∧ status sub' = _map_stripe_status (sd_status data)
    ∧ cancel_at_period_end sub' = default false (sd_cancel_at_period_end data)
    ∧ (truthy_int (sd_canceled_at data) = false →
       canceled_at sub' = canceled_at sub).
Proof.
  unfold handle_subscription_updated.
  destruct (get_by_stripe_id (sd_id data) db) as [[u sub]|[]] eqn:Hg; try done.
  destruct (fromtimestamp (sd_current_period_start data)) as [ps|]; [|done].
  destruct (fromtimestamp (sd_current_period_end data)) as [pe|]; [|done].
  cbn [bind].
  destruct (truthy_int (sd_canceled_at data)) eqn:Ht.
  - destruct (fromtimestamp (sd_canceled_at data)) as [ca|]; [|done].
    cbn [bind out_ret out_db out_mail]. intros [= <- <-]. exists sub.
    by repeat (split; [done|]).
  - cbn [bind out_ret out_db out_mail]. intros [= <- <-]. exists sub.
    by repeat (split; [done|]).
Qed.

(** X1.  [handle_subscription_updated] writes one row at most: the
    plans and the usage rows are never touched and nothing is sent;
    when it returns a subscription, that row alone is replaced, keeping
    its plan, Stripe ids and trial end, taking the mapped status and
    the cancel flag of the payload; when it returns [None] or raises
    (unknown id, several matches, malformed timestamp) the database is
    what it was. *)
Theorem handle_subscription_updated_effect data db :
  let o := handle_subscription_updated data db in
  plans (out_db o) = plans db ∧ usages (out_db o) = usages db
  ∧ out_mail o = []
  ∧ match out_ret o with
    | Ok (Some (user, sub')) =>
        ∃ sub,
          subscriptions db !! user = Some sub
          ∧ sd_id data = Some (stripe_subscription_id sub)
          ∧ subscriptions (out_db o) = <[user := sub']> (subscriptions db)
          ∧ sub_plan sub' = sub_plan sub
          ∧ stripe_subscription_id sub' = stripe_subscription_id sub
          ∧ stripe_customer_id sub' = stripe_customer_id sub
          ∧ trial_end sub' = trial_end sub
          ∧ status sub' = _map_stripe_status (sd_status data)
          ∧ cancel_at_period_end sub'
            = default false (sd_cancel_at_period_end data)
    | _ => out_db o = db
    end.
Proof.
  cbv zeta.
  destruct (out_ret (handle_subscription_updated data db))
    as [[[user sub']|]|e] eqn:Hr.
  - destruct (handle_subscription_updated_inv _ _ _ _ Hr)
      as (sub & Hg & -> & -> & ? & ? & ? & ? & ? & ? & _).
    apply get_Ok_lookup in Hg as [Hs Hid].
    do 3 (split; [done|]). exists sub. by repeat (split; [done|]).
  - revert Hr. unfold handle_subscription_updated.
    destruct (get_by_stripe_id (sd_id data) db) as [[u sub]|[]]; try done.
    destruct (bind _ _); done.
  - revert Hr. unfold handle_subscription_updated.
    destruct (get_by_stripe_id (sd_id data) db) as [[u sub]|[]]; try done.
    destruct (bind _ _); done.
Qed.

(** X2.  The status mapping fails closed: once an update whose Stripe
    status is neither "active" nor "trialing" (a status the mapping
    does not know included) has been handled for a user, the quota
    check denies that user and [increment_usage] returns [False]
    without writing or sending anything. *)
Theorem handle_subscription_updated_fails_closed data db user sub' :
  out_ret (handle_subscription_updated data db) = Ok (Some (user, sub')) →
  sd_status data ≠ Some "active"%string →
  sd_status data ≠ Some "trialing"%string →
  let db' := out_db (handle_subscription_updated data db) in
  ∀ E tr now1 now2,
    check_usage_quota now1 user db' = (db', Ok (false, Finite 0))
    ∧ increment_usage E tr now1 now2 user db'
      = mk_outcome db' (Ok false) [] [].
Proof.
  intros Hr Ha Ht db' E tr now1 now2. subst db'.
  destruct (handle_subscription_updated_inv _ _ _ _ Hr)
    as (sub & _ & -> & _ & _ & _ & _ & _ & Hst & _).
  apply (inactive_is_denied _ _ _ _ _ _ sub').
  - simpl. apply lookup_insert_eq.
  - unfold is_active. rewrite Hst.
    intros [H%map_stripe_status_active|H%map_stripe_status_trialing]; done.
Qed.

Lemma handle_subscription_updated_fails_closed_witness :
  let db' := out_db (handle_subscription_updated paused_event
                       (sample_db ACTIVE 4)) in
  check_usage_quota mid_march 7 db' = (db', Ok (false, Finite 0)).
Proof.
  refine (proj1 (handle_subscription_updated_fails_closed paused_event
                   (sample_db ACTIVE 4) 7
                   (mk_subscription 1 "sub_test123" "cus_test123" CANCELED
                      (Some (mk_datetime 2024 3 1 0 0 0 0))
                      (Some (mk_datetime 2024 4 1 0 0 0 0)) None false None)
                   _ _ _ true (λ _ _, true) mid_march mid_march)).
  - by vm_compute.
  - done.
  - done.
Defined.

(** X3.  An event naming a Stripe subscription that no local
    subscription carries is ignored by the four handlers that look the
    subscription up: each returns [None], leaves the database as it is
    and sends nothing. *)
Theorem unknown_subscription_ignored E tr now sid db :
  (∀ user sub, subscriptions db !! user = Some sub →
     Some (stripe_subscription_id sub) ≠ sid) →
  let ignored := mk_outcome db (Ok None) [] [] in
  (∀ st ps pe cape ca,
     handle_subscription_updated
       (mk_subscription_data sid st ps pe cape ca) db = ignored)
  ∧ (∀ st ps pe cape ca,
       handle_subscription_deleted E tr now
         (mk_subscription_data sid st ps pe cape ca) db = ignored)
  ∧ handle_payment_failed E tr (mk_invoice_data sid) db = ignored
  ∧ handle_payment_succeeded now (mk_invoice_data sid) db = ignored.
Proof.
  intros Hno%get_by_stripe_id_unknown. cbv zeta.
  split; [|split; [|split]].
  - intros. unfold handle_subscription_updated. simpl. by rewrite Hno.
  - intros. unfold handle_subscription_deleted. simpl. by rewrite Hno.
  - unfold handle_payment_failed. simpl. rewrite Hno. by destruct (negb _).
  - unfold handle_payment_succeeded. simpl. rewrite Hno. by destruct (negb _).
Qed.

Lemma unknown_subscription_ignored_witness :
  handle_payment_failed true (λ _ _, true) (mk_invoice_data (Some "sub_other"))
    (sample_db ACTIVE 4)
  = mk_outcome (sample_db ACTIVE 4) (Ok None) [] [].
Proof.
  refine (proj1 (proj2 (proj2
            (unknown_subscription_ignored true (λ _ _, true) mid_march
               (Some "sub_other"%string) (sample_db ACTIVE 4) _)))).
  intros user sub Hs. unfold sample_db, subscriptions in Hs.
  apply lookup_singleton_Some in Hs as [_ <-]. done.
Defined.

(** X4.  A subscription for which a deletion or a failed payment has
    been handled is locked out: its status is CANCELED or PAST_DUE, the
    quota check denies its user at every later instant, and
    [increment_usage] returns [False] without writing or sending
    anything, whatever the plan and the usage so far. *)
Theorem handled_event_locks_out E tr now data inv db o user sub' :
  o = handle_subscription_deleted E tr now data db
  ∨ o = handle_payment_failed E tr inv db →
  out_ret o = Ok (Some (user, sub')) →
  subscriptions (out_db o) !! user = Some sub'
  ∧ (status sub' = CANCELED ∨ status sub' = PAST_DUE)
  ∧ ∀ E' tr' now1 now2,
      check_usage_quota now1 user (out_db o) = (out_db o, Ok (false, Finite 0))
      ∧ increment_usage E' tr' now1 now2 user (out_db o)
        = mk_outcome (out_db o) (Ok false) [] [].
Proof.
  intros Ho Hr.
  assert (subscriptions (out_db o) !! user = Some sub'
          ∧ (status sub' = CANCELED ∨ status sub' = PAST_DUE)) as [Hs Hst].
  { destruct Ho as [-> | ->]; revert Hr.
    - unfold handle_subscription_deleted.
      destruct (get_by_stripe_id (sd_id data) db) as [[u sub]|[]]; try done.
      destruct (if E then _ else _) as [mail log].
      cbn [out_ret out_db]. intros [= <- <-]. simpl.
      split; [apply lookup_insert_eq|by left].
    - unfold handle_payment_failed.
      destruct (negb _); [done|].
      destruct (get_by_stripe_id (inv_subscription inv) db) as [[u sub]|[]];
        try done.
      destruct (if E then _ else _) as [mail log].
      cbn [out_ret out_db]. intros [= <- <-]. simpl.
      split; [apply lookup_insert_eq|by right]. }
  do 2 (split; [done|]). intros E' tr' now1 now2.
  apply (inactive_is_denied _ _ _ _ _ _ sub'); [done|].
  unfold is_active. intros [?|?]; destruct Hst; congruence.
Qed.

Lemma handled_event_locks_out_witness :
  let o := handle_payment_failed true (λ _ _, true) payment_event
             (sample_db ACTIVE 4) in
  check_usage_quota mid_march 7 (out_db o) = (out_db o, Ok (false, Finite 0)).
Proof.
  refine (proj1 (proj2 (proj2
            (handled_event_locks_out true (λ _ _, true) mid_march
               deletion_event payment_event (sample_db ACTIVE 4) _ 7
               (mk_subscription 1 "sub_test123" "cus_test123" PAST_DUE
                  None None None false None)
               (or_intror eq_refl) _))
            true (λ _ _, true) mid_march mid_march)).
  by vm_compute.
Defined.

(** X5.  A failed payment followed by a successful one leaves the
    subscription ACTIVE with every other field as before, whatever its
    status was at the start: an ACTIVE subscription gets its row back
    unchanged, and a CANCELED one (which a successful payment alone
    would leave CANCELED) comes out ACTIVE. *)
Theorem payment_failed_then_succeeded E tr now data db user sub :
  truthy_id (inv_subscription data) = true →
  get_by_stripe_id (inv_subscription data) db = Ok (user, sub) →
  let o1 := handle_payment_failed E tr data db in
  let o2 := handle_payment_succeeded now data (out_db o1) in
  subscriptions (out_db o2) = <[user := reactivated sub]> (subscriptions db)
  ∧ plans (out_db o2) = plans db
  ∧ (status sub = ACTIVE → subscriptions (out_db o2) = subscriptions db).
Proof.
  intros Ht Hg. cbv zeta.
  assert (subscriptions
            (out_db (handle_payment_succeeded now data
                       (out_db (handle_payment_failed E tr data db))))
          = <[user := reactivated sub]> (subscriptions db)
          ∧ plans (out_db (handle_payment_succeeded now data
                       (out_db (handle_payment_failed E tr data db))))
            = plans db) as [Hs Hp].
  { unfold handle_payment_failed. rewrite Ht, Hg. cbn [negb].
    destruct (if E then _ else _) as [mail log]. cbn [out_db].
    unfold handle_payment_succeeded. rewrite Ht. cbn [negb].
    erewrite get_by_stripe_id_save by (try exact Hg; done).
    cbn [status]. rewrite bool_decide_eq_true_2 by (by left).
    destruct (get_or_create_current now user _) as [db2 r] eqn:Hc.
    destruct (get_or_create_current_frame _ _ _ _ _ Hc) as (Hpl & Hsu & _).
    assert (subscriptions db2 = <[user := reactivated sub]> (subscriptions db)
            ∧ plans db2 = plans db) as [? ?].
    { rewrite Hsu, Hpl. simpl. by rewrite insert_insert_eq. }
    by destruct r. }
  do 2 (split; [done|]). intros Hact. rewrite Hs.
  apply insert_id. apply get_Ok_lookup in Hg as [-> _].
  f_equal. destruct sub. simpl in *. by subst.
Qed.

Lemma payment_failed_then_succeeded_witness :
  let o1 := handle_payment_failed true (λ _ _, true) payment_event
              (sample_db CANCELED 4) in
  let o2 := handle_payment_succeeded mid_march payment_event (out_db o1) in
  subscriptions (out_db o2)
  = <[7 := reactivated (sample_subscription CANCELED)]>
      (subscriptions (sample_db CANCELED 4)).
Proof.
  exact (proj1 (payment_failed_then_succeeded true (λ _ _, true) mid_march
                  payment_event (sample_db CANCELED 4) 7
                  (sample_subscription CANCELED) eq_refl
                  (sample_db_get_by_stripe_id CANCELED 4))).
Defined.

(** ** The model methods beside the service *)

(** X6.  For an active or trialing subscriber the model method and the
    service agree on whether quota is left: on the usage row the quota
    check read, [has_quota_remaining] returns what the check returned,
    and [get_remaining_quota] returns the check's remainder, clamped at
    zero. *)
Theorem has_quota_remaining_agrees_with_gate now user db db1 b rem sub :
  subscriptions db !! user = Some sub → is_active sub →
  check_usage_quota now user db = (db1, Ok (b, rem)) →
  ∃ k r,
    get_or_create_current now user db = (db1, Ok (k, r))
    ∧ Models.has_quota_remaining r db1 = Ok b
    ∧ get_remaining_quota r db1
      = Ok match rem with
           | Finite n => Finite (Z.max 0 n)
           | Unlimited => Unlimited
           end.
Proof.
  intros Hs Ha Hc.
  apply check_usage_quota_inv in Hc
    as [(_ & _ & _ & [Hn|(s & Hs' & Hn)])
       |(s & plan & k & r & Hs' & _ & Hg & Hpl & Hq)].
  - congruence.
  - rewrite Hs in Hs'. by injection Hs' as <-.
  - exists k, r. split; [done|].
    destruct (get_or_create_current_frame _ _ _ _ _ Hg)
      as (_ & Hsu & _ & Hrow).
    destruct (Hrow k r eq_refl) as [_ Hu].
    unfold Models.has_quota_remaining, get_remaining_quota.
    rewrite Hu, Hsu, Hs', Hpl.
    destruct Hq as [(Hq & -> & ->)|(Hq & -> & ->)].
    + by rewrite Hq.
    + destruct (Z.eqb_spec (description_quota plan) (-1)) as [|_]; [done|].
      cbn [bind]. split; [|done]. f_equal.
      destruct (Z.ltb_spec 0 (description_quota plan - descriptions_generated r));
        [apply Z.ltb_lt|apply Z.ltb_ge]; lia.
Qed.

Lemma has_quota_remaining_agrees_with_gate_witness :
  ∃ k r,
    get_or_create_current mid_march 7 (sample_db ACTIVE 4)
    = (sample_db ACTIVE 4, Ok (k, r))
    ∧ Models.has_quota_remaining r (sample_db ACTIVE 4) = Ok true
    ∧ get_remaining_quota r (sample_db ACTIVE 4) = Ok (Finite (Z.max 0 1)).
Proof.
  apply (has_quota_remaining_agrees_with_gate mid_march 7 (sample_db ACTIVE 4)
           (sample_db ACTIVE 4) true (Finite 1) (sample_subscription ACTIVE)).
  - by vm_compute.
  - by left.
  - by vm_compute.
Defined.

(** X7.  The model methods do not look at the subscription's status:
    for a subscriber who is neither active nor trialing, on a plan that
    is unlimited or not yet used up, [has_quota_remaining] answers
    [True] while the service's quota check denies. *)
Theorem has_quota_remaining_ignores_status now usage db sub plan :
  subscriptions db !! usage_user usage = Some sub → ¬ is_active sub →
  plans db !! sub_plan sub = Some plan →
  description_quota plan = -1
  ∨ descriptions_generated usage < description_quota plan →
  Models.has_quota_remaining usage db = Ok true
  ∧ check_usage_quota now (usage_user usage) db = (db, Ok (false, Finite 0)).
Proof.
  intros Hs Hn Hp Hq.
  split; [|by apply (check_usage_quota_inactive _ _ _ sub)].
  unfold Models.has_quota_remaining, get_remaining_quota. rewrite Hs, Hp.
  destruct (Z.eqb_spec (description_quota plan) (-1)) as [|Hne]; [done|].
  cbn [bind]. do 2 f_equal. apply Z.ltb_lt. lia.
Qed.

Lemma has_quota_remaining_ignores_status_witness :
  Models.has_quota_remaining (march_usage 4) (sample_db CANCELED 4) = Ok true
  ∧ check_usage_quota mid_march 7 (sample_db CANCELED 4)
    = (sample_db CANCELED 4, Ok (false, Finite 0)).
Proof.
  apply (has_quota_remaining_ignores_status mid_march (march_usage 4)
           (sample_db CANCELED 4) (sample_subscription CANCELED)
           (mk_plan "Free" 5 true)).
  - by vm_compute.
  - unfold is_active. simpl. intros [?|?]; discriminate.
  - by vm_compute.
  - right. simpl. lia.
Defined.

(** X8.  The row [get_or_create_current] returns is the current
    period's, as [is_current_period] sees it at the same instant,
    exactly when the row was already stored or the instant lies in the
    period computed from it; a row created in a month's last second,
    after that second's first microsecond, is not. *)
Theorem get_or_create_current_is_current_period now user db db1 k r :
  get_or_create_current now user db = (db1, Ok (k, r)) →
  Models.is_current_period now r = true
  ↔ usages db !! k = Some r ∨ in_billing_period now.
Proof.
  intros Hg. unfold Models.is_current_period. rewrite andb_true_iff.
  revert Hg. unfold get_or_create_current.
  destruct (current_period now) as [[ps pe]|e] eqn:Hp; [|done].
  destruct (Manager.get (is_current user now) (usages db))
    as [[k' r']|[]] eqn:Hm; try done; intros [= <- <- <-].
  - apply get_Ok_lookup in Hm as [Hl [_ Hc]]. split; [by left|by intros _].
  - simpl. split.
    + intros [? ?]. right. by exists ps, pe.
    + intros [Hl|(ps' & pe' & Hp' & ? & ?)].
      * by rewrite next_pk_fresh in Hl.
      * rewrite Hp in Hp'. by injection Hp' as <- <-.
Qed.

Lemma get_or_create_current_is_current_period_witness :
  Models.is_current_period end_of_january
    (fresh_usage 7 (mk_datetime 2024 1 1 0 0 0 0)
       (mk_datetime 2024 1 31 23 59 59 0)) = true
  ↔ usages empty_db !! 1 = Some (fresh_usage 7 (mk_datetime 2024 1 1 0 0 0 0)
                                   (mk_datetime 2024 1 31 23 59 59 0))
    ∨ in_billing_period end_of_january.
Proof.
  apply (get_or_create_current_is_current_period end_of_january 7 empty_db
           (set_usages empty_db
              {[ 1 := fresh_usage 7 (mk_datetime 2024 1 1 0 0 0 0)
                        (mk_datetime 2024 1 31 23 59 59 0) ]})).
  by vm_compute.
Defined.

(** X9.  [days_until_renewal] counts whole days, rounded down and
    never negative: it is 0 once the period end is less than a day
    away or already past (and when no period end is stored), and
    otherwise the largest [d] with [d] days not exceeding the time
    left. *)
Theorem days_until_renewal_floor now sub :
  let d := Models.days_until_renewal now sub in
  0 ≤ d
  ∧ match current_period_end sub with
    | None => d = 0
    | Some e =>
        (to_micros e - to_micros now < 86400000000 → d = 0)
        ∧ (to_micros now ≤ to_micros e →
           d * 86400000000 ≤ to_micros e - to_micros now
           < (d + 1) * 86400000000)
    end.
Proof.
  cbv zeta. unfold Models.days_until_renewal.
  destruct (current_period_end sub) as [e|]; [|done].
  set (x := to_micros e - to_micros now).
  split; [lia|]. split; intros; Z.div_mod_to_equations; lia.
Qed.

(** X10.  The subject of a quota warning that [increment_usage] sends,
    for quotas up to 500, where the binary64 percentage decides as the
    exact ratio: "Quota Limit Reached" exactly when the count has
    reached the quota, and then the remainder printed in the e-mail is
    zero or negative; "90% Used" exactly from 90% up to the quota;
    "80% Used" otherwise, which happens only between 80% and 90% at a
    count that is a multiple of ten. *)
Theorem quota_warning_subject_tiers count quota :
  1 ≤ quota ≤ 500 → 0 ≤ count ≤ quota + 1 →
  warning_due count quota = true →
  let subject := quota_warning_subject count quota in
  (subject = "Quota Limit Reached - Upgrade Your Plan"%string
   ↔ quota ≤ count)
  ∧ (subject = "Quota Limit Reached - Upgrade Your Plan"%string
     → quota_warning_remaining count quota ≤ 0)
  ∧ (subject = "Quota Almost Exhausted - 90% Used"%string
     ↔ 9 * quota ≤ 10 * count < 10 * quota)
  ∧ (subject = "Quota Warning - 80% Used"%string
     ↔ 8 * quota ≤ 10 * count < 9 * quota ∧ count mod 10 = 0).
Proof.
  intros Hq Hc Hw. cbv zeta.
  unfold quota_warning_subject, quota_warning_remaining.
  rewrite warning_due_exact in Hw by done. revert Hw.
  rewrite (proj2 (Z.ltb_lt 0 quota)) by lia.
  fold (percentage_ge count quota 100). fold (percentage_ge count quota 90).
  rewrite !percentage_ge_binary64 by (try done; repeat constructor).
  destruct (Z.leb_spec quota count);
    destruct (Z.leb_spec (100 * quota) (100 * count));
    destruct (Z.leb_spec (90 * quota) (100 * count));
    destruct (Z.leb_spec (80 * quota) (100 * count));
    destruct (Z.eqb_spec (count mod 10) 0); cbn [andb orb]; intros Hw;
    try discriminate Hw; try lia;
    (repeat split); try done; try lia; intros; lia.
Qed.

Lemma quota_warning_subject_tiers_witness :
  quota_warning_subject 40 50 = "Quota Warning - 80% Used"%string
  ↔ 8 * 50 ≤ 10 * 40 < 9 * 50 ∧ 40 mod 10 = 0.
Proof.
  refine (proj2 (proj2 (proj2 (quota_warning_subject_tiers 40 50 _ _ _)))).
  - lia.
  - lia.
  - by vm_compute.
Defined.

(** Beyond the integers binary64 tells apart the subject follows the
    rounded percentage: with quota 10^18 and count 899999999999999990,
    a multiple of ten just below 90%, [(count / quota) * 100] is 90.0
    and the subject is the 90% one. *)
Example quota_warning_subject_rounded_up :
  quota_warning_subject 899999999999999990 (10 ^ 18)
  = "Quota Almost Exhausted - 90% Used"%string
  ∧ 10 * 899999999999999990 < 9 * 10 ^ 18.
Proof. by vm_compute. Qed.

(** ** [handle_checkout_session_completed] *)

Section CheckoutFacts.
Variable E : bool.
Variable confirm : DB → Z → UserSubscription → bool.
Variable to_id : string → result Z.
Variable user_exists : Z → bool.
Variable retrieve : string → option stripe_subscription.

(** The handler with the settings of this section. *)
Local Abbreviation run :=
  (Checkout.handle_checkout_session_completed E confirm to_id user_exists
     retrieve).

(** Every way the handler can run. *)
Lemma checkout_cases now session db :
  let o := Checkout.handle_checkout_session_completed E confirm to_id
             user_exists retrieve now session db in
  (co_db o = db ∧ co_mail o = [] ∧ ∃ r, co_ret o = inl r)
  ∨ ∃ uid pid cust sid user plan s sub,
      session = mk_session_data (Some uid) (Some pid) (Some cust) (Some sid)
      ∧ to_id uid = Ok user ∧ user_exists user = true
      ∧ to_id pid = Ok plan ∧ is_Some (plans db !! plan)
      ∧ retrieve sid = Some s
      ∧ Checkout.defaults plan sid cust s = Ok sub
      ∧ let db1 := set_subscriptions db (<[user := sub]> (subscriptions db)) in
        (is_Some (subscriptions db !! user)
         ∧ o = mk_checkout_outcome db1 (inr (user, sub)) [] [])
        ∨ (subscriptions db !! user = None
           ∧ ∃ db2 res,
               get_or_create_current now user db1 = (db2, res)
               ∧ o
                 = match res with
                   | Raise e => mk_checkout_outcome db2 (inl (Python e)) [] []
                   | Ok _ =>
                       mk_checkout_outcome db2 (inr (user, sub))
                         (confirmation_of E confirm user sub db2).1
                         (confirmation_of E confirm user sub db2).2
                   end).
Proof.
  cbv zeta. unfold Checkout.handle_checkout_session_completed.
  destruct session as [[uid|] [pid|] [cust|] [sid|]];
    cbn [ses_user_id ses_plan_id ses_customer ses_subscription];
    try (left; repeat split; by eexists).
  destruct (negb _); [left; repeat split; by eexists|].
  destruct (to_id uid) as [user|e] eqn:Hu; [|left; repeat split; by eexists].
  destruct (user_exists user) eqn:Hx; cbn [negb];
    [|left; repeat split; by eexists].
  destruct (to_id pid) as [plan|e] eqn:Hp; [|left; repeat split; by eexists].
  destruct (plans db !! plan) as [pl|] eqn:Hpl;
    [|left; repeat split; by eexists].
  destruct (retrieve sid) as [s|] eqn:Hr; [|left; repeat split; by eexists].
  destruct (Checkout.defaults plan sid cust s) as [sub|e] eqn:Hd;
    [|left; repeat split; by eexists].
  right. exists uid, pid, cust, sid, user, plan, s, sub.
  do 7 (split; [eauto|]). cbv zeta.
  case_bool_decide as Hnew.
  - right. split; [done|].
    destruct (get_or_create_current now user _) as [db2 res] eqn:Hg.
    exists db2, res. split; [done|]. destruct res as [kr|e]; [|done].
    unfold confirmation_of. destruct E; [|done]. by destruct (confirm _ _ _).
  - left. split; [|done]. destruct (subscriptions db !! user); [eauto|done].
Qed.



(** X12.  A new subscriber's checkout also opens the usage record and
    sends the confirmation: afterwards a usage row of the user exists,
    and with the e-mail service enabled exactly one confirmation is
    attempted, for the subscription as saved and after the database has
    its final content; whether the send succeeds changes neither the
    database nor what is returned. *)
Theorem checkout_new_subscriber now session db user sub :
  let o := Checkout.handle_checkout_session_completed E confirm to_id
             user_exists retrieve now session db in
  co_ret o = inr (user, sub) →
  subscriptions db !! user = None →
  (∃ k r, usages (co_db o) !! k = Some r ∧ usage_user r = user)
  ∧ (co_mail o, co_log o) = confirmation_of E confirm user sub (co_db o)
  ∧ subscriptions (co_db o) !! user = Some sub.
Proof.
  cbv zeta. intros Hr Hnew.
  destruct (checkout_cases now session db)
    as [(_ & _ & r & Hr')
       |(uid & pid & cust & sid & u & plan & s & sub0 & -> & Hu & Hx & Hp
         & Hpl & Hs & Hd & Hrun)]; [congruence|].
  cbv zeta in Hrun.
  destruct Hrun as [(Hold & Hrun)|(_ & db2 & res & Hg & Hrun)];
    rewrite Hrun in Hr |- *.
  - injection Hr as <- <-. rewrite Hnew in Hold. by destruct Hold.
  - destruct res as [[k r]|e]; [|done]. injection Hr as <- <-.
    cbn [co_db co_mail co_log].
    destruct (get_or_create_current_frame _ _ _ _ _ Hg)
      as (_ & Hsu & _ & Hrow).
    split; [exists k, r; by apply Hrow|].
    split; [by destruct (confirmation_of _ _ _ _ _)|].
    rewrite Hsu. simpl. apply lookup_insert_eq.
Qed.

(** X13.  Handling the same checkout session again, at any later
    instant, on the database the first handling left: the same
    subscription is returned, the database does not change, and no
    confirmation is sent a second time. *)
Theorem checkout_redelivery now now' session db user sub :
  let o := Checkout.handle_checkout_session_completed E confirm to_id
             user_exists retrieve now session db in
  co_ret o = inr (user, sub) →
  Checkout.handle_checkout_session_completed E confirm to_id user_exists
    retrieve now' session (co_db o)
  = mk_checkout_outcome (co_db o) (inr (user, sub)) [] [].
Proof.
  cbv zeta. intros Hr.
  destruct (checkout_cases now session db)
    as [(_ & _ & r & Hr')
       |(uid & pid & cust & sid & u & plan & s & sub0 & -> & Hu & Hx & Hp
         & [pl Hpl] & Hs & Hd & Hrun)]; [congruence|].
  set (session := mk_session_data _ _ _ _) in *.
  assert (u = user ∧ sub0 = sub
          ∧ subscriptions (co_db (run now session db))
            = <[user := sub]> (subscriptions db)
          ∧ plans (co_db (run now session db)) = plans db)
    as (-> & -> & Hsu & Hp').
  { cbv zeta in Hrun.
    destruct Hrun as [(_ & Hrun)|(_ & db2 & res & Hg & Hrun)];
      rewrite Hrun in Hr |- *.
    - by injection Hr as <- <-.
    - destruct res as [kr|e]; [|done]. injection Hr as <- <-. cbn [co_db].
      by destruct (get_or_create_current_frame _ _ _ _ _ Hg) as (-> & -> & _). }
  assert (negb (truthy_id (Some uid) && truthy_id (Some pid)
                && truthy_id (Some cust) && truthy_id (Some sid)) = false)
    as Ht.
  { destruct (negb _) eqn:Ht; [|done]. exfalso. revert Hr.
    unfold Checkout.handle_checkout_session_completed, session.
    cbn [ses_user_id ses_plan_id ses_customer ses_subscription].
    by rewrite Ht. }
  set (db' := co_db (run now session db)) in *.
  unfold Checkout.handle_checkout_session_completed, session.
  cbn [ses_user_id ses_plan_id ses_customer ses_subscription].
  rewrite Ht.
  rewrite Hu, Hx, Hp, Hp', Hpl, Hs, Hd. cbn [negb].
  rewrite bool_decide_eq_false_2
    by (rewrite Hsu, lookup_insert_eq; done).
  f_equal. destruct db' as [p su us]. simpl in *. unfold set_subscriptions.
  simpl. f_equal. rewrite Hsu. apply insert_insert_eq.
Qed.

(** X14.  A checkout that raises has sent nothing and has left the
    plans and the usage rows alone; the database is unchanged unless
    the failure came from opening the usage record of a new subscriber,
    in which case the new subscription row is already stored. *)
Theorem checkout_failure_effect now session db r :
  let o := Checkout.handle_checkout_session_completed E confirm to_id
             user_exists retrieve now session db in
  co_ret o = inl r →
  co_mail o = [] ∧ plans (co_db o) = plans db ∧ usages (co_db o) = usages db
  ∧ (co_db o = db
     ∨ ∃ user sub e,
         r = Python e ∧ subscriptions db !! user = None
         ∧ co_db o = set_subscriptions db (<[user := sub]> (subscriptions db))
         ∧ (get_or_create_current now user (co_db o)).2 = Raise e).
Proof.
  cbv zeta. intros Hr.
  destruct (checkout_cases now session db)
    as [(Hdb & Hm & _)
       |(uid & pid & cust & sid & u & plan & s & sub0 & -> & Hu & Hx & Hp
         & Hpl & Hs & Hd & Hrun)].
  { rewrite Hdb, Hm. repeat (split; [done|]). by left. }
  cbv zeta in Hrun.
  destruct Hrun as [(_ & Hrun)|(Hnew & db2 & res & Hg & Hrun)];
    rewrite Hrun in Hr |- *; [done|].
  destruct res as [kr|e]; [done|]. injection Hr as <-. cbn [co_db co_mail].
  destruct (get_or_create_current_frame _ _ _ _ _ Hg)
    as (Hpl' & Hsu' & [->|(ps & pe & _ & _ & _ & [=])] & _).
  repeat (split; [done|]). right. exists u, sub0, e.
  repeat (split; [done|]). by rewrite Hg.
Qed.

(** X15.  A checkout for a user who already has a subscription (a
    change of plan, a new subscription after a cancellation) replaces
    the subscription row and does nothing else: no usage row is created
    or reset, so the count of the running month carries over, and no
    confirmation is sent. *)
Theorem checkout_existing_subscriber now session db user sub :
  let o := Checkout.handle_checkout_session_completed E confirm to_id
             user_exists retrieve now session db in
  co_ret o = inr (user, sub) →
  is_Some (subscriptions db !! user) →
  o
  = mk_checkout_outcome
      (set_subscriptions db (<[user := sub]> (subscriptions db)))
      (inr (user, sub)) [] [].
Proof.
  cbv zeta. intros Hr Hold.
  destruct (checkout_cases now session db)
    as [(_ & _ & r & Hr')
       |(uid & pid & cust & sid & u & plan & s & sub0 & -> & Hu & Hx & Hp
         & Hpl & Hs & Hd & Hrun)]; [congruence|].
  cbv zeta in Hrun.
  destruct Hrun as [(_ & Hrun)|(Hnew & db2 & res & Hg & Hrun)];
    rewrite Hrun in Hr |- *.
  - by injection Hr as <- <-.
  - destruct res as [kr|e]; [|done]. injection Hr as <- <-.
    rewrite Hnew in Hold. by destruct Hold.
Qed.

End CheckoutFacts.


Lemma checkout_new_subscriber_witness :
  let o :=
    Checkout.handle_checkout_session_completed true (λ _ _ _, false)
      sample_to_id (λ _, true) sample_retrieve mid_march sample_session
      no_subscriber_db in
  subscriptions (co_db o) !! 7 = Some march_subscription.
Proof.
  refine (proj2 (proj2
            (checkout_new_subscriber true (λ _ _ _, false) sample_to_id
               (λ _, true) sample_retrieve mid_march sample_session
               no_subscriber_db 7 march_subscription _ _)));
    by vm_compute.
Defined.

Lemma checkout_redelivery_witness :
  let o :=
    Checkout.handle_checkout_session_completed true (λ _ _ _, true)
      sample_to_id (λ _, true) sample_retrieve mid_march sample_session
      no_subscriber_db in
  Checkout.handle_checkout_session_completed true (λ _ _ _, true)
    sample_to_id (λ _, true) sample_retrieve end_of_january sample_session
    (co_db o)
  = mk_checkout_outcome (co_db o) (inr (7, march_subscription)) [] [].
Proof.
  refine (checkout_redelivery true (λ _ _ _, true) sample_to_id (λ _, true)
            sample_retrieve mid_march end_of_january sample_session
            no_subscriber_db 7 march_subscription _).
  by vm_compute.
Defined.

Lemma checkout_failure_effect_witness :
  let o :=
    Checkout.handle_checkout_session_completed true (λ _ _ _, true)
      sample_to_id (λ _, true) (λ _, None) mid_march sample_session
      no_subscriber_db in
  co_mail o = [] ∧ plans (co_db o) = plans no_subscriber_db.
Proof.
  pose proof (checkout_failure_effect true (λ _ _ _, true) sample_to_id
                (λ _, true) (λ _, None) mid_march sample_session
                no_subscriber_db StripeError) as H.
  cbv zeta in *. refine (conj (proj1 (H _)) (proj1 (proj2 (H _))));
    by vm_compute.
Defined.

Lemma checkout_existing_subscriber_witness :
  Checkout.handle_checkout_session_completed true (λ _ _ _, true)
    sample_to_id (λ _, true) sample_retrieve mid_march sample_session
    (sample_db CANCELED 4)
  = mk_checkout_outcome
      (set_subscriptions (sample_db CANCELED 4)
         (<[7 := march_subscription]> (subscriptions (sample_db CANCELED 4))))
      (inr (7, march_subscription)) [] [].
Proof.
  refine (checkout_existing_subscriber true (λ _ _ _, true) sample_to_id
            (λ _, true) sample_retrieve mid_march sample_session
            (sample_db CANCELED 4) 7 march_subscription _ _).
  - by vm_compute.
  - eexists. by vm_compute.
Defined.

(** ** The views *)

Lemma get_or_create_current_set_subscriptions now user db ss :
  get_or_create_current now user (set_subscriptions db ss)
  = (set_subscriptions (get_or_create_current now user db).1 ss,
     (get_or_create_current now user db).2).
Proof.
  unfold get_or_create_current. cbn [usages set_subscriptions].
  destruct (current_period now) as [[ps pe]|e]; [|done].
  by destruct (Manager.get _ _) as [kv|[]].
Qed.

(** The quota check reads the status and the plan of the user's
    subscription, and nothing else of the subscriptions. *)
Lemma check_usage_quota_same_status now u db ss :
  (status <$> ss !! u) = (status <$> subscriptions db !! u) →
  (sub_plan <$> ss !! u) = (sub_plan <$> subscriptions db !! u) →
  check_usage_quota now u (set_subscriptions db ss)
  = (set_subscriptions (check_usage_quota now u db).1 ss,
     (check_usage_quota now u db).2).
Proof.
  intros Hst Hpl. unfold check_usage_quota. cbn [subscriptions set_subscriptions].
  destruct (ss !! u) as [s'|], (subscriptions db !! u) as [s|];
    try done; simpl in Hst, Hpl.
  injection Hst as Hst. injection Hpl as Hpl. rewrite Hst, Hpl.
  destruct (negb _); [done|].
  rewrite get_or_create_current_set_subscriptions.
  destruct (get_or_create_current now u db) as [db1 [[k r]|e]]; [|done].
  cbn [fst snd plans set_subscriptions].
  destruct (plans db1 !! sub_plan s) as [plan|]; [|done].
  by destruct (description_quota plan =? -1).
Qed.

(** X16.  Asking for cancellation at the period's end never changes
    what a user may generate: whatever Stripe answers, the plans, the
    usage rows and every subscription's status and plan are as before,
    and the quota check of any user at any instant returns what it
    would have returned. *)
Theorem cancel_subscription_keeps_access modify user db now u :
  let db' := (Views.cancel_subscription modify user db).1 in
  plans db' = plans db ∧ usages db' = usages db
  ∧ (status <$> subscriptions db' !! u) = (status <$> subscriptions db !! u)
  ∧ (check_usage_quota now u db').2 = (check_usage_quota now u db).2
  ∧ usages (check_usage_quota now u db').1
    = usages (check_usage_quota now u db).1.
Proof.
  cbv zeta. unfold Views.cancel_subscription.
  destruct (subscriptions db !! user) as [sub|] eqn:Hs; [|done].
  destruct (String.eqb _ _); [done|].
  destruct (modify _); [done|]. cbn [fst].
  set (sub' := mk_subscription _ _ _ _ _ _ _ _ _).
  assert ((status <$> <[user := sub']> (subscriptions db) !! u)
          = (status <$> subscriptions db !! u)
          ∧ (sub_plan <$> <[user := sub']> (subscriptions db) !! u)
            = (sub_plan <$> subscriptions db !! u)) as [Hst Hpl].
  { destruct (decide (u = user)) as [->|Hne].
    - by rewrite lookup_insert_eq, Hs.
    - by rewrite lookup_insert_ne. }
  do 3 (split; [done|]).
  by rewrite check_usage_quota_same_status.
Qed.

(** X17.  The cancellation request is recorded locally only after
    Stripe has accepted it: the view answers with a success message
    exactly when the user has a subscription with a Stripe id and the
    Stripe call returns, and then that subscription alone is changed,
    its [cancel_at_period_end] set and nothing else; in every other
    case (no subscription, no Stripe id, Stripe raising) it answers
    with an error message and the database is left as it was. *)
Theorem cancel_subscription_outcome modify user db :
  let db' := (Views.cancel_subscription modify user db).1 in
  let answer := (Views.cancel_subscription modify user db).2 in
  (rd_level answer = Success
   ↔ ∃ sub, subscriptions db !! user = Some sub
       ∧ stripe_subscription_id sub ≠ ""%string
       ∧ modify (stripe_subscription_id sub) = None)
  ∧ (rd_level answer = Error → db' = db)
  ∧ (rd_level answer = Success →
     ∃ sub sub',
       subscriptions db !! user = Some sub
       ∧ subscriptions db' = <[user := sub']> (subscriptions db)
       ∧ cancel_at_period_end sub' = true
       ∧ status sub' = status sub ∧ sub_plan sub' = sub_plan sub
       ∧ stripe_subscription_id sub' = stripe_subscription_id sub
       ∧ stripe_customer_id sub' = stripe_customer_id sub
       ∧ current_period_start sub' = current_period_start sub
       ∧ current_period_end sub' = current_period_end sub
       ∧ trial_end sub' = trial_end sub
       ∧ canceled_at sub' = canceled_at sub).
Proof.
  cbv zeta. unfold Views.cancel_subscription.
  destruct (subscriptions db !! user) as [sub|] eqn:Hs.
  2:{ cbn [fst snd rd_level]. split; [|done].
      split; [done|]. by intros (? & ? & _). }
  destruct (String.eqb_spec (stripe_subscription_id sub) "") as [He|Hne].
  { cbn [fst snd rd_level]. split; [|done].
    split; [done|]. intros (? & [= <-] & ? & _). done. }
  destruct (modify (stripe_subscription_id sub)) as [e|] eqn:Hm;
    cbn [fst snd rd_level].
  - split; [|done]. split; [done|]. intros (? & [= <-] & _ & ?). congruence.
  - split; [split; [|done]; intros _; by exists sub|].
    split; [done|]. intros _. eexists sub, _.
    split; [done|]. split; [done|]. done.
Qed.

Lemma cancel_subscription_outcome_witness :
  (Views.cancel_subscription stripe_down 7 (sample_db ACTIVE 4)).1
  = sample_db ACTIVE 4.
Proof.
  refine (proj1 (proj2 (cancel_subscription_outcome stripe_down 7
                          (sample_db ACTIVE 4))) _).
  reflexivity.
Defined.

Lemma answer_spec {A : Type} (o : outcome A) :
  wh_db (Views.answer o) = out_db o
  ∧ wh_status (Views.answer o)
    = match out_ret o with Ok _ => 200 | Raise _ => 500 end.
Proof. unfold Views.answer. by destruct (out_ret o). Qed.

Lemma checkout_delivery_independent E confirm confirm' to_id user_exists
    retrieve now session db :
  let o := Checkout.handle_checkout_session_completed E confirm to_id
             user_exists retrieve now session db in
  let o' := Checkout.handle_checkout_session_completed E confirm' to_id
              user_exists retrieve now session db in
  co_db o = co_db o' ∧ co_ret o = co_ret o'.
Proof.
  cbv zeta. unfold Checkout.handle_checkout_session_completed.
  destruct session as [[uid|] [pid|] [cust|] [sid|]];
    cbn [ses_user_id ses_plan_id ses_customer ses_subscription]; try done.
  destruct (negb _); [done|].
  destruct (to_id uid) as [user|e]; [|done].
  destruct (user_exists user); cbn [negb]; [|done].
  destruct (to_id pid) as [plan|e]; [|done].
  destruct (plans db !! plan) as [pl|]; [|done].
  destruct (retrieve sid) as [s|]; [|done].
  destruct (Checkout.defaults plan sid cust s) as [sub|e]; [|done].
  case_bool_decide; [|done].
  destruct (get_or_create_current now user _) as [db2 [kr|e]]; [|done].
  destruct E; [|done]. by destruct (confirm _ _ _), (confirm' _ _ _).
Qed.

Lemma handlers_delivery_independent E tr tr' now data inv db :
  (out_db (handle_subscription_deleted E tr now data db)
   = out_db (handle_subscription_deleted E tr' now data db)
   ∧ out_ret (handle_subscription_deleted E tr now data db)
     = out_ret (handle_subscription_deleted E tr' now data db))
  ∧ (out_db (handle_payment_failed E tr inv db)
     = out_db (handle_payment_failed E tr' inv db)
     ∧ out_ret (handle_payment_failed E tr inv db)
       = out_ret (handle_payment_failed E tr' inv db)).
Proof.
  split.
  - unfold handle_subscription_deleted.
    destruct (get_by_stripe_id (sd_id data) db) as [[u sub]|[]]; try done.
    unfold try_send. destruct E; [|done].
    by destruct (tr _ _), (tr' _ _).
  - unfold handle_payment_failed. destruct (negb _); [done|].
    destruct (get_by_stripe_id (inv_subscription inv) db) as [[u sub]|[]];
      try done.
    unfold try_send. destruct E; [|done].
    by destruct (tr _ _), (tr' _ _).
Qed.

(** X18.  What the webhook stores and what it answers to Stripe do not
    depend on the e-mail transports: with any two transports, for the
    notifications and for the confirmation, the database left and the
    HTTP status are the same.  The status is 400 exactly when the event
    could not be verified, and 200 or 500 otherwise. *)
Theorem stripe_webhook_delivery_independent E tr tr' confirm confirm' to_id
    user_exists retrieve now event db :
  let o := Views.stripe_webhook E tr confirm to_id user_exists retrieve
             now event db in
  let o' := Views.stripe_webhook E tr' confirm' to_id user_exists retrieve
              now event db in
  wh_db o = wh_db o' ∧ wh_status o = wh_status o'
  ∧ (event = None ↔ wh_status o = 400)
  ∧ (wh_status o = 200 ∨ wh_status o = 400 ∨ wh_status o = 500).
Proof.
  cbv zeta. unfold Views.stripe_webhook.
  destruct event as [[ty data]|]; [|by repeat split; eauto].
  destruct (String.eqb ty "checkout.session.completed").
  { destruct (checkout_delivery_independent E confirm confirm' to_id
                user_exists retrieve now (as_session data) db) as [Hd Hr].
    cbv zeta in Hd, Hr. rewrite <- Hr.
    destruct (co_ret _); cbn [wh_db wh_status];
      (split; [done|]); (split; [done|]); (split; [by split|]); eauto. }
  destruct (handlers_delivery_independent E tr tr' now (as_subscription data)
              (as_invoice data) db) as [[Hd1 Hr1] [Hd2 Hr2]].
  repeat match goal with
         | |- context [if String.eqb ty ?name then _ else _] =>
             destruct (String.eqb ty name)
         end;
    repeat match goal with
           | |- context [Views.answer ?o] =>
               let H := fresh in
               destruct (answer_spec o) as [-> H]; rewrite H; clear H
           end;
    rewrite <- ?Hr1, <- ?Hr2, <- ?Hd1, <- ?Hd2;
    try match goal with
        | |- context [out_ret ?o] => destruct (out_ret o)
        end;
    cbn [wh_db wh_status];
    (split; [done|]); (split; [done|]); (split; [by split|]); eauto.
Qed.

(** X19.  A [checkout.session.completed] event that lacks one of the
    user id, the plan id, the customer or the subscription (missing or
    empty) is answered with status 500, before Stripe or the database
    are consulted: nothing is stored and nothing is sent. *)
Theorem stripe_webhook_incomplete_checkout E tr confirm to_id user_exists
    retrieve now data db :
  truthy_id (eo_metadata_user_id data) && truthy_id (eo_metadata_plan_id data)
  && truthy_id (eo_customer data) && truthy_id (eo_subscription data) = false →
  Views.stripe_webhook E tr confirm to_id user_exists retrieve now
    (Some ("checkout.session.completed"%string, data)) db
  = mk_webhook_outcome db 500 [] [] ["Webhook error"%string].
Proof.
  intros Ht. unfold Views.stripe_webhook.
  rewrite String.eqb_refl.
  unfold Checkout.handle_checkout_session_completed, as_session.
  cbn [ses_user_id ses_plan_id ses_customer ses_subscription].
  destruct (eo_metadata_user_id data), (eo_metadata_plan_id data),
    (eo_customer data), (eo_subscription data); try done.
  by rewrite Ht.
Qed.

Lemma stripe_webhook_incomplete_checkout_witness :
  Views.stripe_webhook true (λ _ _, true) (λ _ _ _, true) sample_to_id
    (λ _, true) sample_retrieve mid_march
    (Some ("checkout.session.completed"%string,
           mk_event_object None None None None None None
             (Some "sub_test123"%string) (Some "cus_test123"%string)
             (Some "7"%string) None))
    no_subscriber_db
  = mk_webhook_outcome no_subscriber_db 500 [] [] ["Webhook error"%string].
Proof.
  by apply stripe_webhook_incomplete_checkout.
Defined.

(** ** [ListingService.regenerate_description] *)

Lemma nothing_counted_refl db : nothing_counted db db.
Proof. repeat split; eauto. Qed.

Lemma nothing_counted_trans db1 db2 db3 :
  nothing_counted db1 db2 → nothing_counted db2 db3 → nothing_counted db1 db3.
Proof.
  intros (Hp & Hs & Hk & Hz) (Hp' & Hs' & Hk' & Hz').
  split; [congruence|]. split; [congruence|]. split; [eauto|].
  intros k r Hr. destruct (Hz' k r Hr) as [Hr2|?]; [|by right]. eauto.
Qed.

Lemma get_or_create_current_nothing_counted now user db db1 res :
  get_or_create_current now user db = (db1, res) → nothing_counted db db1.
Proof.
  intros Hg.
  destruct (get_or_create_current_frame _ _ _ _ _ Hg)
    as (Hp & Hs & [->|(ps & pe & _ & Hfresh & Hu & _)] & _);
    [apply nothing_counted_refl|].
  do 2 (split; [done|]). rewrite Hu. split.
  - intros k r Hk. rewrite lookup_insert_ne; [done|].
    intros <-. by rewrite Hfresh in Hk.
  - intros k r. rewrite lookup_insert. case_decide.
    + intros [= <-]. by right.
    + by left.
Qed.

Lemma check_usage_quota_nothing_counted now user db db1 res :
  check_usage_quota now user db = (db1, res) → nothing_counted db db1.
Proof.
  unfold check_usage_quota.
  destruct (subscriptions db !! user) as [sub|];
    [|intros [= <- <-]; apply nothing_counted_refl].
  destruct (negb _); [intros [= <- <-]; apply nothing_counted_refl|].
  destruct (get_or_create_current now user db) as [db' [[k r]|e]] eqn:Hg.
  - destruct (plans db' !! sub_plan sub) as [plan|];
      [destruct (description_quota plan =? -1)|];
      intros [= <- <-]; by eapply get_or_create_current_nothing_counted.
  - intros [= <- <-]. by eapply get_or_create_current_nothing_counted.
Qed.

(** A call of [increment_usage] that does not return [True] has
    counted nothing and sent nothing. *)
Lemma increment_usage_unsuccessful E tr now1 now2 user db :
  out_ret (increment_usage E tr now1 now2 user db) ≠ Ok true →
  out_mail (increment_usage E tr now1 now2 user db) = []
  ∧ nothing_counted db (out_db (increment_usage E tr now1 now2 user db)).
Proof.
  unfold increment_usage.
  destruct (check_usage_quota now1 user db) as [db1 [[b rem]|e]] eqn:Hc.
  - apply check_usage_quota_nothing_counted in Hc.
    destruct b; cbn [negb]; [|done].
    destruct (get_or_create_current now2 user db1) as [db2 [[k r]|e]] eqn:Hg.
    + destruct (quota_warning _ _ _ _ _) as [mail log]. by intros [].
    + intros _. split; [done|]. cbn [out_db].
      eapply nothing_counted_trans; [done|].
      by eapply get_or_create_current_nothing_counted.
  - intros _. split; [done|]. by eapply check_usage_quota_nothing_counted.
Qed.

(** X20.  [regenerate_description] counts a description only when it
    reports success: whenever it returns [False] or raises, every usage
    row is as before (the quota checks may have added rows holding
    zero), plans and subscriptions are untouched, and no e-mail has
    been sent. *)
Theorem regenerate_unsuccessful_not_charged E tr str g now0 now1 now2 user db :
  let o := ListingService.regenerate_description E tr str g now0 now1 now2
             user db in
  (∀ message, out_ret o ≠ Ok (true, message)) →
  nothing_counted db (out_db o) ∧ out_mail o = [].
Proof.
  cbv zeta. unfold ListingService.regenerate_description.
  destruct (check_usage_quota now0 user db) as [db1 [[b rem]|e]] eqn:Hc;
    apply check_usage_quota_nothing_counted in Hc; [|done].
  destruct b; cbn [negb]; [|done].
  destruct g as [d|text]; [|done].
  destruct (_ || _); [done|].
  destruct (out_ret (increment_usage E tr now1 now2 user db1))
    as [b|e] eqn:Hr; cbn [out_ret out_db out_mail].
  - intros Hno. by destruct (Hno _ eq_refl).
  - intros _.
    destruct (increment_usage_unsuccessful E tr now1 now2 user db1)
      as [Hm Hn]; [by rewrite Hr|].
    split; [by eapply nothing_counted_trans|done].
Qed.

Lemma regenerate_unsuccessful_not_charged_witness :
  let o := ListingService.regenerate_description true (λ _ _, true)
             (λ _, "error"%string) (Returned "API Error: timeout")
             mid_march mid_march mid_march 7 (sample_db ACTIVE 4) in
  nothing_counted (sample_db ACTIVE 4) (out_db o) ∧ out_mail o = [].
Proof.
  apply (regenerate_unsuccessful_not_charged true (λ _ _, true)
           (λ _, "error"%string) (Returned "API Error: timeout")
           mid_march mid_march mid_march 7 (sample_db ACTIVE 4)).
  intros message. by vm_compute.
Defined.

(** X21.  When the quota check denies, or the generator raises or
    returns one of its error messages (any text beginning with
    "API Error" or "Error"), [regenerate_description] stops before the
    usage is incremented: it does not report success, the database is
    the one the quota check left, and nothing is sent.  A denied check
    gives the quota message whatever the generator would have done. *)
Theorem regenerate_stops_before_charge E tr str g now0 now1 now2 user db :
  generation_failed g
  ∨ (∃ rem, (check_usage_quota now0 user db).2 = Ok (false, rem)) →
  let o := ListingService.regenerate_description E tr str g now0 now1 now2
             user db in
  out_db o = (check_usage_quota now0 user db).1
  ∧ out_mail o = []
  ∧ (∀ message, out_ret o ≠ Ok (true, message))
  ∧ ((∃ rem, (check_usage_quota now0 user db).2 = Ok (false, rem)) →
     out_ret o = Ok (false, ListingService.QUOTA_EXCEEDED)).
Proof.
  intros Hwhy. cbv zeta. unfold ListingService.regenerate_description.
  destruct (check_usage_quota now0 user db) as [db1 [[b rem]|e]] eqn:Hc;
    cbn [fst snd] in *.
  2:{ repeat (split; [done|]). by intros (? & ?). }
  destruct b; cbn [negb].
  2:{ by repeat (split; [done|]). }
  destruct Hwhy as [Hg|(? & [=])].
  destruct g as [d|text]; simpl in Hg.
  - rewrite Hg. repeat (split; [done|]). by intros (? & [=]).
  - repeat (split; [done|]). by intros (? & [=]).
Qed.

Lemma regenerate_stops_before_charge_witness :
  let o := ListingService.regenerate_description true (λ _ _, true)
             (λ _, "error"%string) (Returned "Error parsing API response: 0")
             mid_march mid_march mid_march 7 (sample_db ACTIVE 4) in
  out_db o = (check_usage_quota mid_march 7 (sample_db ACTIVE 4)).1
  ∧ out_mail o = [].
Proof.
  pose proof (regenerate_stops_before_charge true (λ _ _, true)
                (λ _, "error"%string)
                (Returned "Error parsing API response: 0")
                mid_march mid_march mid_march 7 (sample_db ACTIVE 4)
                (or_introl eq_refl)) as (H1 & H2 & _).
  exact (conj H1 H2).
Defined.

(** X22.  Within one billing period, for an active or trialing
    subscriber on a limited plan with quota left, a regeneration whose
    generator returns a description reports success and counts exactly
    one description. *)
Theorem regenerate_success_charges_one E tr str d user T ps pe sub plan db c
    t0 t1 t2 :
  same_billing_period T ps pe → is_active sub →
  description_quota plan ≠ -1 →
  subscribed user sub plan db → period_count user T db c →
  t0 ∈ T → t1 ∈ T → t2 ∈ T →
  c < description_quota plan →
  String.prefix "API Error" d || String.prefix "Error" d = false →
  let o := ListingService.regenerate_description E tr str (Returned d)
             t0 t1 t2 user db in
  out_ret o = Ok (true, "Description regenerated successfully!"%string)
  ∧ period_count user T (out_db o) (c + 1)
  ∧ subscribed user sub plan (out_db o).
Proof.
  intros HT Ha Hf Hs Hc H0 H1 H2 Hlt Hd. cbv zeta.
  destruct (check_usage_quota_in_period user T ps pe sub plan HT Ha Hf
              db c t0 Hs Hc H0) as (db1 & k & r & Hchk & _ & Hr & Hu & Hs1).
  assert (period_count user T db1 c) as Hc1 by (right; by exists k, r).
  destruct (increment_usage_in_period E tr user T ps pe sub plan HT Ha Hf
              db1 c t1 t2 Hs1 Hc1 H1 H2) as (Hret & Hcount & Hsub).
  rewrite bool_decide_eq_true_2 in Hret, Hcount by done.
  unfold ListingService.regenerate_description.
  rewrite Hchk, bool_decide_eq_true_2 by done. cbn [negb]. rewrite Hd, Hret.
  done.
Qed.

Lemma regenerate_success_charges_one_witness :
  let o := ListingService.regenerate_description true (λ _ _, true)
             (λ _, "error"%string) (Returned sample_description)
             mid_march mid_march mid_march 7 (sample_db ACTIVE 4) in
  out_ret o = Ok (true, "Description regenerated successfully!"%string)
  ∧ period_count 7 march (out_db o) (4 + 1)
  ∧ subscribed 7 (sample_subscription ACTIVE) (mk_plan "Free" 5 true)
      (out_db o).
Proof.
  apply (regenerate_success_charges_one true (λ _ _, true)
           (λ _, "error"%string) sample_description 7 march
           (mk_datetime 2024 3 1 0 0 0 0) (mk_datetime 2024 3 31 23 59 59 0)
           (sample_subscription ACTIVE) (mk_plan "Free" 5 true)
           (sample_db ACTIVE 4) 4 mid_march mid_march mid_march).
  - apply march_same_billing_period.
  - by left.
  - done.
  - by split.
  - apply sample_db_period_count.
  - apply list_elem_of_singleton. reflexivity.
  - apply list_elem_of_singleton. reflexivity.
  - apply list_elem_of_singleton. reflexivity.
  - simpl. lia.
  - reflexivity.
Defined.

(** ** A fresh period *)

(** The first quota check of a period: the row is created at zero and
    the whole quota is reported. *)
Lemma check_usage_quota_fresh now user db sub plan ps pe :
  subscribed user sub plan db → is_active sub → description_quota plan ≠ -1 →
  current_period now = Ok (ps, pe) →
  filter (is_current user now) (usages db) = ∅ →
  check_usage_quota now user db
  = (set_usages db (<[Manager.next_pk (usages db) := fresh_usage user ps pe]>
                      (usages db)),
     Ok (0 <? description_quota plan, Finite (description_quota plan))).
Proof.
  intros [Hs Hp] Ha Hq Hper Hf.
  rewrite (check_usage_quota_finite now user db sub plan _ _ _ Hs Ha
             (get_or_create_current_created now user db ps pe Hper Hf) Hp Hq).
  simpl. by rewrite Z.sub_0_r.
Qed.

(** X23.  The quota starts afresh with each period: when every usage
    row of an active or trialing subscriber on a limited plan ended
    before [now], whatever those rows count, the quota check at [now]
    reports the whole quota, and does so by adding one row at zero for
    the period of [now], the earlier rows being kept. *)
Theorem quota_resets_in_new_period now user db sub plan :
  subscribed user sub plan db → is_active sub → description_quota plan ≠ -1 →
  in_billing_period now →
  (∀ k r, usages db !! k = Some r → usage_user r = user →
     dt_leb now (period_end r) = false) →
  ∃ db1 k r,
    check_usage_quota now user db
    = (db1, Ok (0 <? description_quota plan, Finite (description_quota plan)))
    ∧ usages db !! k = None ∧ usages db1 = <[k := r]> (usages db)
    ∧ usage_user r = user ∧ descriptions_generated r = 0 ∧ covers now r.
Proof.
  intros Hs Ha Hq (ps & pe & Hper & Hps & Hpe) Hold.
  assert (filter (is_current user now) (usages db) = ∅) as Hf.
  { apply map_empty_filter_2. intros k r Hk [Hu [_ Hc]]. simpl in *.
    rewrite (Hold k r Hk Hu) in Hc. done. }
  eexists _, _, _.
  split; [by apply (check_usage_quota_fresh now user db sub plan ps pe)|].
  split; [apply next_pk_fresh|]. by repeat split.
Qed.

Lemma quota_resets_in_new_period_witness :
  ∃ db1 k r,
    check_usage_quota mid_march 7 after_january_db
    = (db1, Ok (0 <? 5, Finite 5))
    ∧ usages after_january_db !! k = None
    ∧ usages db1 = <[k := r]> (usages after_january_db)
    ∧ usage_user r = 7 ∧ descriptions_generated r = 0 ∧ covers mid_march r.
Proof.
  refine (quota_resets_in_new_period mid_march 7 after_january_db
            (sample_subscription ACTIVE) (mk_plan "Free" 5 true)
            _ _ _ mid_march_in_billing_period _).
  - by split.
  - by left.
  - done.
  - intros k r Hk _. unfold after_january_db, usages in Hk.
    apply lookup_singleton_Some in Hk as [_ <-]. by vm_compute.
Defined.

(** X24.  A new subscriber starts with the whole quota: after the
    checkout of a user who had no subscription and no usage row, on a
    limited plan and with an active or trialing Stripe status, the
    quota check at any instant of the period of the checkout reports
    the whole quota of the plan and finds the usage row the checkout
    opened, without writing. *)
Theorem checkout_grants_full_quota E confirm to_id user_exists retrieve now
    session db user sub plan T ps pe :
  co_ret (Checkout.handle_checkout_session_completed E confirm to_id
            user_exists retrieve now session db) = inr (user, sub) →
  subscriptions db !! user = None →
  (∀ k r, usages db !! k = Some r → usage_user r ≠ user) →
  is_active sub → plans db !! sub_plan sub = Some plan →
  description_quota plan ≠ -1 →
  same_billing_period T ps pe → now ∈ T →
  let db' := co_db (Checkout.handle_checkout_session_completed E confirm
                      to_id user_exists retrieve now session db) in
  ∀ t, t ∈ T →
    check_usage_quota t user db'
    = (db', Ok (0 <? description_quota plan, Finite (description_quota plan))).
Proof.
  intros Hr Hnew Hnone Ha Hplan Hq HT Hnow. cbv zeta. intros t Ht.
  destruct (checkout_cases E confirm to_id user_exists retrieve now session db)
    as [(_ & _ & r & Hr')
       |(uid & pid & cust & sid & u & pl & s & sub0 & -> & Hu & Hx & Hp
         & Hpl & Hs & Hd & Hrun)]; [congruence|].
  cbv zeta in Hrun.
  destruct Hrun as [(Hold & Hrun)|(_ & db2 & res & Hg & Hrun)];
    rewrite Hrun in Hr |- *.
  { injection Hr as <- <-. rewrite Hnew in Hold. by destruct Hold. }
  destruct res as [kr|e]; [|done]. injection Hr as <- <-. cbn [co_db].
  assert (∀ t', filter (is_current u t') (usages db) = ∅) as Hempty.
  { intros t'. apply map_empty_filter_2. intros k r Hk [Huser _].
    by apply (Hnone k r Hk). }
  destruct (HT now Hnow) as (Hper & Hps & Hpe).
  set (db1 := set_subscriptions db (<[u := sub0]> (subscriptions db))) in *.
  rewrite (get_or_create_current_created now u db1 ps pe Hper (Hempty now))
    in Hg.
  injection Hg as <- <-.
  destruct (HT t Ht) as (Hper' & Hps' & Hpe').
  assert (get_or_create_current t u
            (set_usages db1
               (<[Manager.next_pk (usages db1) := fresh_usage u ps pe]>
                  (usages db1)))
          = (set_usages db1
               (<[Manager.next_pk (usages db1) := fresh_usage u ps pe]>
                  (usages db1)),
             Ok (Manager.next_pk (usages db1), fresh_usage u ps pe))) as Hfound.
  { eapply get_or_create_current_found; [exact Hper'|].
    simpl. by apply filter_after_create. }
  set (db2 := set_usages db1 _) in *.
  assert (subscriptions db2 !! u = Some sub0) as Hsub
    by (simpl; apply lookup_insert_eq).
  rewrite (check_usage_quota_finite t u db2 sub0 plan _ _ _ Hsub Ha Hfound
             Hplan Hq).
  simpl. by rewrite Z.sub_0_r.
Qed.

Lemma checkout_grants_full_quota_witness :
  let db' :=
    co_db (Checkout.handle_checkout_session_completed true (λ _ _ _, true)
             sample_to_id (λ _, true) sample_retrieve mid_march
             sample_session no_subscriber_db) in
  check_usage_quota mid_march 7 db' = (db', Ok (0 <? 5, Finite 5)).
Proof.
  refine (checkout_grants_full_quota true (λ _ _ _, true) sample_to_id
            (λ _, true) sample_retrieve mid_march sample_session
            no_subscriber_db 7 march_subscription (mk_plan "Free" 5 true)
            march (first_instant 2024 3) (last_second 2024 3)
            _ _ _ _ _ _ march_same_billing_period _ mid_march _).
  - by vm_compute.
  - by vm_compute.
  - intros k r Hk. unfold no_subscriber_db, usages in Hk.
    by rewrite lookup_empty in Hk.
  - by left.
  - by vm_compute.
  - done.
  - apply list_elem_of_singleton. reflexivity.
  - apply list_elem_of_singleton. reflexivity.
Defined.

Lemma days_until_renewal_floor_witness :
  0 ≤ Models.days_until_renewal mid_march march_subscription.
Proof.
  exact (proj1 (days_until_renewal_floor mid_march march_subscription)).
Defined.
